(** * ai-search-intelligence: the analysis core

    A shallow embedding of the two analysis engines of the repository,
    [analysis/gap_identification.py] (class [ContentGapAnalyzer]) and
    [analysis/pattern_recognition.py] (class [CitationPatternAnalyzer]),
    followed by the properties established about them.

    Conventions of the embedding.
    - Python [float] values (scores, means, shares) are exact rationals
      ([Q]); equalities between scores are stated with [==].
    - Python [str] is [string]; [lower], [split] and the regular expressions
      are those of ASCII text.
    - A batch of citation dicts is a list of records together with the set
      of keys the dicts carry; [pd.DataFrame(citations)] has exactly those
      keys as columns.
    - Exceptions are values: a sub-scan that can raise returns [Exn].
    - What the code obtains from outside the repository (string hashing, the
      iteration order of a [set], scikit-learn's vectorizer and k-means, float
      formatting, today's date) is a field of the record [Env]. *)

From Stdlib Require Import List String Ascii Bool Arith ZArith QArith Qminmax Qround.
From Stdlib Require Import Lia Lqa Permutation Sorted DecimalString.
Import ListNotations.

Set Implicit Arguments.

(** ** Python and pandas primitives *)

Module Py.

(** *** Exceptions *)

Inductive PyError : Type :=
| KeyError (missing : list string)
| ValueError (msg : string).

Inductive Exn (A : Type) : Type :=
| Ok (a : A)
| Raise (e : PyError).

Arguments Ok {A} a.
Arguments Raise {A} e.

Definition bind {A B} (m : Exn A) (k : A -> Exn B) : Exn B :=
  match m with
  | Ok a => k a
  | Raise e => Raise e
  end.

(** *** Strings *)

Definition lower_ascii (c : ascii) : ascii :=
  let n := nat_of_ascii c in
  if (65 <=? n)%nat && (n <=? 90)%nat then ascii_of_nat (n + 32) else c.

Fixpoint lower (s : string) : string :=
  match s with
  | EmptyString => EmptyString
  | String c t => String (lower_ascii c) (lower t)
  end.

(** [needle in hay] *)
Fixpoint contains (needle hay : string) : bool :=
  String.prefix needle hay ||
  match hay with
  | EmptyString => false
  | String _ t => contains needle t
  end.

(** [any(word in s for word in words)] *)
Definition any_in (words : list string) (s : string) : bool :=
  existsb (fun w => contains w s) words.

(** [str.isspace] on one ASCII character *)
Definition is_space (c : ascii) : bool :=
  let n := nat_of_ascii c in
  ((9 <=? n)%nat && (n <=? 13)%nat) || ((28 <=? n)%nat && (n <=? 32)%nat).

(** [\w] on one ASCII character *)
Definition is_word (c : ascii) : bool :=
  let n := nat_of_ascii c in
  ((48 <=? n)%nat && (n <=? 57)%nat) || ((65 <=? n)%nat && (n <=? 90)%nat)
  || ((97 <=? n)%nat && (n <=? 122)%nat) || (n =? 95)%nat.

(** [s.split()]: the maximal runs of non-blank characters. [cur] is the
    run being read, reversed. *)
Fixpoint rev_string (acc s : string) : string :=
  match s with
  | EmptyString => acc
  | String c t => rev_string (String c acc) t
  end.

Definition flush (cur : string) : list string :=
  match cur with
  | EmptyString => []
  | _ => [rev_string EmptyString cur]
  end.

Fixpoint split_aux (cur s : string) : list string :=
  match s with
  | EmptyString => flush cur
  | String c t =>
      if is_space c then flush cur ++ split_aux EmptyString t
      else split_aux (String c cur) t
  end.

Definition split (s : string) : list string := split_aux EmptyString s.

(** [s.replace(c, r)] for a one-character [c] *)
Fixpoint replace_char (c : ascii) (r : string) (s : string) : string :=
  match s with
  | EmptyString => EmptyString
  | String a t =>
      if Ascii.eqb a c then r ++ replace_char c r t
      else String a (replace_char c r t)
  end.

(** [sep.join(l)] *)
Definition join (sep : string) (l : list string) : string := String.concat sep l.

Definition mem (s : string) (l : list string) : bool :=
  existsb (String.eqb s) l.

(** [str(n)] for integers *)
Definition str_of_Z (z : Z) : string := NilZero.string_of_int (Z.to_int z).
Definition str_of_nat (n : nat) : string := NilZero.string_of_uint (Nat.to_uint n).

(** *** Regular expressions of the question patterns

    Each pattern has the shape [\bw1\s+w2\b] or [\bw\b]. [match_here ws s]
    matches [w1 \s+ w2 ... \b] at the start of [s]; [search] tries every
    position that has a word boundary in front of it. *)

Fixpoint strip_prefix (w s : string) : option string :=
  match w with
  | EmptyString => Some s
  | String a w' =>
      match s with
      | EmptyString => None
      | String b s' => if Ascii.eqb a b then strip_prefix w' s' else None
      end
  end.

Fixpoint skip_spaces (s : string) : string :=
  match s with
  | String c t => if is_space c then skip_spaces t else s
  | EmptyString => s
  end.

Definition at_boundary_end (s : string) : bool :=
  match s with
  | EmptyString => true
  | String c _ => negb (is_word c)
  end.

Fixpoint match_here (ws : list string) (s : string) : bool :=
  match ws with
  | [] => at_boundary_end s
  | w :: ws' =>
      match strip_prefix w s with
      | None => false
      | Some rest =>
          match ws' with
          | [] => at_boundary_end rest
          | _ =>
              match rest with
              | String c t => is_space c && match_here ws' (skip_spaces t)
              | EmptyString => false
              end
          end
      end
  end.

Fixpoint search_from (ws : list string) (prev_word : bool) (s : string) : bool :=
  (negb prev_word && match_here ws s) ||
  match s with
  | EmptyString => false
  | String c t => search_from ws (is_word c) t
  end.

(** [re.search(p, s)] where [p] is the alternation of the word sequences [alts] *)
Definition re_search (alts : list (list string)) (s : string) : bool :=
  existsb (fun ws => search_from ws false s) alts.

(** *** Lists *)

Section Lists.
Context {A : Type}.
Variable eqb : A -> A -> bool.

Definition memb (x : A) (l : list A) : bool := existsb (eqb x) l.

(** [Series.unique()], [dict.fromkeys]: first occurrences, in order *)
Fixpoint unique_aux (seen : list A) (l : list A) : list A :=
  match l with
  | [] => []
  | x :: t => if memb x seen then unique_aux seen t
              else x :: unique_aux (x :: seen) t
  end.

Definition unique (l : list A) : list A := unique_aux [] l.

Definition count_occ_b (x : A) (l : list A) : nat :=
  List.length (filter (eqb x) l).

(** A stable insertion sort: [le x y] says that [x] may stand before [y]. *)
Variable le : A -> A -> bool.

Fixpoint insert (x : A) (l : list A) : list A :=
  match l with
  | [] => [x]
  | y :: t => if le x y then x :: l else y :: insert x t
  end.

Fixpoint sort (l : list A) : list A :=
  match l with
  | [] => []
  | x :: t => insert x (sort t)
  end.

Definition leP (x y : A) : Prop := le x y = true.
End Lists.

(** [Series.value_counts()]: the distinct values with their counts, most
    frequent first; equal counts keep the order of first occurrence. *)
Definition value_counts (l : list string) : list (string * nat) :=
  sort (fun a b => (snd b <=? snd a)%nat)
       (map (fun v => (v, count_occ_b String.eqb v l)) (unique String.eqb l)).

(** The keys of [groupby(col)]: the distinct values, sorted. *)
Definition group_keys (l : list string) : list string :=
  sort String.leb (unique String.eqb l).

(** *** Rational arithmetic *)

Definition Qlt_bool (x y : Q) : bool := negb (Qle_bool y x).

Definition Qsum (l : list Q) : Q := fold_right Qplus 0 l.

Definition Qnat (n : nat) : Q := inject_Z (Z.of_nat n).

(** [Series.mean()], as the exact quotient of the exact sum. pandas rounds
    the sum and the quotient to the nearest float, so a mean that lies
    exactly on a threshold here can fall an ulp to either side of it in the
    code. *)
Definition mean (l : list Q) : Q := Qsum l / Qnat (List.length l).

(** [numpy.rint]: to the nearest integer, ties to the even one *)
Definition rint (x : Q) : Z :=
  let f := Qfloor x in
  let r := x - inject_Z f in
  if Qlt_bool r (1#2) then f
  else if Qlt_bool (1#2) r then (f + 1)%Z
  else if Z.even f then f else (f + 1)%Z.

(** [DataFrame.round(3)] on one cell, of the exact value: a value whose
    third decimal is followed by an exact 5 can round the other way in the
    code, where the float next to it is rounded. *)
Definition round3 (x : Q) : Q := inject_Z (rint (x * 1000)) / 1000.

End Py.

Import Py.
Open Scope string_scope.
Open Scope Q_scope.

(** ** Data model *)

(** A value of the open [metadata] mapping: a scalar ([str], [int], [float],
    [bool]), kept as its [str()] rendering, or anything else. *)
Inductive MetaValue : Type :=
| MScalar (rendering : string)
| MNested.

(** One citation dict. [created_at] is a naive timestamp, in seconds since
    1970-01-01 00:00. *)
Record CitationRecord : Type := {
  engine : string;
  query : string;
  url : string;
  title : string;
  snippet : string;
  position : Z;
  citation_type : string;
  source_domain : string;
  prominence_score : Q;
  metadata : list (string * MetaValue);
  created_at : Z
}.

(** [pd.DataFrame(citations)]: the dicts of a batch carry the keys
    [columns]; a field whose key is not among them is never read. *)
Record DataFrame : Type := {
  columns : list string;
  rows : list CitationRecord
}.

Definition has_col (c : string) (df : DataFrame) : bool := mem c (columns df).

(** The keys of a complete citation record. *)
Definition all_keys : list string :=
  ["engine"; "query"; "url"; "title"; "snippet"; "position"; "citation_type";
   "source_domain"; "prominence_score"; "metadata"; "created_at"].

(** [df[df['query'] == q]] *)
Definition rows_of_query (df : DataFrame) (q : string) : list CitationRecord :=
  filter (fun r => String.eqb (query r) q) (rows df).

(** [Series.get(key, 0)] on a [value_counts] result *)
Fixpoint get_count (vc : list (string * nat)) (k : string) : nat :=
  match vc with
  | [] => 0
  | (k', n) :: t => if String.eqb k' k then n else get_count t k
  end.

(** ** What the engines take from their environment *)

Record Env : Type := {
  (** [hash(s)] of a string, fixed for the life of the process *)
  py_hash : string -> Z;
  (** the order in which a [set] holding these strings is iterated *)
  set_iter : list string -> list string;
  (** [format(x, spec)] of a float *)
  format_float : string -> Q -> string;
  (** [datetime.now().strftime('%Y%m%d')] *)
  today : string;
  (** the [try] block of [_find_related_queries]: TF-IDF vectors of
      [all_queries + [query]], cosine similarities, the five most similar
      above 0.3; [None] when scikit-learn raises *)
  tfidf_related : string -> list string -> option (list string);
  (** [TfidfVectorizer(max_features, stop_words='english',
      ngram_range=(1,2)).fit_transform(docs)]; [None] when it raises *)
  Matrix : Type;
  tfidf_fit_transform : nat -> list string -> option Matrix;
  (** [KMeans(n_clusters, random_state).fit_predict(X)], run while numpy's
      global generator is in a given state; [None] when it raises *)
  NumpyState : Type;
  kmeans_fit_predict : nat -> option Z -> NumpyState -> Matrix -> option (list nat);
  (** an integer [random_state] seeds a private generator: the global one
      is not consulted *)
  kmeans_seeded : forall k seed g1 g2 X,
    kmeans_fit_predict k (Some seed) g1 X = kmeans_fit_predict k (Some seed) g2 X
}.

(** ** Gap identification engine *)

Inductive Level : Type := low | medium | high.

Inductive GapType : Type :=
| no_citations
| weak_citations
| competitor_dominated
| topic_cluster_gap
| question_variation.

Record ContentGap : Type := {
  gap_id : string;
  query_text : string;
  gap_type : GapType;
  opportunity_score : Q;
  suggested_content_type : string;
  suggested_topics : list string;
  competing_domains : list string;
  search_volume_estimate : Z;
  difficulty_score : Q;
  priority : Level;
  reasoning : string;
  related_queries : list string;
  content_angle_suggestions : list string;
  estimated_effort : Level;
  potential_impact : Level
}.

Definition GapType_eqb (a b : GapType) : bool :=
  match a, b with
  | no_citations, no_citations
  | weak_citations, weak_citations
  | competitor_dominated, competitor_dominated
  | topic_cluster_gap, topic_cluster_gap
  | question_variation, question_variation => true
  | _, _ => false
  end.

(** *** Heuristics on the query text *)

Definition _suggest_content_type_for_query (q : string) : string :=
  let query_lower := lower q in
  if any_in ["how to"; "how do"; "tutorial"; "guide"; "step"] query_lower then "tutorial_guide"
  else if any_in ["what is"; "definition"; "meaning"] query_lower then "explainer_article"
  else if any_in ["best"; "top"; "review"; "comparison"; "vs"] query_lower then "comparison_review"
  else if any_in ["tool"; "calculator"; "generator"] query_lower then "interactive_tool"
  else if contains "?" q || any_in ["why"; "when"; "where"] query_lower then "faq_article"
  else "comprehensive_article".

Definition topic_stop_words : list string :=
  ["what"; "is"; "how"; "to"; "do"; "can"; "why"; "when"; "where"; "which"; "the";
   "a"; "an"; "and"; "or"; "but"; "in"; "on"; "at"; "by"; "for"; "with"; "about"].

Definition _extract_topics_from_query (q : string) : list string :=
  let words := split (replace_char "?"%char "" (lower q)) in
  let topics :=
    filter (fun w => (2 <? String.length w)%nat && negb (mem w topic_stop_words)) words in
  firstn 5 (unique String.eqb topics).

Definition _estimate_search_volume (q : string) : Z :=
  let query_lower := lower q in
  let n := List.length (split q) in
  if any_in ["how to"; "tutorial"] query_lower then 2000%Z
  else if any_in ["best"; "top"; "review"] query_lower then 1500%Z
  else if (6 <? n)%nat then 300%Z
  else if (n <=? 2)%nat then 3000%Z
  else 1000%Z.

(** The [except] branch of [_find_related_queries]: word overlap, at most
    [room] results. *)
Fixpoint overlap_scan (q : string) (query_words : list string)
    (all_queries : list string) (room : nat) : list string :=
  match room with
  | O => []
  | S room' =>
      match all_queries with
      | [] => []
      | other :: t =>
          if String.eqb other q then overlap_scan q query_words t room
          else
            let other_words := split (lower other) in
            let overlap := List.length (filter (fun w => mem w other_words) query_words) in
            if (2 <=? overlap)%nat then other :: overlap_scan q query_words t room'
            else overlap_scan q query_words t room
      end
  end.

Definition _find_related_queries (E : Env) (q : string) (all_queries : list string)
  : list string :=
  if (List.length all_queries <? 2)%nat then []
  else
    match tfidf_related E q all_queries with
    | Some related => related
    | None => overlap_scan q (unique String.eqb (split (lower q))) all_queries 5
    end.

Definition _suggest_content_angles (q : string) (improve_existing differentiate : bool)
    (cluster_context : list string) : list string :=
  let query_lower := lower q in
  let base :=
    if contains "how" query_lower then
      ["Step-by-step tutorial with screenshots";
       "Video walkthrough with examples";
       "Common mistakes to avoid guide"]
    else if contains "what" query_lower then
      ["Comprehensive definition with examples";
       "Visual infographic explanation";
       "Comparison with similar concepts"]
    else if contains "best" query_lower then
      ["Data-driven comparison with pros/cons";
       "User review aggregation";
       "Expert recommendations with reasoning"]
    else [] in
  let improve :=
    if improve_existing then
      ["More detailed analysis than existing content";
       "Recent data and updated information";
       "Original research or case studies"]
    else [] in
  let differ :=
    if differentiate then
      ["Unique perspective or contrarian viewpoint";
       "Personal experience or case study approach";
       "Interactive elements or tools"]
    else [] in
  let cluster :=
    match cluster_context with
    | [] => []
    | _ => ["Comprehensive resource covering related topics"]
    end in
  firstn 5 (base ++ improve ++ differ ++ cluster).

Definition _estimate_content_effort (q : string) : Level :=
  let query_lower := lower q in
  if any_in ["api"; "code"; "programming"; "technical"; "advanced"; "enterprise"] query_lower
  then high
  else if any_in ["best"; "comparison"; "review"; "vs"; "analysis"] query_lower then high
  else if any_in ["how to"; "tutorial"; "guide"; "step"] query_lower then medium
  else if any_in ["what is"; "definition"; "meaning"] query_lower then low
  else medium.

Definition _generate_question_variation (topic question_type : string) : string :=
  if String.eqb question_type "what_is" then "What is " ++ topic ++ "?"
  else if String.eqb question_type "how_to" then "How to " ++ topic
  else if String.eqb question_type "best" then "Best " ++ topic
  else if String.eqb question_type "why" then "Why " ++ topic
  else if String.eqb question_type "when" then "When " ++ topic
  else if String.eqb question_type "where" then "Where " ++ topic
  else if String.eqb question_type "which" then "Which " ++ topic
  else if String.eqb question_type "vs_comparison" then topic ++ " vs alternatives"
  else topic.

Definition _map_question_type_to_content (question_type : string) : string :=
  if String.eqb question_type "what_is" then "explainer_article"
  else if String.eqb question_type "how_to" then "tutorial_guide"
  else if String.eqb question_type "best" then "comparison_review"
  else if String.eqb question_type "why" then "analytical_article"
  else if String.eqb question_type "when" then "timing_guide"
  else if String.eqb question_type "where" then "directory_article"
  else if String.eqb question_type "which" then "selection_guide"
  else if String.eqb question_type "vs_comparison" then "comparison_article"
  else "comprehensive_article".

Definition _suggest_content_angles_for_question_type (question_type topic : string)
  : list string :=
  if String.eqb question_type "what_is" then
    ["Complete beginner's guide to " ++ topic;
     "Visual explanation of " ++ topic ++ " with examples";
     topic ++ " explained in simple terms"]
  else if String.eqb question_type "how_to" then
    ["Step-by-step " ++ topic ++ " tutorial";
     topic ++ " for beginners";
     "Advanced " ++ topic ++ " techniques"]
  else if String.eqb question_type "best" then
    ["Top-rated " ++ topic ++ " options";
     topic ++ " comparison with pros and cons";
     "Expert recommendations for " ++ topic]
  else ["Comprehensive guide to " ++ topic].

(** *** The five gap finders *)

Definition mk_no_citations_gap (E : Env) (tracked_queries : list string) (q : string)
  : ContentGap :=
  {| gap_id := "no_citations_" ++ str_of_Z (py_hash E q);
     query_text := q;
     gap_type := no_citations;
     opportunity_score := 0.8;
     suggested_content_type := _suggest_content_type_for_query q;
     suggested_topics := _extract_topics_from_query q;
     competing_domains := [];
     search_volume_estimate := _estimate_search_volume q;
     difficulty_score := 0.2;
     priority := high;
     reasoning := "No citations found for '" ++ q
                  ++ "' - clear opportunity for original content";
     related_queries := _find_related_queries E q tracked_queries;
     content_angle_suggestions := _suggest_content_angles q false false [];
     estimated_effort := _estimate_content_effort q;
     potential_impact := high |}.

(** [df[df['query'] == q]['source_domain'].unique().tolist()
     if 'source_domain' in df.columns else []] *)
Definition competing_domains_of (df : DataFrame) (q : string) : list string :=
  if has_col "source_domain" df
  then unique String.eqb (map source_domain (rows_of_query df q))
  else [].

Definition mk_few_citations_gap (E : Env) (df : DataFrame)
    (tracked_queries : list string) (q : string) (citation_count : nat) : ContentGap :=
  {| gap_id := "weak_citations_" ++ str_of_Z (py_hash E q);
     query_text := q;
     gap_type := weak_citations;
     opportunity_score := 0.7;
     suggested_content_type := _suggest_content_type_for_query q;
     suggested_topics := _extract_topics_from_query q;
     competing_domains := competing_domains_of df q;
     search_volume_estimate := _estimate_search_volume q;
     difficulty_score := 0.3;
     priority := high;
     reasoning := "Only " ++ str_of_nat citation_count ++ " citations for '" ++ q
                  ++ "' - opportunity to dominate";
     related_queries := _find_related_queries E q tracked_queries;
     content_angle_suggestions := _suggest_content_angles q false false [];
     estimated_effort := _estimate_content_effort q;
     potential_impact := high |}.

Definition _find_no_citation_gaps (E : Env) (df : DataFrame)
    (tracked_queries : list string) : list ContentGap :=
  if negb (has_col "query" df) then []
  else
    let query_citation_counts := value_counts (map query (rows df)) in
    flat_map
      (fun q =>
         let citation_count := get_count query_citation_counts q in
         if (citation_count =? 0)%nat then [mk_no_citations_gap E tracked_queries q]
         else if (citation_count <=? 2)%nat
              then [mk_few_citations_gap E df tracked_queries q citation_count]
              else [])
      tracked_queries.

(** One row of [df.groupby('query')['prominence_score'].agg(['mean','count'])] *)
Definition query_prominence (df : DataFrame) : list (string * (Q * nat)) :=
  map (fun q =>
         let scores := map prominence_score (rows_of_query df q) in
         (q, (mean scores, List.length scores)))
      (group_keys (map query (rows df))).

Definition mk_low_prominence_gap (E : Env) (df : DataFrame) (q : string) (mean_ : Q)
  : ContentGap :=
  {| gap_id := "low_prominence_" ++ str_of_Z (py_hash E q);
     query_text := q;
     gap_type := weak_citations;
     opportunity_score := 0.6 + (0.5 - mean_);
     suggested_content_type := _suggest_content_type_for_query q;
     suggested_topics := _extract_topics_from_query q;
     competing_domains := competing_domains_of df q;
     search_volume_estimate := _estimate_search_volume q;
     difficulty_score := 0.4 + mean_ * 0.4;
     priority := medium;
     reasoning := "Low average prominence (" ++ format_float E ".2f" mean_ ++ ") for '"
                  ++ q ++ "' - opportunity to create higher-quality content";
     related_queries := [];
     content_angle_suggestions := _suggest_content_angles q true false [];
     estimated_effort := _estimate_content_effort q;
     potential_impact := medium |}.

Definition _find_weak_citation_gaps (E : Env) (df : DataFrame) : list ContentGap :=
  if negb (has_col "prominence_score" df) || negb (has_col "query" df) then []
  else
    let weak_queries :=
      filter (fun row => Qlt_bool (fst (snd row)) 0.5 && (2 <=? snd (snd row))%nat)
             (query_prominence df) in
    map (fun row => mk_low_prominence_gap E df (fst row) (fst (snd row))) weak_queries.

(** [len(competitor_citations) / total_citations] for the rows of one query *)
Definition competitor_share (competitor_domains_lower : list string)
    (query_citations : list CitationRecord) : Q :=
  let competitor_citations :=
    filter (fun r => mem (source_domain r) competitor_domains_lower) query_citations in
  Qnat (List.length competitor_citations) / Qnat (List.length query_citations).

Definition mk_competitor_gap (E : Env) (df : DataFrame) (q : string) (share : Q)
  : ContentGap :=
  {| gap_id := "competitor_dominated_" ++ str_of_Z (py_hash E q);
     query_text := q;
     gap_type := competitor_dominated;
     opportunity_score := 0.5 - share * 0.2;
     suggested_content_type := _suggest_content_type_for_query q;
     suggested_topics := _extract_topics_from_query q;
     competing_domains := unique String.eqb (map source_domain (rows_of_query df q));
     search_volume_estimate := _estimate_search_volume q;
     difficulty_score := 0.6 + share * 0.3;
     priority := if Qlt_bool 0.8 share then low else medium;
     reasoning := "Competitors control " ++ format_float E ".1%" share
                  ++ " of citations for '" ++ q
                  ++ "' - challenging but potential for disruption";
     related_queries :=
       _find_related_queries E q (unique String.eqb (map query (rows df)));
     content_angle_suggestions := _suggest_content_angles q false true [];
     estimated_effort := high;
     potential_impact := if Qlt_bool share 0.8 then high else medium |}.

(** The body of the loop over [df['query'].unique()]. *)
Definition competitor_gaps_of (E : Env) (df : DataFrame) (competitor_domains : list string)
    (q : string) : list ContentGap :=
  let competitor_domains_lower := map lower competitor_domains in
  let query_citations := rows_of_query df q in
  let total_citations := List.length query_citations in
  if (total_citations <? 3)%nat then []
  else
    let share := competitor_share competitor_domains_lower query_citations in
    if Qle_bool 0.6 share then [mk_competitor_gap E df q share] else [].

Definition _find_competitor_dominated_gaps (E : Env) (df : DataFrame)
    (competitor_domains : list string) : list ContentGap :=
  match competitor_domains with
  | [] => []
  | _ =>
    if negb (has_col "source_domain" df) || negb (has_col "query" df) then []
    else
      flat_map (competitor_gaps_of E df competitor_domains)
               (unique String.eqb (map query (rows df)))
  end.

(** [[q for i, q in enumerate(tracked_queries) if clusters[i] == cluster_id]] *)
Definition cluster_members (tracked_queries : list string) (clusters : list nat)
    (cluster_id : nat) : list string :=
  map fst (filter (fun qc => (snd qc =? cluster_id)%nat) (combine tracked_queries clusters)).

Definition mk_topic_cluster_gap (E : Env) (cluster_id : nat)
    (cluster_queries : list string) (avg_citations : Q) (q : string) : ContentGap :=
  {| gap_id := "topic_cluster_gap_" ++ str_of_nat cluster_id ++ "_"
               ++ str_of_Z (py_hash E q);
     query_text := q;
     gap_type := topic_cluster_gap;
     opportunity_score := 0.6;
     suggested_content_type := _suggest_content_type_for_query q;
     suggested_topics := _extract_topics_from_query q;
     competing_domains := [];
     search_volume_estimate := _estimate_search_volume q;
     difficulty_score := 0.4;
     priority := medium;
     reasoning := "Under-represented in topic cluster - other similar queries have "
                  ++ format_float E ".1f" avg_citations ++ " avg citations";
     related_queries :=
       firstn 3 (filter (fun q' => negb (String.eqb q' q)) cluster_queries);
     content_angle_suggestions := _suggest_content_angles q false false cluster_queries;
     estimated_effort := medium;
     potential_impact := medium |}.

(** The body of the loop over [range(n_clusters)]. *)
Definition cluster_gaps (E : Env) (df : DataFrame) (tracked_queries : list string)
    (clusters : list nat) (cluster_id : nat) : list ContentGap :=
  let cluster_queries := cluster_members tracked_queries clusters cluster_id in
  if (List.length cluster_queries <? 2)%nat then []
  else
    let cluster_citation_counts :=
      if has_col "query" df
      then map (fun q => (q, List.length (rows_of_query df q))) cluster_queries
      else [] in
    match cluster_citation_counts with
    | [] => []
    | _ =>
      let avg_citations := mean (map (fun qc => Qnat (snd qc)) cluster_citation_counts) in
      flat_map
        (fun qc =>
           if Qlt_bool (Qnat (snd qc)) (avg_citations * 0.5) && (snd qc <? 3)%nat
           then [mk_topic_cluster_gap E cluster_id cluster_queries avg_citations (fst qc)]
           else [])
        cluster_citation_counts
    end.

(** The [try] block raises where scikit-learn does, and where [clusters[i]]
    runs past the labels; each of these happens before any gap is appended,
    so the handler returns the empty list. *)
Definition _find_topic_cluster_gaps (E : Env) (g : NumpyState E) (df : DataFrame)
    (tracked_queries : list string) : list ContentGap :=
  if (List.length tracked_queries <? 10)%nat then []
  else
    match tfidf_fit_transform E 100 tracked_queries with
    | None => []
    | Some query_vectors =>
      let n_clusters := Nat.min 5 (List.length tracked_queries / 4) in
      if (n_clusters <? 2)%nat then []
      else
        match kmeans_fit_predict E n_clusters (Some 42%Z) g query_vectors with
        | None => []
        | Some clusters =>
          if (List.length clusters <? List.length tracked_queries)%nat then []
          else flat_map (cluster_gaps E df tracked_queries clusters) (seq 0 n_clusters)
        end
    end.

(** [question_patterns], in the order of the dict; each regular expression
    is the alternation of its word sequences. *)
Definition question_patterns : list (string * list (list string)) :=
  [("what_is", [["what"; "is"]]);
   ("how_to", [["how"; "to"]; ["how"; "do"]; ["how"; "can"]]);
   ("why", [["why"]]);
   ("when", [["when"]]);
   ("where", [["where"]]);
   ("which", [["which"]]);
   ("best", [["best"]]);
   ("vs_comparison", [["vs"]; ["versus"]])].

Definition question_type_of (query_lower : string) : string :=
  match find (fun p => re_search (snd p) query_lower) question_patterns with
  | Some p => fst p
  | None => "general"
  end.

Definition question_stop_words : list string :=
  ["what"; "is"; "how"; "to"; "do"; "can"; "why"; "when"; "where"; "which"; "the";
   "a"; "an"].

(** [topic_variations[topic][question_type].append(query)] on insertion-ordered
    dicts *)
Fixpoint append_at (k : string) (v : string) (d : list (string * list string))
  : list (string * list string) :=
  match d with
  | [] => [(k, [v])]
  | (k', vs) :: t =>
      if String.eqb k' k then (k', (vs ++ [v])%list) :: t else (k', vs) :: append_at k v t
  end.

Fixpoint add_variation (topic question_type q : string)
    (d : list (string * list (string * list string)))
  : list (string * list (string * list string)) :=
  match d with
  | [] => [(topic, [(question_type, [q])])]
  | (t, variations) :: rest =>
      if String.eqb t topic then (t, append_at question_type q variations) :: rest
      else (t, variations) :: add_variation topic question_type q rest
  end.

Definition topic_variations_of (tracked_queries : list string)
  : list (string * list (string * list string)) :=
  fold_left
    (fun d q =>
       let query_lower := lower q in
       let question_type := question_type_of query_lower in
       let content_words :=
         filter (fun w => negb (mem w question_stop_words)) (split query_lower) in
       match content_words with
       | [] => d
       | _ => add_variation (join " " (firstn 3 content_words)) question_type q d
       end)
    tracked_queries [].

Definition mk_question_variation_gap (E : Env) (topic missing_type suggested_query : string)
    (total_citations : nat) (existing_queries : list string) : ContentGap :=
  {| gap_id := "question_variation_" ++ missing_type ++ "_" ++ str_of_Z (py_hash E topic);
     query_text := suggested_query;
     gap_type := question_variation;
     opportunity_score := 0.5 + Qnat (Nat.min total_citations 10) * 0.03;
     suggested_content_type := _map_question_type_to_content missing_type;
     suggested_topics := [replace_char " "%char "_" topic];
     competing_domains := [];
     search_volume_estimate := Z.max 100 (Z.of_nat total_citations * 50);
     difficulty_score := 0.3;
     priority := medium;
     reasoning := "Missing '" ++ missing_type ++ "' variation for topic '" ++ topic
                  ++ "' - related queries show interest";
     related_queries := firstn 3 existing_queries;
     content_angle_suggestions :=
       _suggest_content_angles_for_question_type missing_type topic;
     estimated_effort := medium;
     potential_impact := medium |}.

Definition _find_question_variation_gaps (E : Env) (df : DataFrame)
    (tracked_queries : list string) : list ContentGap :=
  flat_map
    (fun tv =>
       let topic := fst tv in
       match snd tv with
       | [(existing_type, existing_queries)] =>
           let total_citations :=
             if has_col "query" df
             then list_sum (map (fun q => List.length (rows_of_query df q)) existing_queries)
             else O in
           let missing_types :=
             set_iter E (filter (fun t => negb (String.eqb t existing_type))
                                (map fst question_patterns)) in
           flat_map
             (fun missing_type =>
                if mem missing_type ["what_is"; "how_to"; "best"] then
                  let suggested_query := _generate_question_variation topic missing_type in
                  if String.eqb suggested_query "" then []
                  else [mk_question_variation_gap E topic missing_type suggested_query
                          total_citations existing_queries]
                else [])
             missing_types
       | _ => []
       end)
    (topic_variations_of tracked_queries).

(** *** The scoring pass *)

Definition priority_of_score (s : Q) : Level :=
  if Qle_bool 0.8 s then high
  else if Qle_bool 0.5 s then medium
  else low.

(** The body of the loop of [_score_and_prioritize_gaps] on one gap; [add]
    is the addition of two scores. *)
Definition adjust_gap_with (add : Q -> Q -> Q) (gap : ContentGap) : ContentGap :=
  let text := lower (query_text gap) in
  let s1 :=
    if any_in ["how to"; "best"; "guide"; "tutorial"] text
    then Qmin 1.0 (add (opportunity_score gap) 0.1)
    else opportunity_score gap in
  let commercial := any_in ["buy"; "price"; "cost"; "review"; "comparison"] text in
  let s2 := if commercial then Qmin 1.0 (add s1 0.15) else s1 in
  {| gap_id := gap_id gap;
     query_text := query_text gap;
     gap_type := gap_type gap;
     opportunity_score := s2;
     suggested_content_type := suggested_content_type gap;
     suggested_topics := suggested_topics gap;
     competing_domains := competing_domains gap;
     search_volume_estimate := search_volume_estimate gap;
     difficulty_score := difficulty_score gap;
     priority := priority_of_score s2;
     reasoning := reasoning gap;
     related_queries := related_queries gap;
     content_angle_suggestions := content_angle_suggestions gap;
     estimated_effort := estimated_effort gap;
     potential_impact := if commercial then high else potential_impact gap |}.

(** The loop body with the exact sum, the convention of this file. The
    code's sum is rounded: 0.7 + 0.1 is the float below 0.8 there and 0.8
    here. What is proved of the scoring pass itself is proved for every
    [add]. *)
Definition adjust_gap (gap : ContentGap) : ContentGap := adjust_gap_with Qplus gap.

(** [gaps.sort(key=lambda x: x.opportunity_score, reverse=True)]: [a] may
    stand before [b] when its score is not smaller. *)
Definition score_ge (a b : ContentGap) : bool :=
  Qle_bool (opportunity_score b) (opportunity_score a).

Definition _score_and_prioritize_gaps_with (add : Q -> Q -> Q) (gaps : list ContentGap)
  : list ContentGap :=
  match gaps with
  | [] => []
  | _ => sort score_ge (map (adjust_gap_with add) gaps)
  end.

Definition _score_and_prioritize_gaps (gaps : list ContentGap) : list ContentGap :=
  _score_and_prioritize_gaps_with Qplus gaps.

(** *** The entry point *)

(** The list [gaps] when the five finders have run, in discovery order. *)
Definition discovered_gaps (E : Env) (g : NumpyState E) (df : DataFrame)
    (tracked_queries competitor_domains : list string) : list ContentGap :=
  let no_citation_gaps := _find_no_citation_gaps E df tracked_queries in
  let weak_citation_gaps := _find_weak_citation_gaps E df in
  let competitor_dominated_gaps :=
    _find_competitor_dominated_gaps E df competitor_domains in
  let topic_cluster_gaps := _find_topic_cluster_gaps E g df tracked_queries in
  let question_variation_gaps := _find_question_variation_gaps E df tracked_queries in
  no_citation_gaps ++ weak_citation_gaps ++ competitor_dominated_gaps
  ++ topic_cluster_gaps ++ question_variation_gaps.

(** [keys] are the keys of the citation dicts; [competitor_domains] is
    [None] when the caller leaves the argument out. *)
Definition identify_content_gaps (E : Env) (g : NumpyState E) (keys : list string)
    (citations : list CitationRecord) (tracked_queries : list string)
    (competitor_domains : option (list string)) : list ContentGap :=
  match citations, tracked_queries with
  | [], _ => []
  | _, [] => []
  | _, _ =>
    let df := {| columns := keys; rows := citations |} in
    _score_and_prioritize_gaps
      (discovered_gaps E g df tracked_queries
         (match competitor_domains with Some l => l | None => [] end))
  end.

(** *** The gap report *)

Definition Level_eqb (a b : Level) : bool :=
  match a, b with
  | low, low | medium, medium | high, high => true
  | _, _ => false
  end.

(** [Counter(values)] and the [defaultdict] tallies: the distinct keys in
    order of first occurrence, each with its number of occurrences. *)
Definition tally {K} (eqb : K -> K -> bool) (values : list K) : list (K * nat) :=
  map (fun k => (k, count_occ_b eqb k values)) (unique eqb values).

(** [round(x, 2)], of the exact value (see [round3]). *)
Definition round2 (x : Q) : Q := inject_Z (rint (x * 100)) / 100.

Record TopOpportunity : Type := {
  top_query : string;
  top_opportunity_score : Q;
  top_gap_type : GapType;
  top_priority : Level;
  top_suggested_content_type : string;
  top_reasoning : string
}.

Record QuickWin : Type := {
  win_query : string;
  win_opportunity_score : Q;
  win_estimated_effort : Level
}.

Record GapReport : Type := {
  total_gaps : nat;
  gap_types : list (GapType * nat);
  priority_distribution : list (Level * nat);
  average_opportunity_score : Q;
  high_opportunity_gaps : nat;
  suggested_content_types : list (string * nat);
  effort_distribution : list (Level * nat);
  top_opportunities : list TopOpportunity;
  quick_wins : list QuickWin;
  summary : string
}.

(** The report dict: with no gap it has only [total_gaps] and [summary]. *)
Inductive Report : Type :=
| NoGapsReport (total : nat) (text : string)
| FullReport (r : GapReport).

Definition top_opportunity_of (gap : ContentGap) : TopOpportunity :=
  {| top_query := query_text gap;
     top_opportunity_score := opportunity_score gap;
     top_gap_type := gap_type gap;
     top_priority := priority gap;
     top_suggested_content_type := suggested_content_type gap;
     top_reasoning := reasoning gap |}.

Definition quick_win_of (gap : ContentGap) : QuickWin :=
  {| win_query := query_text gap;
     win_opportunity_score := opportunity_score gap;
     win_estimated_effort := estimated_effort gap |}.

Definition generate_gap_report (gaps : list ContentGap) : Report :=
  match gaps with
  | [] => NoGapsReport 0 "No content gaps identified"
  | _ =>
    let avg_opportunity_score := mean (map opportunity_score gaps) in
    let high_opportunity :=
      filter (fun gap => Qle_bool 0.7 (opportunity_score gap)) gaps in
    FullReport
      {| total_gaps := List.length gaps;
         gap_types := tally GapType_eqb (map gap_type gaps);
         priority_distribution := tally Level_eqb (map priority gaps);
         average_opportunity_score := round2 avg_opportunity_score;
         high_opportunity_gaps := List.length high_opportunity;
         suggested_content_types := value_counts (map suggested_content_type gaps);
         effort_distribution := tally Level_eqb (map estimated_effort gaps);
         top_opportunities := map top_opportunity_of (firstn 10 gaps);
         quick_wins :=
           firstn 5
             (map quick_win_of
                (filter (fun gap => Level_eqb (estimated_effort gap) low
                                    && Qle_bool 0.6 (opportunity_score gap)) gaps));
         summary := "Identified " ++ str_of_nat (List.length gaps)
                    ++ " content gaps with " ++ str_of_nat (List.length high_opportunity)
                    ++ " high-opportunity targets" |}
  end.

(** ** Pattern recognition engine *)

Inductive PatternType : Type :=
| domain_frequency
| domain_prominence
| content_type_performance
| position_consistency
| temporal_spikes
| weekly_variation
| engine_content_preference
| content_features
| query_similarity.

Definition PatternType_eqb (a b : PatternType) : bool :=
  match a, b with
  | domain_frequency, domain_frequency
  | domain_prominence, domain_prominence
  | content_type_performance, content_type_performance
  | position_consistency, position_consistency
  | temporal_spikes, temporal_spikes
  | weekly_variation, weekly_variation
  | engine_content_preference, engine_content_preference
  | content_features, content_features
  | query_similarity, query_similarity => true
  | _, _ => false
  end.

(** The fields [description], [examples], [characteristics] and [time_range]
    are presentation of the same data and are not carried; computing them
    raises nothing once the guards in front of them have passed. *)
Record CitationPattern : Type := {
  pattern_id : string;
  pattern_type : PatternType;
  frequency : nat;
  strength : Q;
  engines : list string;
  domains : list string;
  content_types : list string
}.

Definition min_pattern_frequency : nat := 3.

(** [df[name].unique().tolist()]; a missing column is a [KeyError] *)
Definition col_unique (name : string) (f : CitationRecord -> string) (df : DataFrame)
  : Exn (list string) :=
  if has_col name df then Ok (unique String.eqb (map f (rows df)))
  else Raise (KeyError [name]).

(** [df['source_domain'].unique().tolist() if 'source_domain' in df else []] *)
Definition domains_or_empty (df : DataFrame) : list string :=
  if has_col "source_domain" df then unique String.eqb (map source_domain (rows df))
  else [].

(** [groupby(...).agg({name: ...})] checks that every named column exists. *)
Definition agg_columns (names : list string) (df : DataFrame) : Exn unit :=
  match sort String.leb (filter (fun n => negb (has_col n df)) names) with
  | [] => Ok tt
  | missing => Raise (KeyError missing)
  end.

Notation "x <- m ;; k" := (bind m (fun x => k))
  (at level 61, m at next level, right associativity).

(** [df.groupby('source_domain')['prominence_score'].agg(['mean', 'count'])] *)
Definition domain_prominence_table (df : DataFrame) : list (string * (Q * nat)) :=
  map (fun d =>
         let scores :=
           map prominence_score
               (filter (fun r => String.eqb (source_domain r) d) (rows df)) in
         (d, (mean scores, List.length scores)))
      (group_keys (map source_domain (rows df))).

Definition _analyze_domain_patterns (E : Env) (df : DataFrame)
  : Exn (list CitationPattern) :=
  if negb (has_col "source_domain" df) then Ok []
  else
    let domain_counts := value_counts (map source_domain (rows df)) in
    let high_freq_domains :=
      filter (fun dc => (min_pattern_frequency <=? snd dc)%nat) domain_counts in
    frequency_patterns <-
      (if (0 <? List.length high_freq_domains)%nat then
         engines_ <- col_unique "engine" engine df ;;
         content_types_ <- col_unique "citation_type" citation_type df ;;
         Ok [ {| pattern_id := "high_freq_domains_" ++ today E;
                 pattern_type := domain_frequency;
                 frequency := List.length high_freq_domains;
                 strength := Qmin 1.0 (Qnat (List.length high_freq_domains) / 10);
                 engines := engines_;
                 domains := map fst high_freq_domains;
                 content_types := content_types_ |} ]
       else Ok []) ;;
    prominence_patterns <-
      (if has_col "prominence_score" df then
         let high_prominence :=
           filter (fun row => Qle_bool 0.7 (fst (snd row)) && (2 <=? snd (snd row))%nat)
                  (domain_prominence_table df) in
         if (0 <? List.length high_prominence)%nat then
           engines_ <- col_unique "engine" engine df ;;
           content_types_ <- col_unique "citation_type" citation_type df ;;
           Ok [ {| pattern_id := "high_prominence_domains_" ++ today E;
                   pattern_type := domain_prominence;
                   frequency := List.length high_prominence;
                   strength := mean (map (fun row => fst (snd row)) high_prominence);
                   engines := engines_;
                   domains := map fst high_prominence;
                   content_types := content_types_ |} ]
         else Ok []
       else Ok []) ;;
    Ok (frequency_patterns ++ prominence_patterns)%list.

(** [df.groupby('citation_type').agg({...}).round(3)]: per type, the rounded
    mean prominence and the count *)
Definition type_stats (df : DataFrame) : list (string * (Q * nat)) :=
  map (fun t =>
         let scores :=
           map prominence_score
               (filter (fun r => String.eqb (citation_type r) t) (rows df)) in
         (t, (round3 (mean scores), List.length scores)))
      (group_keys (map citation_type (rows df))).

Definition _analyze_content_type_patterns (E : Env) (df : DataFrame)
  : Exn (list CitationPattern) :=
  if negb (has_col "citation_type" df) then Ok []
  else
    _ <- agg_columns ["prominence_score"; "position"] df ;;
    if has_col "prominence_score" df then
      let high_performing_types :=
        filter (fun row => Qle_bool 0.6 (fst (snd row)) && (3 <=? snd (snd row))%nat)
               (type_stats df) in
      if (0 <? List.length high_performing_types)%nat then
        engines_ <- col_unique "engine" engine df ;;
        Ok [ {| pattern_id := "high_performing_types_" ++ today E;
                pattern_type := content_type_performance;
                frequency := list_sum (map (fun row => snd (snd row)) high_performing_types);
                strength := mean (map (fun row => fst (snd row)) high_performing_types);
                engines := engines_;
                domains := domains_or_empty df;
                content_types := map fst high_performing_types |} ]
      else Ok []
    else Ok [].

Definition pair_eqb (a b : string * string) : bool :=
  String.eqb (fst a) (fst b) && String.eqb (snd a) (snd b).

Definition pair_leb (a b : string * string) : bool :=
  String.ltb (fst a) (fst b) || (String.eqb (fst a) (fst b) && String.leb (snd a) (snd b)).

(** [top_positions.groupby(['source_domain', 'citation_type'])
     .agg({'position': ['mean', 'count'], ...})] *)
Definition position_stats (top_positions : list CitationRecord)
  : list ((string * string) * (Q * nat)) :=
  map (fun k =>
         let ps :=
           map (fun r => inject_Z (position r))
               (filter (fun r => pair_eqb (source_domain r, citation_type r) k)
                       top_positions) in
         (k, (mean ps, List.length ps)))
      (sort pair_leb
            (unique pair_eqb (map (fun r => (source_domain r, citation_type r))
                                  top_positions))).

Definition groupby_columns (names : list string) (df : DataFrame) : Exn unit :=
  match filter (fun n => negb (has_col n df)) names with
  | [] => Ok tt
  | n :: _ => Raise (KeyError [n])
  end.

Definition _analyze_position_patterns (E : Env) (df : DataFrame)
  : Exn (list CitationPattern) :=
  if negb (has_col "position" df) then Ok []
  else
    let top_positions := filter (fun r => (position r <=? 3)%Z) (rows df) in
    if (min_pattern_frequency <=? List.length top_positions)%nat then
      _ <- groupby_columns ["source_domain"; "citation_type"] df ;;
      _ <- agg_columns ["position"; "prominence_score"] df ;;
      let consistent_top :=
        filter (fun row => (2 <=? snd (snd row))%nat) (position_stats top_positions) in
      if (0 <? List.length consistent_top)%nat then
        engines_ <- col_unique "engine" engine df ;;
        content_types_ <- col_unique "citation_type" citation_type df ;;
        Ok [ {| pattern_id := "top_position_pattern_" ++ today E;
                pattern_type := position_consistency;
                frequency := list_sum (map (fun row => snd (snd row)) consistent_top);
                strength :=
                  1.0 - mean (map (fun row => fst (snd row)) consistent_top) / 10;
                engines := engines_;
                domains := domains_or_empty df;
                content_types := content_types_ |} ]
      else Ok []
    else Ok [].

(** [created_at.dt.date], as a day number, and [created_at.dt.day_name()];
    day 0 was a Thursday. *)
Definition date_of (r : CitationRecord) : Z := (created_at r / 86400)%Z.

Definition day_names : list string :=
  ["Monday"; "Tuesday"; "Wednesday"; "Thursday"; "Friday"; "Saturday"; "Sunday"].

Definition day_name_of (r : CitationRecord) : string :=
  nth (Z.to_nat ((date_of r + 3) mod 7)) day_names "".

(** [df.groupby('date').size()] *)
Definition daily_counts_of (df : DataFrame) : list (Z * nat) :=
  let dates := map date_of (rows df) in
  map (fun d => (d, count_occ_b Z.eqb d dates)) (sort Z.leb (unique Z.eqb dates)).

(** [df.groupby('day_of_week').size()] *)
Definition weekly_patterns_of (df : DataFrame) : list (string * nat) :=
  let days := map day_name_of (rows df) in
  map (fun d => (d, count_occ_b String.eqb d days)) (group_keys days).

Definition series_max (l : list nat) : nat := fold_right Nat.max 0%nat l.

Definition series_min (l : list nat) : nat :=
  match l with
  | [] => 0%nat
  | x :: t => fold_right Nat.min x t
  end.

(** The columns [hour], [day_of_week] and [date] that this sub-scan adds to
    the shared frame are read by no other sub-scan. *)
Definition _analyze_temporal_patterns (E : Env) (df : DataFrame)
  : Exn (list CitationPattern) :=
  if negb (has_col "created_at" df) then Ok []
  else
    let daily_counts := daily_counts_of df in
    daily_patterns <-
      (if (7 <=? List.length daily_counts)%nat then
         let avg_daily := mean (map (fun dc => Qnat (snd dc)) daily_counts) in
         let high_activity_days :=
           filter (fun dc => Qlt_bool (avg_daily * 1.5) (Qnat (snd dc))) daily_counts in
         if (2 <=? List.length high_activity_days)%nat then
           engines_ <- col_unique "engine" engine df ;;
           content_types_ <- col_unique "citation_type" citation_type df ;;
           Ok [ {| pattern_id := "high_activity_days_" ++ today E;
                   pattern_type := temporal_spikes;
                   frequency := List.length high_activity_days;
                   strength :=
                     Qmin 1.0 (Qnat (List.length high_activity_days)
                               / Qnat (List.length daily_counts));
                   engines := engines_;
                   domains := domains_or_empty df;
                   content_types := content_types_ |} ]
         else Ok []
       else Ok []) ;;
    let weekly_patterns := map snd (weekly_patterns_of df) in
    weekly <-
      (if (0 <? List.length weekly_patterns)%nat then
         let hi := Qnat (series_max weekly_patterns) in
         let lo := Qnat (series_min weekly_patterns) in
         if Qlt_bool 1.5 (hi / lo) then
           engines_ <- col_unique "engine" engine df ;;
           content_types_ <- col_unique "citation_type" citation_type df ;;
           Ok [ {| pattern_id := "weekly_pattern_" ++ today E;
                   pattern_type := weekly_variation;
                   frequency := List.length (rows df);
                   strength := Qmin 1.0 ((hi - lo) / mean (map Qnat weekly_patterns));
                   engines := engines_;
                   domains := domains_or_empty df;
                   content_types := content_types_ |} ]
         else Ok []
       else Ok []) ;;
    Ok (daily_patterns ++ weekly)%list.

(** The body of the loop over [df['engine'].unique()]. *)
Definition engine_preference (E : Env) (df : DataFrame) (engine_ : string)
  : Exn (list CitationPattern) :=
  let engine_data := filter (fun r => String.eqb (engine r) engine_) (rows df) in
  if has_col "citation_type" df then
    match value_counts (map citation_type engine_data) with
    | [] => Raise (ValueError "attempt to get argmax of an empty sequence")
    | (dominant_type, top) :: _ =>
        let share := Qnat top / Qnat (List.length engine_data) in
        if Qlt_bool 0.6 share then
          Ok [ {| pattern_id := "engine_preference_" ++ engine_ ++ "_" ++ today E;
                  pattern_type := engine_content_preference;
                  frequency := top;
                  strength := share;
                  engines := [engine_];
                  domains :=
                    if has_col "source_domain" df
                    then unique String.eqb (map source_domain engine_data)
                    else [];
                  content_types := [dominant_type] |} ]
        else Ok []
    end
  else Ok [].

(** A [for] loop whose body can raise: the first exception ends the loop
    and propagates. *)
Fixpoint for_each {A B} (body : A -> Exn (list B)) (l : list A) : Exn (list B) :=
  match l with
  | [] => Ok []
  | x :: t =>
      ps <- body x ;;
      rest <- for_each body t ;;
      Ok (ps ++ rest)%list
  end.

Definition _analyze_engine_patterns (E : Env) (df : DataFrame)
  : Exn (list CitationPattern) :=
  if negb (has_col "engine" df) then Ok []
  else
    _ <- agg_columns ["prominence_score"; "position"; "source_domain"] df ;;
    if has_col "prominence_score" df then
      for_each (engine_preference E df) (unique String.eqb (map engine (rows df)))
    else Ok [].

(** The [key:value] tokens of the scalar entries of one metadata dict *)
Definition metadata_tokens (md : list (string * MetaValue)) : list string :=
  flat_map (fun kv =>
              match snd kv with
              | MScalar v => [fst kv ++ ":" ++ v]
              | MNested => []
              end) md.

(** [feature_counts], in insertion order *)
Definition feature_counts_of (df : DataFrame) : list (string * nat) :=
  let tokens := flat_map (fun r => metadata_tokens (metadata r)) (rows df) in
  map (fun t => (t, count_occ_b String.eqb t tokens)) (unique String.eqb tokens).

Definition _analyze_content_feature_patterns (E : Env) (df : DataFrame)
  : Exn (list CitationPattern) :=
  if negb (has_col "metadata" df) then Ok []
  else
    match rows df with
    | [] => Ok []
    | _ =>
      let feature_counts := feature_counts_of df in
      let frequent_features :=
        filter (fun kv => (min_pattern_frequency <=? snd kv)%nat) feature_counts in
      match frequent_features with
      | [] => Ok []
      | _ =>
        engines_ <- col_unique "engine" engine df ;;
        content_types_ <- col_unique "citation_type" citation_type df ;;
        Ok [ {| pattern_id := "metadata_patterns_" ++ today E;
                pattern_type := content_features;
                frequency := list_sum (map snd frequent_features);
                strength :=
                  Qnat (List.length frequent_features)
                  / Qnat (Nat.max (List.length feature_counts) 1);
                engines := engines_;
                domains := domains_or_empty df;
                content_types := content_types_ |} ]
      end
    end.

(** The body of the loop over [range(n_clusters)] of the query-similarity
    sub-scan; [labelled] pairs each row with its cluster label. *)
Definition query_cluster_pattern (E : Env) (df : DataFrame)
    (labelled : list (CitationRecord * nat)) (cluster_id : nat)
  : Exn (list CitationPattern) :=
  let cluster_data :=
    map fst (filter (fun rc => (snd rc =? cluster_id)%nat) labelled) in
  if (min_pattern_frequency <=? List.length cluster_data)%nat then
    if has_col "source_domain" df then
      let common_domains := firstn 3 (value_counts (map source_domain cluster_data)) in
      if has_col "engine" df then
        if has_col "citation_type" df then
          Ok [ {| pattern_id := "query_cluster_" ++ str_of_nat cluster_id ++ "_" ++ today E;
                  pattern_type := query_similarity;
                  frequency := List.length cluster_data;
                  strength := Qnat (List.length cluster_data) / Qnat (List.length (rows df));
                  engines := unique String.eqb (map engine cluster_data);
                  domains := map fst common_domains;
                  content_types := unique String.eqb (map citation_type cluster_data) |} ]
        else Raise (KeyError ["citation_type"])
      else Raise (KeyError ["engine"])
    else Ok []
  else Ok [].

(** A [for] loop inside [try ... except Exception]: the patterns appended
    before the first exception are kept. *)
Fixpoint for_each_caught {A B} (body : A -> Exn (list B)) (l : list A) : list B :=
  match l with
  | [] => []
  | x :: t =>
      match body x with
      | Ok ps => (ps ++ for_each_caught body t)%list
      | Raise _ => []
      end
  end.

Definition _analyze_query_similarity_patterns (E : Env) (g : NumpyState E)
    (df : DataFrame) : list CitationPattern :=
  if negb (has_col "query" df) || (List.length (rows df) <? 10)%nat then []
  else
    match tfidf_fit_transform E 100 (map query (rows df)) with
    | None => []
    | Some query_vectors =>
      let n_clusters := Nat.min 5 (List.length (rows df) / 3) in
      if (2 <=? n_clusters)%nat then
        match kmeans_fit_predict E n_clusters (Some 42%Z) g query_vectors with
        | None => []
        | Some clusters =>
          if (List.length clusters =? List.length (rows df))%nat then
            for_each_caught (query_cluster_pattern E df (combine (rows df) clusters))
                            (seq 0 n_clusters)
          else []
        end
      else []
    end.

(** *** The entry point *)
Definition analyze_citation_patterns (E : Env) (g : NumpyState E) (keys : list string)
    (citations : list CitationRecord) : Exn (list CitationPattern) :=
  match citations with
  | [] => Ok []
  | _ =>
    let df := {| columns := keys; rows := citations |} in
    domain_patterns <- _analyze_domain_patterns E df ;;
    content_type_patterns <- _analyze_content_type_patterns E df ;;
    position_patterns <- _analyze_position_patterns E df ;;
    temporal_patterns <- _analyze_temporal_patterns E df ;;
    engine_patterns <- _analyze_engine_patterns E df ;;
    feature_patterns <- _analyze_content_feature_patterns E df ;;
    let query_patterns := _analyze_query_similarity_patterns E g df in
    Ok (domain_patterns ++ content_type_patterns ++ position_patterns
        ++ temporal_patterns ++ engine_patterns ++ feature_patterns
        ++ query_patterns)%list
  end.

(** *** Competitor patterns *)

Record TimingPatterns : Type := {
  hourly_distribution : list (Z * nat);
  daily_distribution : list (string * nat)
}.

Record CompetitorPattern : Type := {
  competitor_domain : string;
  citation_frequency : Q;
  preferred_content_types : list string;
  strong_topics : list string;
  citation_timing_patterns : option TimingPatterns;
  average_position : Q;
  engines_dominance : list (string * Q)
}.

(** [created_at.dt.hour] *)
Definition hour_of (r : CitationRecord) : Z := ((created_at r mod 86400) / 3600)%Z.

(** [Series.value_counts()] on integers *)
Definition value_counts_Z (l : list Z) : list (Z * nat) :=
  sort (fun a b => (snd b <=? snd a)%nat) (tally Z.eqb l).

Definition times_max (l : list Z) : Z :=
  match l with
  | [] => 0%Z
  | x :: t => fold_right Z.max x t
  end.

Definition times_min (l : list Z) : Z :=
  match l with
  | [] => 0%Z
  | x :: t => fold_right Z.min x t
  end.

Definition question_words : list string :=
  ["what"; "how"; "why"; "when"; "where"; "who"; "which"].

(** The strong topics of a competitor: the ten most frequent words of its
    queries, without the short ones and the question words, five at most. *)
Definition strong_topics_of (queries : list string) : list string :=
  let all_words := split (lower (join " " queries)) in
  let common_words :=
    filter (fun w => (3 <? String.length w)%nat && negb (mem w question_words))
           (map fst (firstn 10 (value_counts all_words))) in
  firstn 5 common_words.

(** The body of the loop over [competitor_domains]. *)
Definition competitor_pattern_of (df : DataFrame) (domain : string)
  : list CompetitorPattern :=
  if negb (has_col "source_domain" df) then []
  else
    let domain_citations :=
      filter (fun r => String.eqb (source_domain r) (lower domain)) (rows df) in
    match domain_citations with
    | [] => []
    | _ =>
      let total_citations := List.length domain_citations in
      [ {| competitor_domain := domain;
           citation_frequency :=
             if has_col "created_at" df then
               let times := map created_at (rows df) in
               let date_range := ((times_max times - times_min times) / 86400)%Z in
               Qnat total_citations / inject_Z (Z.max 1 date_range)
             else Qnat total_citations;
           preferred_content_types :=
             if has_col "citation_type" df
             then map fst (firstn 3 (value_counts (map citation_type domain_citations)))
             else [];
           strong_topics :=
             if has_col "query" df then strong_topics_of (map query domain_citations)
             else [];
           citation_timing_patterns :=
             if has_col "created_at" df then
               Some {| hourly_distribution := value_counts_Z (map hour_of domain_citations);
                       daily_distribution :=
                         value_counts (map day_name_of domain_citations) |}
             else None;
           average_position :=
             if has_col "position" df
             then mean (map (fun r => inject_Z (position r)) domain_citations)
             else 0;
           engines_dominance :=
             if has_col "engine" df then
               map (fun ec => (fst ec, Qnat (snd ec) / Qnat total_citations))
                   (value_counts (map engine domain_citations))
             else [] |} ]
    end.

Definition analyze_competitor_patterns (keys : list string)
    (citations : list CitationRecord) (competitor_domains : list string)
  : list CompetitorPattern :=
  match citations, competitor_domains with
  | [], _ => []
  | _, [] => []
  | _, _ =>
    flat_map (competitor_pattern_of {| columns := keys; rows := citations |})
             competitor_domains
  end.

(** *** Insights *)

Record InsightEntry : Type := {
  entry_type : string;
  entry_description : string;
  entry_priority : Level
}.

Record Insights : Type := {
  total_patterns : nat;
  pattern_types : list (PatternType * nat);
  high_strength_patterns : list CitationPattern;
  recommendations : list InsightEntry;
  opportunities : list InsightEntry;
  threats : list InsightEntry
}.

(** What the loop over the patterns appends for one pattern: a
    recommendation, an opportunity, or nothing. [example_types] gives
    [[ex['content_type'] for ex in pattern.examples]], the one thing read
    from the examples. *)
Definition recommendation_of (pattern : CitationPattern) : list InsightEntry :=
  if PatternType_eqb (pattern_type pattern) domain_frequency
     && Qle_bool 0.7 (strength pattern)
  then [ {| entry_type := "content_partnership";
            entry_description :=
              "Consider partnerships or guest content with high-frequency domains: "
              ++ join ", " (firstn 3 (domains pattern));
            entry_priority := if Qle_bool 0.8 (strength pattern) then high else medium |} ]
  else [].

Definition opportunity_of (example_types : CitationPattern -> list string)
    (pattern : CitationPattern) : list InsightEntry :=
  if PatternType_eqb (pattern_type pattern) domain_frequency
     && Qle_bool 0.7 (strength pattern)
  then []
  else if PatternType_eqb (pattern_type pattern) content_type_performance
          && Qle_bool 0.7 (strength pattern)
  then [ {| entry_type := "content_optimization";
            entry_description :=
              "Focus on creating " ++ join " and " (firstn 2 (example_types pattern))
              ++ " content types for better citation potential";
            entry_priority := high |} ]
  else if PatternType_eqb (pattern_type pattern) engine_content_preference
  then [ {| entry_type := "engine_optimization";
            entry_description :=
              "Optimize content for " ++ hd "unknown" (engines pattern)
              ++ " by focusing on " ++ hd "unknown" (content_types pattern) ++ " format";
            entry_priority := medium |} ]
  else if PatternType_eqb (pattern_type pattern) temporal_spikes
          && Qle_bool 0.6 (strength pattern)
  then [ {| entry_type := "timing_optimization";
            entry_description :=
              "Schedule content publication during high-activity periods identified in pattern";
            entry_priority := medium |} ]
  else [].

Definition threat_of (pattern : CitationPattern) : list InsightEntry :=
  if PatternType_eqb (pattern_type pattern) domain_frequency
     && Qle_bool 0.8 (strength pattern)
  then [ {| entry_type := "competitor_dominance";
            entry_description :=
              "High competitor dominance in citation space: "
              ++ join ", " (firstn 3 (domains pattern));
            entry_priority := high |} ]
  else [].

Definition generate_pattern_insights (example_types : CitationPattern -> list string)
    (patterns : list CitationPattern) : Insights :=
  {| total_patterns := List.length patterns;
     pattern_types := tally PatternType_eqb (map pattern_type patterns);
     high_strength_patterns := filter (fun p => Qle_bool 0.8 (strength p)) patterns;
     recommendations := flat_map recommendation_of patterns;
     opportunities := flat_map (opportunity_of example_types) patterns;
     threats := flat_map threat_of patterns |}.

(** An environment to run the engines in: every string hashes to 7, sets
    iterate in insertion order, the similarity search of
    [_find_related_queries] raises, the vectorizer hands the documents on
    and k-means puts every row in cluster 0. *)
Definition sample_env : Env :=
  {| py_hash := fun _ => 7%Z;
     set_iter := fun l => l;
     format_float := fun _ _ => "0.0";
     today := "20240101";
     tfidf_related := fun _ _ => None;
     Matrix := list string;
     tfidf_fit_transform := fun _ docs => Some docs;
     NumpyState := unit;
     kmeans_fit_predict := fun _ _ _ X => Some (map (fun _ => O) X);
     kmeans_seeded := fun _ _ _ _ _ => eq_refl |}.

(** ** Predicates used in the statements *)

(** The dicts of the batch carry every key of a citation record. *)
Definition complete (keys : list string) : Prop :=
  forall k, In k all_keys -> mem k keys = true.

(** The input invariant of the data model. *)
Definition record_invariant (r : CitationRecord) : Prop :=
  (0 <= prominence_score r /\ prominence_score r <= 1) /\ (0 <= position r)%Z.

Definition in_unit_interval (x : Q) : Prop := 0 <= x /\ x <= 1.

Definition strength_ok (p : CitationPattern) : Prop := in_unit_interval (strength p).

Definition is_gap_type (t : GapType) (gap : ContentGap) : bool :=
  GapType_eqb (gap_type gap) t.

Definition is_pattern_type (t : PatternType) (p : CitationPattern) : bool :=
  PatternType_eqb (pattern_type p) t.

(** The score bands of the priority. *)
Definition priority_in_band (gap : ContentGap) : Prop :=
  (0.8 <= opportunity_score gap -> priority gap = high) /\
  (0.5 <= opportunity_score gap -> opportunity_score gap < 0.8 -> priority gap = medium) /\
  (opportunity_score gap < 0.5 -> priority gap = low).

(** The score after the two boosts of the scoring pass, from the flags
    saying whether a keyword of each family occurs in the query text. *)
Definition boosted_score (high_value commercial : bool) (s : Q) : Q :=
  let s1 := if high_value then Qmin 1.0 (s + 0.1) else s in
  if commercial then Qmin 1.0 (s1 + 0.15) else s1.

Definition high_value_words : list string := ["how to"; "best"; "guide"; "tutorial"].
Definition commercial_words : list string := ["buy"; "price"; "cost"; "review"; "comparison"].

(** [w in s] as a proposition: [s] is some text, then [w], then some text. *)
Definition occurs_in (w s : string) : Prop :=
  exists before after, s = before ++ w ++ after.

(** One of the [words] occurs in [s]. *)
Definition holds_one_of (words : list string) (s : string) : Prop :=
  exists w, In w words /\ occurs_in w s.

(** A citation of [q] from domain [d], used in the examples. *)
Definition citation (q d : string) (p : Q) (pos : Z) : CitationRecord :=
  {| engine := "perplexity"; query := q; url := ""; title := ""; snippet := "";
     position := pos; citation_type := "organic"; source_domain := d;
     prominence_score := p; metadata := []; created_at := 0 |}.

Definition frame (citations : list CitationRecord) : DataFrame :=
  {| columns := all_keys; rows := citations |}.

(** Two citations of one query, both of low prominence. *)
Definition two_faint_citations : list CitationRecord :=
  [citation "foo" "a.com" 0.2 1; citation "foo" "b.com" 0.2 2].

(** Two citations of one query with prominence 0. *)
Definition two_invisible_citations : list CitationRecord :=
  [citation "foo" "a.com" 0 1; citation "foo" "b.com" 0 2].

(** Five citations of one query, four of them from the competitor. *)
Definition four_of_five : list CitationRecord :=
  [citation "crm software" "rival.com" 0.9 1; citation "crm software" "rival.com" 0.8 2;
   citation "crm software" "rival.com" 0.7 3; citation "crm software" "rival.com" 0.6 4;
   citation "crm software" "other.org" 0.5 5].

(** Three citations of one query, all from the competitor. *)
Definition three_of_three : list CitationRecord :=
  [citation "crm software" "rival.com" 0.9 1; citation "crm software" "rival.com" 0.8 2;
   citation "crm software" "rival.com" 0.7 3].

(** Three citation dicts that carry nothing but their source domain. *)
Definition three_bare_citations : list CitationRecord :=
  [citation "" "x.com" 0 0; citation "" "x.com" 0 0; citation "" "x.com" 0 0].

(** Six citation dicts that carry nothing but their source domain: one
    domain four times, two others once each. *)
Definition six_bare_citations : list CitationRecord :=
  [citation "" "x.com" 0 0; citation "" "x.com" 0 0; citation "" "y.com" 0 0;
   citation "" "x.com" 0 0; citation "" "z.com" 0 0; citation "" "x.com" 0 0].

(** A gap with the given query text and score, before the scoring pass. *)
Definition plain_gap (text : string) (score : Q) : ContentGap :=
  {| gap_id := "gap"; query_text := text; gap_type := no_citations;
     opportunity_score := score; suggested_content_type := "comprehensive_article";
     suggested_topics := []; competing_domains := []; search_volume_estimate := 1000;
     difficulty_score := 0.2; priority := medium; reasoning := "";
     related_queries := []; content_angle_suggestions := [];
     estimated_effort := medium; potential_impact := medium |}.

(** One domain cited four times, two others once each. *)
Definition four_from_one_domain : list CitationRecord :=
  [citation "q1" "x.com" 0.5 4; citation "q2" "x.com" 0.5 5; citation "q3" "y.com" 0.5 6;
   citation "q4" "x.com" 0.5 7; citation "q5" "z.com" 0.5 8; citation "q6" "x.com" 0.5 9].

(** Two citations in the top three positions, from one domain. *)
Definition two_top_positions : list CitationRecord :=
  [citation "q1" "x.com" 0.5 1; citation "q2" "x.com" 0.5 2; citation "q3" "y.com" 0.5 9].

(** Three citations in the top three positions, two from one domain. *)
Definition three_top_positions : list CitationRecord :=
  [citation "q1" "x.com" 0.5 1; citation "q2" "x.com" 0.5 2; citation "q3" "y.com" 0.5 3].

(** The distinct source domains with at least [min_pattern_frequency]
    citations. *)
Definition qualifying_domains (df : DataFrame) : list string :=
  let cited := map source_domain (rows df) in
  filter (fun d => (3 <=? count_occ_b String.eqb d cited)%nat) (unique String.eqb cited).

(** The rows of a (domain, citation type) group. *)
Definition position_group (l : list CitationRecord) (k : string * string)
  : list CitationRecord :=
  filter (fun r => pair_eqb (source_domain r, citation_type r) k) l.

(** Five prominent citations of one tracked query. *)
Definition five_prominent_citations : list CitationRecord :=
  [citation "best ai tool" "a.com" 0.9 1; citation "best ai tool" "a.com" 0.9 2;
   citation "best ai tool" "a.com" 0.9 3; citation "best ai tool" "a.com" 0.9 4;
   citation "best ai tool" "a.com" 0.9 5].

(** Eight source domains, each cited three times. *)
Definition eight_busy_domains : list CitationRecord :=
  flat_map (fun d => [citation "q1" d 0.5 4; citation "q2" d 0.5 5; citation "q3" d 0.5 6])
           ["a.com"; "b.com"; "c.com"; "d.com"; "e.com"; "f.com"; "g.com"; "h.com"].

(** [n] citations made on day [day]. *)
Definition dated (day : Z) (n : nat) : list CitationRecord :=
  repeat {| engine := "perplexity"; query := "q"; url := ""; title := ""; snippet := "";
            position := 5; citation_type := "organic"; source_domain := "x.com";
            prominence_score := 0.5; metadata := []; created_at := day * 86400 |} n.

(** A week of citations: five on each of the first two days, one on each
    of the other five. *)
Definition two_busy_days : list CitationRecord :=
  (dated 0 5 ++ dated 1 5 ++ dated 2 1 ++ dated 3 1 ++ dated 4 1 ++ dated 5 1
   ++ dated 6 1)%list.

(** What the guard in front of each pattern leaves as the least strength
    and the least frequency of a pattern of that type. *)
Definition strength_floor (t : PatternType) : Q :=
  match t with
  | domain_frequency => 0.1
  | domain_prominence => 0.7
  | content_type_performance => 0.6
  | position_consistency => 0.7
  | weekly_variation => 1 # 3
  | engine_content_preference => 0.6
  | temporal_spikes | content_features | query_similarity => 0
  end.

Definition frequency_floor (t : PatternType) : nat :=
  match t with
  | domain_frequency | domain_prominence | weekly_variation
  | engine_content_preference => 1
  | position_consistency | temporal_spikes => 2
  | content_type_performance | content_features | query_similarity => 3
  end.

Definition above_floor (p : CitationPattern) : Prop :=
  strength_floor (pattern_type p) <= strength p
  /\ (frequency_floor (pattern_type p) <= frequency p)%nat.

(** ** Facts about the primitives *)

Section SortFacts.
Context {A : Type}.
Variable le : A -> A -> bool.

Lemma insert_perm (x : A) (l : list A) : Permutation (insert le x l) (x :: l).
Proof.
  induction l as [|y t IH]; simpl.
  - reflexivity.
  - destruct (le x y).
    + reflexivity.
    + rewrite IH. apply perm_swap.
Qed.

Lemma sort_perm (l : list A) : Permutation (sort le l) l.
Proof.
  induction l as [|x t IH]; simpl.
  - constructor.
  - rewrite insert_perm. now constructor.
Qed.

Lemma sort_In (x : A) (l : list A) : In x (sort le l) <-> In x l.
Proof.
  split; apply Permutation_in; [apply sort_perm | symmetry; apply sort_perm].
Qed.

Hypothesis le_total : forall x y, le x y = true \/ le y x = true.
Hypothesis le_trans : forall x y z, le x y = true -> le y z = true -> le x z = true.

Lemma insert_sorted (x : A) (l : list A) :
  StronglySorted (leP le) l -> StronglySorted (leP le) (insert le x l).
Proof.
  induction 1 as [|y t Ht IH Hy]; simpl.
  - repeat constructor.
  - destruct (le x y) eqn:Hxy.
    + constructor.
      * now constructor.
      * constructor; [exact Hxy|].
        rewrite Forall_forall in *. intros z Hz.
        eapply le_trans; [exact Hxy | now apply Hy].
    + constructor; [exact IH|].
      rewrite Forall_forall in *. intros z Hz.
      apply (Permutation_in _ (insert_perm x t)) in Hz.
      destruct Hz as [<- | Hz]; [|now apply Hy].
      destruct (le_total x y) as [H | H]; [congruence | exact H].
Qed.

Lemma sort_sorted (l : list A) : StronglySorted (leP le) (sort le l).
Proof.
  induction l as [|x t IH]; simpl; [constructor | now apply insert_sorted].
Qed.
End SortFacts.

Section Stability.
Context {A : Type}.
Variables (le : A -> A -> bool) (p : A -> bool).
(** Members of the class [p] never overtake one another. *)
Hypothesis same_class : forall x y, p x = true -> p y = true -> le x y = true.

Lemma insert_filter (x : A) (l : list A) :
  filter p (insert le x l) = filter p (x :: l).
Proof.
  induction l as [|y t IH]; simpl; [reflexivity|].
  destruct (le x y) eqn:Hxy; simpl; [reflexivity|].
  rewrite IH. simpl.
  destruct (p x) eqn:Hx, (p y) eqn:Hy; try reflexivity.
  rewrite (same_class Hx Hy) in Hxy. discriminate.
Qed.

Lemma sort_stable (l : list A) : filter p (sort le l) = filter p l.
Proof.
  induction l as [|x t IH]; simpl; [reflexivity|].
  rewrite insert_filter. simpl. now rewrite IH.
Qed.
End Stability.

Lemma filter_perm {A} (f : A -> bool) (l l' : list A) :
  Permutation l l' -> Permutation (filter f l) (filter f l').
Proof.
  induction 1 as [| x l l' _ IH | x y l | l l' l'' _ IH1 _ IH2]; simpl.
  - constructor.
  - destruct (f x); [now constructor | exact IH].
  - destruct (f x), (f y); try reflexivity. apply perm_swap.
  - now transitivity (filter f l').
Qed.

Lemma filter_length_le {A} (f : A -> bool) (l : list A) :
  (List.length (filter f l) <= List.length l)%nat.
Proof.
  induction l as [|x t IH]; simpl; [lia|]. destruct (f x); simpl; lia.
Qed.

Section UniqueFacts.
Context {A : Type}.
Variable eqb : A -> A -> bool.
Hypothesis eqb_spec : forall x y, eqb x y = true <-> x = y.

Lemma memb_In (x : A) (l : list A) : memb eqb x l = true <-> In x l.
Proof.
  unfold memb. rewrite existsb_exists. split.
  - intros [y [Hy Hxy]]. apply eqb_spec in Hxy. now subst.
  - intros H. exists x. split; [exact H | now apply eqb_spec].
Qed.

Lemma unique_aux_In (x : A) (l seen : list A) :
  In x (unique_aux eqb seen l) <-> In x l /\ ~ In x seen.
Proof.
  revert seen. induction l as [|y t IH]; intros seen; simpl.
  - tauto.
  - destruct (memb eqb y seen) eqn:Hm.
    + rewrite IH. apply memb_In in Hm. split.
      * tauto.
      * intros [[<- | H] Hn]; tauto.
    + assert (Hn : ~ In y seen) by (rewrite <- memb_In; congruence).
      simpl. rewrite IH. simpl. split.
      * intros [<- | [H1 H2]]; tauto.
      * intros [[<- | H] Hs]; [tauto|].
        destruct (eqb y x) eqn:Hyx.
        -- apply eqb_spec in Hyx. tauto.
        -- right. split; [exact H|]. intros [-> | Hs']; [|tauto].
           assert (eqb x x = true) by now apply eqb_spec. congruence.
Qed.

Lemma unique_In (x : A) (l : list A) : In x (unique eqb l) <-> In x l.
Proof. unfold unique. rewrite unique_aux_In. simpl. tauto. Qed.

Lemma unique_aux_NoDup (l seen : list A) : NoDup (unique_aux eqb seen l).
Proof.
  revert seen. induction l as [|y t IH]; intros seen; simpl.
  - constructor.
  - destruct (memb eqb y seen); [apply IH|].
    constructor; [|apply IH].
    rewrite unique_aux_In. simpl. tauto.
Qed.

Lemma unique_NoDup (l : list A) : NoDup (unique eqb l).
Proof. apply unique_aux_NoDup. Qed.

Lemma count_occ_b_le (x : A) (l : list A) :
  (count_occ_b eqb x l <= List.length l)%nat.
Proof. apply filter_length_le. Qed.

Lemma count_occ_b_pos (x : A) (l : list A) :
  In x l <-> (0 < count_occ_b eqb x l)%nat.
Proof.
  unfold count_occ_b. induction l as [|y t IH]; simpl.
  - split; [tauto | lia].
  - destruct (eqb x y) eqn:Hxy; simpl.
    + apply eqb_spec in Hxy. subst. split; [lia | tauto].
    + rewrite <- IH. split; [|tauto].
      intros [<- | H]; [|exact H].
      assert (eqb y y = true) by now apply eqb_spec. congruence.
Qed.
End UniqueFacts.

Lemma mem_In (s : string) (l : list string) : mem s l = true <-> In s l.
Proof. exact (memb_In String.eqb String.eqb_eq s l). Qed.

Lemma get_count_In (vc : list (string * nat)) (k : string) (n : nat) :
  NoDup (map fst vc) -> In (k, n) vc -> get_count vc k = n.
Proof.
  induction vc as [|[k' n'] t IH]; simpl; [tauto|].
  intros Hnd [Heq | Hin].
  - inversion Heq; subst. now rewrite String.eqb_refl.
  - inversion Hnd as [|? ? Hnotin Hnd']; subst.
    destruct (String.eqb k' k) eqn:Hk.
    + apply String.eqb_eq in Hk. subst. exfalso. apply Hnotin.
      change k with (fst (k, n)). now apply in_map.
    + now apply IH.
Qed.

Lemma get_count_absent (vc : list (string * nat)) (k : string) :
  ~ In k (map fst vc) -> get_count vc k = 0%nat.
Proof.
  induction vc as [|[k' n'] t IH]; simpl; [reflexivity|].
  intros Hn. destruct (String.eqb k' k) eqn:Hk.
  - apply String.eqb_eq in Hk. tauto.
  - apply IH. tauto.
Qed.

Lemma value_counts_perm (l : list string) :
  Permutation (value_counts l)
    (map (fun v => (v, count_occ_b String.eqb v l)) (unique String.eqb l)).
Proof. apply sort_perm. Qed.

Lemma value_counts_In (l : list string) (v : string) (n : nat) :
  In (v, n) (value_counts l) <-> In v l /\ n = count_occ_b String.eqb v l.
Proof.
  unfold value_counts. rewrite sort_In, in_map_iff. split.
  - intros [w [Heq Hw]]. inversion Heq; subst.
    now rewrite (unique_In String.eqb String.eqb_eq) in Hw.
  - intros [Hv ->]. exists v. split; [reflexivity|].
    now rewrite (unique_In String.eqb String.eqb_eq).
Qed.

Lemma value_counts_keys (l : list string) :
  Permutation (map fst (value_counts l)) (unique String.eqb l).
Proof.
  rewrite (Permutation_map fst (value_counts_perm l)).
  rewrite map_map. simpl. now rewrite map_id.
Qed.

Lemma value_counts_keys_NoDup (l : list string) : NoDup (map fst (value_counts l)).
Proof.
  eapply Permutation_NoDup; [symmetry; apply value_counts_keys|].
  apply (unique_NoDup String.eqb String.eqb_eq).
Qed.

(** [value_counts().get(q, 0)] is the number of occurrences of [q]. *)
Lemma get_count_value_counts (l : list string) (q : string) :
  get_count (value_counts l) q = count_occ_b String.eqb q l.
Proof.
  destruct (in_dec string_dec q l) as [Hin | Hnin].
  - apply get_count_In; [apply value_counts_keys_NoDup|].
    now apply value_counts_In.
  - rewrite get_count_absent.
    + symmetry. destruct (count_occ_b String.eqb q l) eqn:Hc; [reflexivity|].
      exfalso. apply Hnin. apply (count_occ_b_pos String.eqb String.eqb_eq). lia.
    + intros H. apply Hnin.
      apply (Permutation_in _ (value_counts_keys l)) in H.
      now apply -> (unique_In String.eqb String.eqb_eq) in H.
Qed.

Lemma value_counts_nonempty (l : list string) : l <> [] -> value_counts l <> [].
Proof.
  destruct l as [|x t]; [congruence|]. intros _ H.
  assert (Hin : In (x, count_occ_b String.eqb x (x :: t)) (value_counts (x :: t))).
  { apply value_counts_In. split; [now left | reflexivity]. }
  rewrite H in Hin. exact Hin.
Qed.

(** The rows of [value_counts] that reach a threshold are the distinct
    values that occur that often. *)
Lemma value_counts_threshold (l : list string) (k : nat) :
  Permutation
    (map fst (filter (fun vc => (k <=? snd vc)%nat) (value_counts l)))
    (filter (fun v => (k <=? count_occ_b String.eqb v l)%nat) (unique String.eqb l)).
Proof.
  rewrite (Permutation_map fst (filter_perm _ (value_counts_perm l))).
  induction (unique String.eqb l) as [|v t IH]; simpl; [constructor|].
  destruct (k <=? count_occ_b String.eqb v l)%nat; simpl; [now constructor | exact IH].
Qed.

(** *** Rational arithmetic *)

Lemma Qlt_bool_iff (x y : Q) : Qlt_bool x y = true <-> x < y.
Proof.
  unfold Qlt_bool. rewrite negb_true_iff. split.
  - intros H. apply Qnot_le_lt. intros Hle. apply Qle_bool_iff in Hle. congruence.
  - intros H. destruct (Qle_bool y x) eqn:Hb; [|reflexivity].
    apply Qle_bool_iff in Hb. exfalso. now apply (Qlt_not_le x y).
Qed.

Lemma Qlt_bool_false (x y : Q) : Qlt_bool x y = false <-> y <= x.
Proof.
  unfold Qlt_bool. rewrite negb_false_iff. apply Qle_bool_iff.
Qed.

Lemma Qle_bool_false (x y : Q) : Qle_bool x y = false <-> y < x.
Proof.
  rewrite <- Qlt_bool_iff. unfold Qlt_bool. now rewrite negb_true_iff.
Qed.

Lemma Qnat_nonneg (n : nat) : 0 <= Qnat n.
Proof. unfold Qnat, Qle. simpl. lia. Qed.

Lemma Qnat_le (n m : nat) : (n <= m)%nat -> Qnat n <= Qnat m.
Proof. intros H. unfold Qnat, Qle. simpl. lia. Qed.

Lemma Qnat_pos (n : nat) : (0 < n)%nat -> 0 < Qnat n.
Proof. intros H. unfold Qnat, Qlt. simpl. lia. Qed.

Lemma Qnat_S (n : nat) : Qnat (S n) == Qnat n + 1.
Proof. unfold Qnat. rewrite Nat2Z.inj_succ, <- Z.add_1_r, inject_Z_plus. reflexivity. Qed.

Lemma Qdiv_nonneg (x y : Q) : 0 <= x -> 0 <= y -> 0 <= x / y.
Proof.
  intros Hx Hy. unfold Qdiv. apply Qmult_le_0_compat; [exact Hx|].
  now apply Qinv_le_0_compat.
Qed.

Lemma Qdiv_le_1 (x y : Q) : 0 <= x -> x <= y -> x / y <= 1.
Proof.
  intros Hx Hxy.
  destruct (Qlt_le_dec 0 y) as [Hy | Hy].
  - apply Qle_shift_div_r; [exact Hy|]. now rewrite Qmult_1_l.
  - assert (Hy0 : y == 0) by (apply Qle_antisym; [exact Hy | now apply Qle_trans with x]).
    rewrite Hy0. unfold Qdiv, Qinv. simpl. rewrite Qmult_0_r. discriminate.
Qed.

Lemma Qsum_bounds (b : Q) (l : list Q) :
  Forall (fun x => 0 <= x /\ x <= b) l ->
  0 <= Qsum l /\ Qsum l <= b * Qnat (List.length l).
Proof.
  induction 1 as [|x t [Hx0 Hxb] _ [IH0 IHb]]; simpl.
  - split; [discriminate|]. rewrite Qmult_0_r. discriminate.
  - split.
    + replace 0 with (0 + 0) by reflexivity. now apply Qplus_le_compat.
    + change (Z.of_nat (S (List.length t))) with (Z.of_nat (S (List.length t))).
      setoid_replace (Qnat (S (List.length t))) with (Qnat (List.length t) + 1)
        by apply Qnat_S.
      rewrite Qmult_plus_distr_r, Qmult_1_r, Qplus_comm.
      now apply Qplus_le_compat.
Qed.

(** The mean of values between 0 and [b] lies between 0 and [b]. *)
Lemma mean_bounds (b : Q) (l : list Q) :
  0 <= b -> Forall (fun x => 0 <= x /\ x <= b) l -> 0 <= mean l /\ mean l <= b.
Proof.
  intros Hb Hl. destruct (Qsum_bounds Hl) as [H0 Hs]. unfold mean. split.
  - apply Qdiv_nonneg; [exact H0 | apply Qnat_nonneg].
  - destruct l as [|x t].
    + simpl. unfold Qdiv. rewrite Qmult_0_l. exact Hb.
    + apply Qle_shift_div_r; [apply Qnat_pos; simpl; lia | exact Hs].
Qed.

Lemma Qsum_lower (a : Q) (l : list Q) :
  Forall (fun x => a <= x) l -> a * Qnat (List.length l) <= Qsum l.
Proof.
  induction 1 as [|x t Hx _ IH]; cbn [Qsum fold_right List.length].
  - rewrite Qmult_0_r. discriminate.
  - fold (Qsum t). rewrite Qnat_S, Qmult_plus_distr_r, Qmult_1_r, Qplus_comm.
    now apply Qplus_le_compat.
Qed.

Lemma Qsum_upper (b : Q) (l : list Q) :
  Forall (fun x => x <= b) l -> Qsum l <= b * Qnat (List.length l).
Proof.
  induction 1 as [|x t Hx _ IH]; cbn [Qsum fold_right List.length].
  - rewrite Qmult_0_r. discriminate.
  - fold (Qsum t). rewrite Qnat_S, Qmult_plus_distr_r, Qmult_1_r, Qplus_comm.
    now apply Qplus_le_compat.
Qed.

Lemma mean_lower (a : Q) (l : list Q) :
  l <> [] -> Forall (fun x => a <= x) l -> a <= mean l.
Proof.
  intros Hne Hl. unfold mean. apply Qle_shift_div_l.
  - apply Qnat_pos. destruct l; [congruence | simpl; lia].
  - now apply Qsum_lower.
Qed.

Lemma mean_upper (b : Q) (l : list Q) :
  0 <= b -> Forall (fun x => x <= b) l -> mean l <= b.
Proof.
  intros Hb Hl. unfold mean. destruct l as [|x t].
  - simpl. unfold Qdiv. rewrite Qmult_0_l. exact Hb.
  - apply Qle_shift_div_r; [apply Qnat_pos; simpl; lia | now apply Qsum_upper].
Qed.

(** ** Facts about the gap engine *)

Lemma flat_map_singletons {A B} (f : A -> list B) (h : A -> B) (l : list A) :
  (forall x, In x l -> f x = [h x]) -> flat_map f l = map h l.
Proof.
  induction l as [|x t IH]; simpl; intros H; [reflexivity|].
  rewrite (H x (or_introl eq_refl)). simpl. f_equal. apply IH. auto.
Qed.

Lemma filter_none {A} (f : A -> bool) (l : list A) :
  Forall (fun x => f x = false) l -> filter f l = [].
Proof.
  induction 1 as [|x t Hx _ IH]; simpl; [reflexivity|]. now rewrite Hx.
Qed.

Lemma filter_all {A} (f : A -> bool) (l : list A) :
  Forall (fun x => f x = true) l -> filter f l = l.
Proof.
  induction 1 as [|x t Hx _ IH]; simpl; [reflexivity|]. now rewrite Hx, IH.
Qed.

(** The rows of a query, counted through the query column. *)
Lemma count_query_rows (df : DataFrame) (q : string) :
  count_occ_b String.eqb q (map query (rows df)) = List.length (rows_of_query df q).
Proof.
  unfold count_occ_b, rows_of_query.
  induction (rows df) as [|r t IH]; simpl; [reflexivity|].
  rewrite (String.eqb_sym q (query r)).
  destruct (String.eqb (query r) q); simpl; now rewrite IH.
Qed.

Lemma rows_of_query_In (df : DataFrame) (q : string) :
  (0 < List.length (rows_of_query df q))%nat -> In q (map query (rows df)).
Proof.
  rewrite <- count_query_rows. apply (count_occ_b_pos String.eqb String.eqb_eq).
Qed.

Lemma group_keys_In (l : list string) (k : string) : In k (group_keys l) <-> In k l.
Proof.
  unfold group_keys. rewrite sort_In. apply (unique_In String.eqb String.eqb_eq).
Qed.

(** *** The scoring pass on one gap *)

Lemma priority_of_score_band (gap : ContentGap) :
  priority gap = priority_of_score (opportunity_score gap) -> priority_in_band gap.
Proof.
  intros Hp. unfold priority_in_band. rewrite Hp. unfold priority_of_score.
  destruct (Qle_bool 0.8 (opportunity_score gap)) eqn:H8.
  - apply Qle_bool_iff in H8. repeat split; intros.
    + exfalso. now apply (Qlt_not_le _ _ H0).
    + exfalso. apply (Qlt_not_le _ _ H). eapply Qle_trans; [|exact H8]. discriminate.
  - apply Qle_bool_false in H8.
    destruct (Qle_bool 0.5 (opportunity_score gap)) eqn:H5.
    + apply Qle_bool_iff in H5. repeat split; intros.
      * exfalso. now apply (Qlt_not_le _ _ H8).
      * exfalso. now apply (Qlt_not_le _ _ H).
    + apply Qle_bool_false in H5. repeat split; intros.
      * exfalso. now apply (Qlt_not_le _ _ H8).
      * exfalso. now apply (Qlt_not_le _ _ H5).
Qed.

Lemma adjust_gap_priority (gap : ContentGap) : priority_in_band (adjust_gap gap).
Proof. now apply priority_of_score_band. Qed.

Lemma adjust_gap_score (gap : ContentGap) :
  opportunity_score (adjust_gap gap) =
  boosted_score (any_in high_value_words (lower (query_text gap)))
                (any_in commercial_words (lower (query_text gap)))
                (opportunity_score gap).
Proof. reflexivity. Qed.

Lemma boosted_score_lower (a b : bool) (lo s : Q) :
  lo <= 1 -> lo <= s -> lo <= boosted_score a b s.
Proof.
  intros H1 Hs. unfold boosted_score.
  assert (Hstep : forall c x, 0 <= c -> lo <= x -> lo <= Qmin 1.0 (x + c)).
  { intros c x Hc Hx. apply Q.min_glb; [apply Qle_trans with 1; [exact H1 | discriminate]|].
    rewrite <- (Qplus_0_r lo). now apply Qplus_le_compat. }
  destruct a, b; auto.
  - apply Hstep; [discriminate|]. apply Hstep; [discriminate | exact Hs].
  - apply Hstep; [discriminate | exact Hs].
  - apply Hstep; [discriminate | exact Hs].
Qed.

(** *** The sort of the scoring pass *)

Lemma score_ge_total (a b : ContentGap) : score_ge a b = true \/ score_ge b a = true.
Proof.
  unfold score_ge.
  destruct (Qlt_le_dec (opportunity_score a) (opportunity_score b)) as [H | H].
  - right. apply Qle_bool_iff. now apply Qlt_le_weak.
  - left. now apply Qle_bool_iff.
Qed.

Lemma score_ge_trans (a b c : ContentGap) :
  score_ge a b = true -> score_ge b c = true -> score_ge a c = true.
Proof.
  unfold score_ge. rewrite !Qle_bool_iff. intros H1 H2. now apply Qle_trans with (opportunity_score b).
Qed.

Lemma score_pass_perm (gaps : list ContentGap) :
  Permutation (_score_and_prioritize_gaps gaps) (map adjust_gap gaps).
Proof.
  unfold _score_and_prioritize_gaps. destruct gaps as [|x t]; [constructor|].
  apply sort_perm.
Qed.

Lemma score_pass_In (gaps : list ContentGap) (gap : ContentGap) :
  In gap (_score_and_prioritize_gaps gaps) <-> exists g0, In g0 gaps /\ gap = adjust_gap g0.
Proof.
  split.
  - intros H. apply (Permutation_in _ (score_pass_perm gaps)) in H.
    apply in_map_iff in H. destruct H as [g0 [Heq Hin]]. now exists g0.
  - intros [g0 [Hin ->]].
    apply (Permutation_in _ (Permutation_sym (score_pass_perm gaps))).
    now apply in_map.
Qed.

(** *** The entry point *)

Lemma identify_content_gaps_empty_citations (E : Env) (g : NumpyState E)
    (keys tracked_queries : list string) (competitor_domains : option (list string)) :
  identify_content_gaps E g keys [] tracked_queries competitor_domains = [].
Proof. reflexivity. Qed.

Lemma identify_content_gaps_run (E : Env) (g : NumpyState E) (keys : list string)
    (citations : list CitationRecord) (tracked_queries : list string)
    (competitor_domains : option (list string)) :
  citations <> [] -> tracked_queries <> [] ->
  identify_content_gaps E g keys citations tracked_queries competitor_domains =
  _score_and_prioritize_gaps
    (discovered_gaps E g {| columns := keys; rows := citations |} tracked_queries
       (match competitor_domains with Some l => l | None => [] end)).
Proof.
  intros Hc Ht. unfold identify_content_gaps.
  destruct citations; [congruence|]. destruct tracked_queries; [congruence|]. reflexivity.
Qed.

(** *** The gap type of what each finder emits *)

Lemma no_citation_finder_types (E : Env) (df : DataFrame) (tracked_queries : list string) :
  Forall (fun gap => gap_type gap = no_citations \/ gap_type gap = weak_citations)
         (_find_no_citation_gaps E df tracked_queries).
Proof.
  unfold _find_no_citation_gaps. destruct (negb (has_col "query" df)); [constructor|].
  apply Forall_forall. intros gap Hin. apply in_flat_map in Hin.
  destruct Hin as [q [_ Hin]].
  destruct (get_count _ q =? 0)%nat.
  - destruct Hin as [<- | []]. now left.
  - destruct (get_count _ q <=? 2)%nat; [|destruct Hin].
    destruct Hin as [<- | []]. now right.
Qed.

Lemma weak_finder_types (E : Env) (df : DataFrame) :
  Forall (fun gap => gap_type gap = weak_citations) (_find_weak_citation_gaps E df).
Proof.
  unfold _find_weak_citation_gaps.
  destruct (negb (has_col "prominence_score" df) || negb (has_col "query" df));
    [constructor|].
  apply Forall_forall. intros gap Hin. apply in_map_iff in Hin.
  now destruct Hin as [row [<- _]].
Qed.

Lemma competitor_finder_types (E : Env) (df : DataFrame) (competitor_domains : list string) :
  Forall (fun gap => gap_type gap = competitor_dominated)
         (_find_competitor_dominated_gaps E df competitor_domains).
Proof.
  unfold _find_competitor_dominated_gaps.
  destruct competitor_domains as [|c cs]; [constructor|].
  destruct (negb (has_col "source_domain" df) || negb (has_col "query" df));
    [constructor|].
  apply Forall_forall. intros gap Hin. apply in_flat_map in Hin.
  destruct Hin as [q [_ Hin]]. unfold competitor_gaps_of in Hin.
  destruct (List.length (rows_of_query df q) <? 3)%nat; [destruct Hin|].
  destruct (Qle_bool 0.6 _); [|destruct Hin].
  now destruct Hin as [<- | []].
Qed.

Lemma cluster_gaps_types (E : Env) (df : DataFrame) (tracked_queries : list string)
    (clusters : list nat) (cluster_id : nat) :
  Forall (fun gap => gap_type gap = topic_cluster_gap)
         (cluster_gaps E df tracked_queries clusters cluster_id).
Proof.
  unfold cluster_gaps.
  destruct (List.length _ <? 2)%nat; [constructor|].
  destruct (if has_col "query" df then _ else _) as [|qc0 rest] eqn:Hc; [constructor|].
  apply Forall_forall. intros gap Hin. apply in_flat_map in Hin.
  destruct Hin as [qc [_ Hin]].
  destruct (_ && _); [|destruct Hin].
  now destruct Hin as [<- | []].
Qed.

Lemma topic_cluster_finder_types (E : Env) (g : NumpyState E) (df : DataFrame)
    (tracked_queries : list string) :
  Forall (fun gap => gap_type gap = topic_cluster_gap)
         (_find_topic_cluster_gaps E g df tracked_queries).
Proof.
  unfold _find_topic_cluster_gaps.
  destruct (List.length tracked_queries <? 10)%nat; [constructor|].
  destruct (tfidf_fit_transform E 100 tracked_queries); [|constructor].
  destruct (_ <? 2)%nat; [constructor|].
  destruct (kmeans_fit_predict _ _ _ _ _) as [clusters|]; [|constructor].
  destruct (_ <? _)%nat; [constructor|].
  apply Forall_forall. intros gap Hin. apply in_flat_map in Hin.
  destruct Hin as [cid [_ Hin]].
  exact (proj1 (Forall_forall _ _) (cluster_gaps_types E df tracked_queries clusters cid) gap Hin).
Qed.

Lemma question_variation_finder_types (E : Env) (df : DataFrame)
    (tracked_queries : list string) :
  Forall (fun gap => gap_type gap = question_variation)
         (_find_question_variation_gaps E df tracked_queries).
Proof.
  unfold _find_question_variation_gaps.
  apply Forall_forall. intros gap Hin. apply in_flat_map in Hin.
  destruct Hin as [[topic variations] [_ Hin]]. simpl in Hin.
  destruct variations as [|[existing_type existing_queries] [|v vs]]; try destruct Hin.
  apply in_flat_map in Hin. destruct Hin as [missing_type [_ Hin]].
  destruct (_ || _); [|destruct Hin].
  destruct (String.eqb _ ""); [destruct Hin|].
  now destruct Hin as [<- | []].
Qed.

(** *** Keywords and letter case *)

Lemma prefix_lower (w s : string) :
  String.prefix w s = true -> String.prefix (lower w) (lower s) = true.
Proof.
  revert s. induction w as [|a w IH]; intros s; [now destruct s|].
  destruct s as [|b s]; simpl; [discriminate|].
  destruct (ascii_dec a b) as [-> | Hab]; [|discriminate].
  intros H. destruct (ascii_dec (lower_ascii b) (lower_ascii b)); [now apply IH | congruence].
Qed.

Lemma contains_lower (w s : string) :
  contains w s = true -> contains (lower w) (lower s) = true.
Proof.
  induction s as [|c s IH]; simpl.
  - rewrite !orb_false_r. apply (prefix_lower w "").
  - rewrite !orb_true_iff. intros [H | H].
    + left. apply (prefix_lower w (String c s) H).
    + right. now apply IH.
Qed.

(** A keyword list in lower case that matches the text as written also
    matches the lower-cased text. *)
Lemma any_in_lower (words : list string) (s : string) :
  Forall (fun w => lower w = w) words ->
  any_in words s = true -> any_in words (lower s) = true.
Proof.
  intros Hw. unfold any_in. rewrite !existsb_exists.
  intros [w [Hin Hc]]. exists w. split; [exact Hin|].
  rewrite Forall_forall in Hw. rewrite <- (Hw w Hin). now apply contains_lower.
Qed.

Lemma high_value_words_lower : Forall (fun w => lower w = w) high_value_words.
Proof. repeat constructor. Qed.

Lemma commercial_words_lower : Forall (fun w => lower w = w) commercial_words.
Proof. repeat constructor. Qed.

Lemma StronglySorted_weaken {A} (R R' : A -> A -> Prop) (l : list A) :
  (forall a b, R a b -> R' a b) -> StronglySorted R l -> StronglySorted R' l.
Proof.
  intros HR. induction 1 as [|x t _ IH Hx]; constructor; [exact IH|].
  eapply Forall_impl; [|exact Hx]. auto.
Qed.

(** ** The scoring pass *)

Lemma prefix_occurs (w s : string) :
  String.prefix w s = true <-> exists after, s = w ++ after.
Proof.
  revert s. induction w as [|a w IH]; intros s.
  - split; [intros _; now exists s | intros _; now destruct s].
  - destruct s as [|b s]; simpl.
    + split; [discriminate | intros [after H]; discriminate H].
    + destruct (ascii_dec a b) as [-> | Hab].
      * rewrite IH. split; intros [after H]; exists after; [now rewrite H | now inversion H].
      * split; [discriminate | intros [after H]; inversion H; congruence].
Qed.

(** [contains] decides [occurs_in]. *)
Lemma contains_occurs (w s : string) : contains w s = true <-> occurs_in w s.
Proof.
  unfold occurs_in. induction s as [|c s IH]; cbn [contains].
  - rewrite orb_false_r, prefix_occurs. split.
    + intros [after H]. now exists "", after.
    + intros [before [after H]]. destruct before; [now exists after | discriminate H].
  - rewrite orb_true_iff, prefix_occurs, IH. split.
    + intros [[after H] | [before [after H]]].
      * now exists "", after.
      * exists (String c before), after. simpl. now rewrite H.
    + intros [before [after H]]. destruct before as [|b before].
      * left. now exists after.
      * right. exists before, after. now inversion H.
Qed.

Lemma any_in_occurs (words : list string) (s : string) :
  any_in words s = true <-> holds_one_of words s.
Proof.
  unfold any_in, holds_one_of. rewrite existsb_exists.
  split; intros [w [Hin H]]; exists w; (split; [exact Hin|]); now apply contains_occurs.
Qed.

(** A keyword in lower case that occurs in the text as written occurs in
    the lower-cased text. *)
Lemma holds_one_of_lower (words : list string) (s : string) :
  Forall (fun w => lower w = w) words ->
  holds_one_of words s -> holds_one_of words (lower s).
Proof.
  intros Hw H. apply any_in_occurs. apply any_in_lower; [exact Hw|].
  now apply any_in_occurs.
Qed.

(** C7. In the scoring pass, for every gap: exactly when one of "how to",
    "best", "guide", "tutorial" occurs in its query text (compared in lower
    case, so a keyword that occurs in the text as written counts), 0.1 is
    added to its score, clamped to 1.0; then, exactly when one of "buy",
    "price", "cost", "review", "comparison" occurs, 0.15 is added, clamped
    to 1.0, and its potential impact is set to high; otherwise score and
    impact stay. The returned list holds exactly these gaps, in descending
    order of final score, and gaps of equal final score keep their
    discovery order. This holds whatever the sum [add] of two scores is:
    the exact one of [adjust_gap], and the rounded one of Python floats. *)
Theorem scoring_pass_boosts_then_sorts_stably (add : Q -> Q -> Q)
    (gaps : list ContentGap) :
  let adjusted := map (adjust_gap_with add) gaps in
  let out := _score_and_prioritize_gaps_with add gaps in
  (forall gap,
     let text := lower (query_text gap) in
     exists high_value commercial : bool,
       (high_value = true <-> holds_one_of high_value_words text)
       /\ (commercial = true <-> holds_one_of commercial_words text)
       /\ opportunity_score (adjust_gap_with add gap)
          = (let s1 := if high_value
                       then Qmin 1.0 (add (opportunity_score gap) 0.1)
                       else opportunity_score gap in
             if commercial then Qmin 1.0 (add s1 0.15) else s1)
       /\ potential_impact (adjust_gap_with add gap)
          = (if commercial then high else potential_impact gap)
       /\ query_text (adjust_gap_with add gap) = query_text gap
       /\ (holds_one_of high_value_words (query_text gap) -> high_value = true)
       /\ (holds_one_of commercial_words (query_text gap) -> commercial = true))
  /\ Permutation out adjusted
  /\ StronglySorted (fun a b => opportunity_score b <= opportunity_score a) out
  /\ (forall s,
        filter (fun gap => Qeq_bool (opportunity_score gap) s) out
        = filter (fun gap => Qeq_bool (opportunity_score gap) s) adjusted).
Proof.
  cbv zeta. split; [|split; [|split]].
  - intros gap.
    exists (any_in high_value_words (lower (query_text gap))),
           (any_in commercial_words (lower (query_text gap))).
    split; [apply any_in_occurs|]. split; [apply any_in_occurs|].
    split; [reflexivity|]. split; [reflexivity|]. split; [reflexivity|]. split.
    + intros H. apply any_in_occurs, holds_one_of_lower;
        [apply high_value_words_lower | exact H].
    + intros H. apply any_in_occurs, holds_one_of_lower;
        [apply commercial_words_lower | exact H].
  - unfold _score_and_prioritize_gaps_with. destruct gaps as [|x t]; [constructor|].
    apply sort_perm.
  - unfold _score_and_prioritize_gaps_with. destruct gaps as [|x t]; [constructor|].
    apply StronglySorted_weaken with (R := leP score_ge).
    + intros a b H. now apply Qle_bool_iff.
    + apply sort_sorted; [apply score_ge_total | apply score_ge_trans].
  - intros s. unfold _score_and_prioritize_gaps_with.
    destruct gaps as [|x t]; [reflexivity|].
    apply sort_stable. intros a b Ha Hb. unfold score_ge.
    apply Qeq_bool_iff in Ha, Hb. apply Qle_bool_iff. rewrite Ha, Hb. apply Qle_refl.
Qed.

Lemma scoring_pass_boosts_then_sorts_stably_witness :
  opportunity_score (adjust_gap (plain_gap "Best CRM price" 0.55)) == 0.8
  /\ potential_impact (adjust_gap (plain_gap "Best CRM price" 0.55)) = high
  /\ map query_text
         (_score_and_prioritize_gaps
            [plain_gap "crm software" 0.8; plain_gap "Best CRM price" 0.55;
             plain_gap "crm tools" 0.9])
     = ["crm tools"; "crm software"; "Best CRM price"].
Proof.
  destruct (scoring_pass_boosts_then_sorts_stably Qplus
              [plain_gap "crm software" 0.8; plain_gap "Best CRM price" 0.55;
               plain_gap "crm tools" 0.9]) as [Hgap _].
  destruct (Hgap (plain_gap "Best CRM price" 0.55))
    as [high_value [commercial [Hhv [Hcom [Hscore [Himpact _]]]]]].
  assert (Hv : high_value = true).
  { apply Hhv. exists "best". split; [simpl; tauto|]. now exists "", " crm price". }
  assert (Hc : commercial = true).
  { apply Hcom. exists "price". split; [simpl; tauto|]. now exists "best crm ", "". }
  subst high_value commercial. unfold adjust_gap. rewrite Hscore, Himpact.
  split; [reflexivity|]. split; reflexivity.
Defined.

(** ** Determinism of the gap engine *)

Lemma topic_cluster_gaps_ignore_global_generator (E : Env) (g1 g2 : NumpyState E)
    (df : DataFrame) (tracked_queries : list string) :
  _find_topic_cluster_gaps E g1 df tracked_queries
  = _find_topic_cluster_gaps E g2 df tracked_queries.
Proof.
  unfold _find_topic_cluster_gaps.
  destruct (List.length tracked_queries <? 10)%nat; [reflexivity|].
  destruct (tfidf_fit_transform E 100 tracked_queries) as [X|]; [|reflexivity].
  destruct (_ <? 2)%nat; [reflexivity|].
  now rewrite (kmeans_seeded E _ 42%Z g1 g2 X).
Qed.

(** C8. Two calls of [identify_content_gaps] on the same citations,
    tracked queries and competitor domains return the same ranked list,
    whatever the state of the global random generator at each call: the
    clustering is seeded with the constant 42, and the process (string
    hashing, set order, libraries) is the same for both calls. *)
Theorem identify_content_gaps_deterministic (E : Env) (g1 g2 : NumpyState E)
    (keys : list string) (citations : list CitationRecord)
    (tracked_queries : list string) (competitor_domains : option (list string)) :
  identify_content_gaps E g1 keys citations tracked_queries competitor_domains
  = identify_content_gaps E g2 keys citations tracked_queries competitor_domains.
Proof.
  unfold identify_content_gaps, discovered_gaps.
  destruct citations as [|c cs]; [reflexivity|].
  destruct tracked_queries as [|q qs]; [reflexivity|].
  now rewrite (topic_cluster_gaps_ignore_global_generator E g1 g2).
Qed.

(** ** The no-citation finder and the guard of the entry point *)

Lemma no_citation_gaps_unmatched (E : Env) (df : DataFrame) (tracked_queries : list string) :
  has_col "query" df = true ->
  (forall r, In r (rows df) -> ~ In (query r) tracked_queries) ->
  _find_no_citation_gaps E df tracked_queries
  = map (mk_no_citations_gap E tracked_queries) tracked_queries.
Proof.
  intros Hcol Hnone. unfold _find_no_citation_gaps. rewrite Hcol. simpl.
  apply flat_map_singletons. intros q Hq.
  rewrite get_count_value_counts.
  destruct (count_occ_b String.eqb q (map query (rows df))) eqn:Hc; [reflexivity|].
  exfalso.
  assert (Hin : In q (map query (rows df))).
  { apply (count_occ_b_pos String.eqb String.eqb_eq). lia. }
  apply in_map_iff in Hin. destruct Hin as [r [Hr Hin]].
  apply (Hnone r Hin). now rewrite Hr.
Qed.

Lemma adjusted_type_filter_none (t t' : GapType) (l : list ContentGap) :
  t' <> t -> Forall (fun gap => gap_type gap = t') l ->
  filter (is_gap_type t) (map adjust_gap l) = [].
Proof.
  intros Hne Hl. apply filter_none. apply Forall_forall.
  intros gap Hin. apply in_map_iff in Hin. destruct Hin as [g0 [<- Hin]].
  rewrite Forall_forall in Hl. unfold is_gap_type. simpl. rewrite (Hl g0 Hin).
  destruct t, t'; try reflexivity; congruence.
Qed.

Lemma adjusted_type_filter_all (t : GapType) (l : list ContentGap) :
  Forall (fun gap => gap_type gap = t) l ->
  filter (is_gap_type t) (map adjust_gap l) = map adjust_gap l.
Proof.
  intros Hl. apply filter_all. apply Forall_forall.
  intros gap Hin. apply in_map_iff in Hin. destruct Hin as [g0 [<- Hin]].
  rewrite Forall_forall in Hl. unfold is_gap_type. simpl. rewrite (Hl g0 Hin).
  now destruct t.
Qed.

(** C1 (as amended). With an empty citation list the entry point returns
    the empty list, whatever the tracked queries. With a non-empty
    citation list whose dicts carry a query, none of them a tracked query,
    [identify_content_gaps] returns exactly one [no_citations] gap per
    tracked query, each with opportunity score 0.8 before the scoring pass
    and priority high. *)
Theorem one_no_citations_gap_per_unmatched_query (E : Env) (g : NumpyState E)
    (keys : list string) (citations : list CitationRecord)
    (tracked_queries : list string) (competitor_domains : option (list string)) :
  citations <> [] -> tracked_queries <> [] ->
  mem "query" keys = true ->
  (forall r, In r citations -> ~ In (query r) tracked_queries) ->
  let found :=
    _find_no_citation_gaps E {| columns := keys; rows := citations |} tracked_queries in
  let out :=
    identify_content_gaps E g keys citations tracked_queries competitor_domains in
  identify_content_gaps E g keys [] tracked_queries competitor_domains = [] /\
  map query_text found = tracked_queries /\
  Forall (fun gap => gap_type gap = no_citations /\ opportunity_score gap == 0.8
                     /\ priority gap = high) found /\
  Permutation (filter (is_gap_type no_citations) out) (map adjust_gap found) /\
  Permutation (map query_text (filter (is_gap_type no_citations) out)) tracked_queries /\
  Forall (fun gap => priority gap = high) (filter (is_gap_type no_citations) out).
Proof.
  intros Hc Ht Hcol Hnone found out.
  assert (Hfound : found = map (mk_no_citations_gap E tracked_queries) tracked_queries)
    by now apply no_citation_gaps_unmatched.
  assert (Htypes : Forall (fun gap => gap_type gap = no_citations) found).
  { rewrite Hfound. apply Forall_forall. intros gap Hin.
    apply in_map_iff in Hin. now destruct Hin as [q [<- _]]. }
  assert (Hperm : Permutation (filter (is_gap_type no_citations) out)
                              (map adjust_gap found)).
  { unfold out. rewrite identify_content_gaps_run by assumption.
    rewrite (filter_perm _ (score_pass_perm _)).
    unfold discovered_gaps. fold found.
    rewrite !map_app, !filter_app.
    rewrite (adjusted_type_filter_all Htypes).
    rewrite (adjusted_type_filter_none (t' := weak_citations));
      [|discriminate | apply weak_finder_types].
    rewrite (adjusted_type_filter_none (t' := competitor_dominated));
      [|discriminate | apply competitor_finder_types].
    rewrite (adjusted_type_filter_none (t' := topic_cluster_gap));
      [|discriminate | apply topic_cluster_finder_types].
    rewrite (adjusted_type_filter_none (t' := question_variation));
      [|discriminate | apply question_variation_finder_types].
    now rewrite !app_nil_r. }
  split; [reflexivity|]. split; [|split; [|split; [|split]]].
  - rewrite Hfound, map_map. apply map_id.
  - rewrite Hfound. apply Forall_forall. intros gap Hin.
    apply in_map_iff in Hin. destruct Hin as [q [<- _]]. simpl.
    repeat split; reflexivity.
  - exact Hperm.
  - rewrite (Permutation_map query_text Hperm), Hfound, !map_map. simpl.
    now rewrite map_id.
  - eapply Permutation_Forall; [symmetry; exact Hperm|].
    rewrite Hfound. apply Forall_forall. intros gap Hin.
    rewrite map_map in Hin. apply in_map_iff in Hin. destruct Hin as [q [<- _]].
    apply (adjust_gap_priority (mk_no_citations_gap E tracked_queries q)).
    rewrite adjust_gap_score. apply boosted_score_lower; [discriminate|].
    simpl. apply Qle_refl.
Qed.

Lemma one_no_citations_gap_per_unmatched_query_witness :
  let out := identify_content_gaps sample_env tt all_keys two_faint_citations
               ["bar"; "best baz"] None in
  Permutation (map query_text (filter (is_gap_type no_citations) out)) ["bar"; "best baz"]
  /\ Forall (fun gap => priority gap = high) (filter (is_gap_type no_citations) out).
Proof.
  assert (Hnone : forall r, In r two_faint_citations -> ~ In (query r) ["bar"; "best baz"]).
  { intros r [<- | [<- | []]]; simpl; intros [H | [H | []]]; discriminate. }
  pose proof (@one_no_citations_gap_per_unmatched_query sample_env tt all_keys
                two_faint_citations ["bar"; "best baz"] None
                ltac:(discriminate) ltac:(discriminate) eq_refl Hnone) as H.
  cbv zeta in H. split; apply H.
Defined.

(** With no citation at all nothing is returned, so no tracked query gets
    its [no_citations] gap. *)
Lemma no_gap_for_empty_citation_list :
  ~ exists gap,
      In gap (identify_content_gaps sample_env tt all_keys [] ["ai search tools"] None)
      /\ gap_type gap = no_citations /\ query_text gap = "ai search tools".
Proof. intros [gap [[] _]]. Qed.

(** ** Range of the final score *)

Lemma discovered_gap_returned (E : Env) (g : NumpyState E) (keys : list string)
    (citations : list CitationRecord) (tracked_queries : list string)
    (competitor_domains : option (list string)) (g0 : ContentGap) :
  citations <> [] -> tracked_queries <> [] ->
  In g0 (discovered_gaps E g {| columns := keys; rows := citations |} tracked_queries
           (match competitor_domains with Some l => l | None => [] end)) ->
  In (adjust_gap g0)
     (identify_content_gaps E g keys citations tracked_queries competitor_domains).
Proof.
  intros Hc Ht Hin. rewrite identify_content_gaps_run by assumption.
  apply score_pass_In. now exists g0.
Qed.

(** Every returned gap has the priority of its final score. *)
Lemma returned_priority_in_band (E : Env) (g : NumpyState E) (keys : list string)
    (citations : list CitationRecord) (tracked_queries : list string)
    (competitor_domains : option (list string)) (gap : ContentGap) :
  In gap (identify_content_gaps E g keys citations tracked_queries competitor_domains) ->
  priority_in_band gap.
Proof.
  destruct citations as [|c cs]; [intros []|].
  destruct tracked_queries as [|q qs]; [intros []|].
  rewrite identify_content_gaps_run by discriminate.
  intros Hin. apply score_pass_In in Hin. destruct Hin as [g0 [_ ->]].
  apply adjust_gap_priority.
Qed.

Lemma weak_gap_of_query (E : Env) (df : DataFrame) (q : string) :
  has_col "prominence_score" df = true -> has_col "query" df = true ->
  (2 <= List.length (rows_of_query df q))%nat ->
  mean (map prominence_score (rows_of_query df q)) < 0.5 ->
  In (mk_low_prominence_gap E df q (mean (map prominence_score (rows_of_query df q))))
     (_find_weak_citation_gaps E df).
Proof.
  intros Hp Hq Hn Hm. unfold _find_weak_citation_gaps. rewrite Hp, Hq. simpl.
  apply in_map_iff.
  exists (q, (mean (map prominence_score (rows_of_query df q)),
              List.length (map prominence_score (rows_of_query df q)))).
  split; [reflexivity|]. apply filter_In. split.
  - unfold query_prominence. apply in_map_iff. exists q. split; [reflexivity|].
    apply group_keys_In. apply rows_of_query_In. lia.
  - cbn [fst snd]. apply andb_true_iff. split.
    + now apply Qlt_bool_iff.
    + rewrite length_map.
      destruct (List.length (rows_of_query df q)) as [|[|n]]; [lia | lia | reflexivity].
Qed.

Lemma few_citations_gap_of_query (E : Env) (df : DataFrame) (tracked_queries : list string)
    (q : string) (n : nat) :
  has_col "query" df = true -> In q tracked_queries ->
  List.length (rows_of_query df q) = n -> (1 <= n <= 2)%nat ->
  In (mk_few_citations_gap E df tracked_queries q n)
     (_find_no_citation_gaps E df tracked_queries).
Proof.
  intros Hq Hin Hn Hb. unfold _find_no_citation_gaps. rewrite Hq. simpl.
  apply in_flat_map. exists q. split; [exact Hin|].
  rewrite get_count_value_counts, count_query_rows, Hn.
  destruct n as [|[|[|n]]]; try lia; simpl; now left.
Qed.

(** C3 (the code departs from it). Two citations of the tracked query
    "foo" with prominence 0 satisfy the input invariant; the low-prominence
    finder scores the query 0.6 + (0.5 - 0) = 1.1, the scoring pass clamps
    only inside its two keyword boosts, and the gap is returned with final
    score 1.1, outside [0,1]. *)
Theorem low_prominence_gap_scores_above_one (E : Env) (g : NumpyState E) :
  Forall record_invariant two_invisible_citations /\
  exists gap,
    In gap (identify_content_gaps E g all_keys two_invisible_citations ["foo"] None)
    /\ gap_type gap = weak_citations
    /\ opportunity_score gap == 1.1
    /\ ~ in_unit_interval (opportunity_score gap)
    /\ priority gap = high.
Proof.
  split.
  - repeat constructor; simpl; try discriminate.
  - set (df := {| columns := all_keys; rows := two_invisible_citations |}).
    exists (adjust_gap
              (mk_low_prominence_gap E df "foo"
                 (mean (map prominence_score (rows_of_query df "foo"))))).
    split; [|split; [|split; [|split]]].
    + apply discovered_gap_returned; try discriminate.
      unfold discovered_gaps. apply in_or_app. right. apply in_or_app. left.
      apply weak_gap_of_query; reflexivity.
    + reflexivity.
    + reflexivity.
    + intros [_ H]. revert H. vm_compute. intros H. now apply H.
    + reflexivity.
Qed.

(** ** Two weak-citation gaps for one query *)

(** C10. Whenever a tracked query has exactly 2 citations whose mean
    prominence is below 0.5 (the dicts carrying query and prominence
    score), [identify_content_gaps] returns two distinct gaps of type
    [weak_citations] with that query text: the one of the no/weak-citation
    finder and the one of the low-prominence finder; nothing removes
    either. *)
Theorem two_weak_citation_gaps_for_one_query (E : Env) (g : NumpyState E)
    (keys : list string) (citations : list CitationRecord)
    (tracked_queries : list string) (competitor_domains : option (list string))
    (q : string) :
  let df := {| columns := keys; rows := citations |} in
  mem "query" keys = true -> mem "prominence_score" keys = true ->
  In q tracked_queries ->
  List.length (rows_of_query df q) = 2%nat ->
  mean (map prominence_score (rows_of_query df q)) < 0.5 ->
  exists g1 g2,
    In g1 (identify_content_gaps E g keys citations tracked_queries competitor_domains)
    /\ In g2 (identify_content_gaps E g keys citations tracked_queries competitor_domains)
    /\ g1 <> g2
    /\ query_text g1 = q /\ query_text g2 = q
    /\ gap_type g1 = weak_citations /\ gap_type g2 = weak_citations
    /\ gap_id g1 = "weak_citations_" ++ str_of_Z (py_hash E q)
    /\ gap_id g2 = "low_prominence_" ++ str_of_Z (py_hash E q).
Proof.
  intros df Hq Hp Hin Hn Hm.
  assert (Hc : citations <> []).
  { intros ->. discriminate Hn. }
  assert (Ht : tracked_queries <> []).
  { intros ->. destruct Hin. }
  exists (adjust_gap (mk_few_citations_gap E df tracked_queries q 2)).
  exists (adjust_gap
            (mk_low_prominence_gap E df q
               (mean (map prominence_score (rows_of_query df q))))).
  split; [|split; [|split]].
  - apply discovered_gap_returned; try assumption.
    unfold discovered_gaps. apply in_or_app. left.
    apply few_citations_gap_of_query; try assumption. lia.
  - apply discovered_gap_returned; try assumption.
    unfold discovered_gaps. apply in_or_app. right. apply in_or_app. left.
    apply weak_gap_of_query; try assumption. fold df. lia.
  - intros H. apply (f_equal gap_id) in H. simpl in H. discriminate H.
  - repeat split; reflexivity.
Qed.

Lemma two_weak_citation_gaps_for_one_query_witness :
  exists g1 g2,
    In g1 (identify_content_gaps sample_env tt all_keys two_faint_citations ["foo"] None)
    /\ In g2 (identify_content_gaps sample_env tt all_keys two_faint_citations ["foo"] None)
    /\ g1 <> g2
    /\ query_text g1 = "foo" /\ query_text g2 = "foo"
    /\ gap_type g1 = weak_citations /\ gap_type g2 = weak_citations
    /\ gap_id g1 = "weak_citations_7"
    /\ gap_id g2 = "low_prominence_7".
Proof.
  apply (@two_weak_citation_gaps_for_one_query sample_env tt all_keys two_faint_citations
           ["foo"] None "foo" eq_refl eq_refl (or_introl eq_refl) eq_refl eq_refl).
Defined.

(** ** The competitor-dominated finder *)

Lemma filter_flat_map_key {B} (key : B -> string) (f : string -> list B)
    (U : list string) (q : string) :
  NoDup U -> (forall q' b, In b (f q') -> key b = q') ->
  filter (fun b => String.eqb (key b) q) (flat_map f U)
  = if in_dec string_dec q U then f q else [].
Proof.
  intros Hnd Hkey. induction Hnd as [|x t Hx Hnd IH]; simpl; [reflexivity|].
  rewrite filter_app, IH.
  destruct (string_dec x q) as [-> | Hne].
  - destruct (in_dec string_dec q t) as [Hin | _]; [contradiction|].
    rewrite app_nil_r. apply filter_all. apply Forall_forall.
    intros b Hb. apply String.eqb_eq. now apply Hkey.
  - rewrite filter_none.
    + destruct (in_dec string_dec q t); reflexivity.
    + apply Forall_forall. intros b Hb. apply String.eqb_neq.
      now rewrite (Hkey x b Hb).
Qed.

Lemma competitor_share_nonneg (competitor_domains_lower : list string)
    (query_citations : list CitationRecord) :
  0 <= competitor_share competitor_domains_lower query_citations.
Proof. unfold competitor_share. apply Qdiv_nonneg; apply Qnat_nonneg. Qed.

Lemma competitor_gaps_by_query (E : Env) (df : DataFrame) (competitor_domains : list string)
    (q : string) :
  competitor_domains <> [] ->
  has_col "source_domain" df = true -> has_col "query" df = true ->
  filter (fun gap => String.eqb (query_text gap) q)
         (_find_competitor_dominated_gaps E df competitor_domains)
  = competitor_gaps_of E df competitor_domains q.
Proof.
  intros Hne Hs Hq. unfold _find_competitor_dominated_gaps.
  destruct competitor_domains as [|c cs]; [congruence|].
  rewrite Hs, Hq. cbn [negb orb].
  rewrite filter_flat_map_key.
  - destruct (in_dec string_dec q _) as [Hin | Hnin]; [reflexivity|].
    unfold competitor_gaps_of.
    destruct (List.length (rows_of_query df q)) as [|n] eqn:Hlen; [reflexivity|].
    exfalso. apply Hnin. apply (unique_In String.eqb String.eqb_eq).
    apply rows_of_query_In. lia.
  - apply (unique_NoDup String.eqb String.eqb_eq).
  - intros q' gap Hin. unfold competitor_gaps_of in Hin.
    destruct (_ <? 3)%nat; [destruct Hin|].
    destruct (Qle_bool 0.6 _); [|destruct Hin].
    now destruct Hin as [<- | []].
Qed.

(** C5 (as amended). For citations carrying query and source domain: a
    query with fewer than 3 citations gets no competitor-dominated gap;
    a query with at least 3 citations whose competitor share is at least
    0.6 gets exactly one, of type [competitor_dominated], with opportunity
    score 0.5 - share*0.2, difficulty 0.6 + share*0.3 (at least 0.6),
    priority low if share > 0.8 else medium, potential impact high if
    share < 0.8 else medium, and estimated effort high. *)
Theorem competitor_dominated_gap_fields (E : Env) (df : DataFrame)
    (competitor_domains : list string) (q : string) :
  let query_citations := rows_of_query df q in
  let share := competitor_share (map lower competitor_domains) query_citations in
  let emitted :=
    filter (fun gap => String.eqb (query_text gap) q)
           (_find_competitor_dominated_gaps E df competitor_domains) in
  has_col "source_domain" df = true -> has_col "query" df = true ->
  ((List.length query_citations < 3)%nat -> emitted = []) /\
  ((3 <= List.length query_citations)%nat -> 0.6 <= share ->
   exists gap,
     emitted = [gap]
     /\ gap_type gap = competitor_dominated
     /\ opportunity_score gap == 0.5 - share * 0.2
     /\ difficulty_score gap == 0.6 + share * 0.3
     /\ 0.6 <= difficulty_score gap
     /\ (0.8 < share -> priority gap = low)
     /\ (share <= 0.8 -> priority gap = medium)
     /\ (share < 0.8 -> potential_impact gap = high)
     /\ (0.8 <= share -> potential_impact gap = medium)
     /\ estimated_effort gap = high).
Proof.
  intros query_citations share emitted Hs Hq. split.
  - intros Hlt. unfold emitted, _find_competitor_dominated_gaps.
    destruct competitor_domains as [|c cs]; [reflexivity|].
    fold (_find_competitor_dominated_gaps E df (c :: cs)).
    rewrite competitor_gaps_by_query by (assumption || discriminate).
    unfold competitor_gaps_of. fold query_citations.
    apply Nat.ltb_lt in Hlt. now rewrite Hlt.
  - intros Hge Hshare.
    assert (Hne : competitor_domains <> []).
    { intros ->. revert Hshare. unfold share, competitor_share. simpl.
      rewrite filter_none by (apply Forall_forall; reflexivity).
      unfold Qdiv. rewrite Qmult_0_l. intros H. apply Qle_bool_iff in H. discriminate H. }
    exists (mk_competitor_gap E df q share).
    split.
    { unfold emitted. rewrite competitor_gaps_by_query by assumption.
      unfold competitor_gaps_of. fold query_citations. fold share.
      apply Nat.ltb_ge in Hge. rewrite Hge.
      apply Qle_bool_iff in Hshare. now rewrite Hshare. }
    simpl. split; [reflexivity|]. split; [reflexivity|]. split; [reflexivity|].
    split.
    { rewrite <- (Qplus_0_r 0.6) at 1. apply Qplus_le_compat; [apply Qle_refl|].
      apply Qmult_le_0_compat; [apply competitor_share_nonneg | discriminate]. }
    split; [|split; [|split; [|split]]].
    + intros H. apply Qlt_bool_iff in H. now rewrite H.
    + intros H. apply Qlt_bool_false in H. now rewrite H.
    + intros H. apply Qlt_bool_iff in H. now rewrite H.
    + intros H. apply Qlt_bool_false in H. now rewrite H.
    + reflexivity.
Qed.

Lemma competitor_dominated_gap_fields_witness :
  exists gap,
    filter (fun gap => String.eqb (query_text gap) "crm software")
           (_find_competitor_dominated_gaps sample_env (frame three_of_three) ["Rival.com"])
    = [gap]
    /\ gap_type gap = competitor_dominated
    /\ 0.6 <= difficulty_score gap
    /\ priority gap = low
    /\ potential_impact gap = medium
    /\ estimated_effort gap = high.
Proof.
  destruct (proj2 (@competitor_dominated_gap_fields sample_env (frame three_of_three)
                     ["Rival.com"] "crm software" eq_refl eq_refl))
    as [gap [He [Ht [_ [_ [Hd [Hlow [_ [_ [Himp Heff]]]]]]]]]].
  - simpl. lia.
  - vm_compute. discriminate.
  - exists gap. repeat split; try assumption.
    + apply Hlow. reflexivity.
    + apply Himp. vm_compute. discriminate.
Defined.

(** At a share of exactly 0.8 the potential impact is medium, where
    "medium if share > 0.8 else high" would make it high. *)
Lemma impact_at_share_four_fifths :
  exists gap,
    _find_competitor_dominated_gaps sample_env (frame four_of_five) ["rival.com"] = [gap]
    /\ competitor_share ["rival.com"] (rows_of_query (frame four_of_five) "crm software")
       == 0.8
    /\ query_text gap = "crm software"
    /\ potential_impact gap = medium
    /\ potential_impact gap
       <> (if Qlt_bool 0.8 (competitor_share ["rival.com"]
                              (rows_of_query (frame four_of_five) "crm software"))
           then medium else high).
Proof.
  eexists. split; [reflexivity|]. split; [reflexivity|]. split; [reflexivity|].
  split; [reflexivity | discriminate].
Qed.

(** ** Facts about the pattern engine *)

Lemma complete_has_col (df : DataFrame) (k : string) :
  complete (columns df) -> In k all_keys -> has_col k df = true.
Proof. intros H Hk. now apply H. Qed.

Lemma bind_Ok {A B} (m : Exn A) (k : A -> Exn B) (b : B) :
  bind m k = Ok b -> exists a, m = Ok a /\ k a = Ok b.
Proof. destruct m as [a|e]; simpl; [eauto | discriminate]. Qed.

Lemma col_unique_present (name : string) (f : CitationRecord -> string) (df : DataFrame) :
  has_col name df = true ->
  col_unique name f df = Ok (unique String.eqb (map f (rows df))).
Proof. intros H. unfold col_unique. now rewrite H. Qed.

(** ** Exceptions of the sub-scans *)

(** C2 (the code departs from it). Three citation dicts that carry only
    [source_domain]: the domain sub-scan finds a domain cited three times
    and reads [df['engine']] to build its pattern; the [KeyError] is caught
    nowhere and leaves [analyze_citation_patterns], so no sibling sub-scan
    runs and no list is returned. Only the query-similarity sub-scan (and
    the topic-cluster finder of the gap engine) wraps its body in [try]. *)
Theorem missing_engine_key_escapes (E : Env) (g : NumpyState E) :
  _analyze_domain_patterns E {| columns := ["source_domain"]; rows := three_bare_citations |}
  = Raise (KeyError ["engine"])
  /\ analyze_citation_patterns E g ["source_domain"] three_bare_citations
     = Raise (KeyError ["engine"]).
Proof. split; reflexivity. Qed.

(** C9 (the code departs from it). Six citation dicts that carry only
    [source_domain], four of them from one domain and no other domain
    three times. The claim has the sub-scan emit one pattern of frequency 1
    and strength 0.1. The code finds the one qualifying domain, then reads
    [df['engine']] to build the pattern and raises [KeyError]: no pattern
    is emitted, by the sub-scan or by [analyze_citation_patterns]. It is
    the defect of C2: the sub-scan guards [source_domain] and
    [prominence_score] with [in df.columns] and leaves [engine] and
    [citation_type] unguarded. With these two keys present the same
    citations give the pattern of the claim. *)
Theorem domain_frequency_scan_raises_without_engine (E : Env) (g : NumpyState E) :
  let df := {| columns := ["source_domain"]; rows := six_bare_citations |} in
  count_occ_b String.eqb "x.com" (map source_domain (rows df)) = 4%nat
  /\ qualifying_domains df = ["x.com"]
  /\ _analyze_domain_patterns E df = Raise (KeyError ["engine"])
  /\ analyze_citation_patterns E g ["source_domain"] six_bare_citations
     = Raise (KeyError ["engine"])
  /\ exists p,
       _analyze_domain_patterns
         E {| columns := ["engine"; "citation_type"; "source_domain"];
              rows := six_bare_citations |} = Ok [p]
       /\ pattern_type p = domain_frequency
       /\ frequency p = 1%nat /\ strength p == 0.1.
Proof.
  cbv zeta. split; [reflexivity|]. split; [reflexivity|]. split; [reflexivity|].
  split; [reflexivity|]. eexists. split; [reflexivity|].
  split; [reflexivity|]. split; reflexivity.
Qed.

(** ** The domain-frequency pattern *)

Lemma filter_single (f : string -> bool) (U : list string) (d : string) :
  NoDup U -> In d U -> f d = true ->
  (forall d', In d' U -> d' <> d -> f d' = false) ->
  filter f U = [d].
Proof.
  intros Hnd. induction Hnd as [|x t Hx Hnd IH]; simpl; [tauto|].
  intros [-> | Hin] Hd Hothers.
  - rewrite Hd. f_equal. apply filter_none. apply Forall_forall.
    intros d' Hd'. apply Hothers; [now right|]. intros ->. contradiction.
  - rewrite (Hothers x); [|now left | intros ->; contradiction].
    apply IH; auto.
Qed.

Lemma high_freq_length (df : DataFrame) :
  List.length (filter (fun dc => (min_pattern_frequency <=? snd dc)%nat)
                      (value_counts (map source_domain (rows df))))
  = List.length (qualifying_domains df).
Proof.
  unfold qualifying_domains, min_pattern_frequency.
  rewrite <- (length_map fst).
  apply Permutation_length, value_counts_threshold.
Qed.

(** X26. For citation records with all their keys, the domain sub-scan
    emits a [domain_frequency] pattern exactly when some source domain has
    at least 3 citations; there is one such pattern, its frequency is the
    number of qualifying domains and its strength min(1.0, that number / 10).
    When one domain has 4 citations and every other fewer than 3, the
    frequency is 1 and the strength 0.1. *)
Theorem domain_frequency_pattern (E : Env) (df : DataFrame) :
  complete (columns df) ->
  let cited := map source_domain (rows df) in
  exists ps,
    _analyze_domain_patterns E df = Ok ps /\
    ((exists d, (3 <= count_occ_b String.eqb d cited)%nat) <-> qualifying_domains df <> []) /\
    (qualifying_domains df = [] -> filter (is_pattern_type domain_frequency) ps = []) /\
    (qualifying_domains df <> [] ->
     exists p,
       filter (is_pattern_type domain_frequency) ps = [p]
       /\ frequency p = List.length (qualifying_domains df)
       /\ strength p == Qmin 1.0 (Qnat (List.length (qualifying_domains df)) / 10)) /\
    (forall d,
       count_occ_b String.eqb d cited = 4%nat ->
       (forall d', d' <> d -> (count_occ_b String.eqb d' cited < 3)%nat) ->
       exists p,
         filter (is_pattern_type domain_frequency) ps = [p]
         /\ frequency p = 1%nat /\ strength p == 0.1).
Proof.
  intros Hc cited.
  assert (Hs : has_col "source_domain" df = true) by (apply complete_has_col; simpl; tauto).
  assert (He : has_col "engine" df = true) by (apply complete_has_col; simpl; tauto).
  assert (Ht : has_col "citation_type" df = true) by (apply complete_has_col; simpl; tauto).
  unfold _analyze_domain_patterns. rewrite Hs. cbn [negb].
  rewrite !(@col_unique_present "engine" engine df He),
    !(@col_unique_present "citation_type" citation_type df Ht).
  set (high := filter _ (value_counts (map source_domain (rows df)))).
  assert (Hlen : List.length high = List.length (qualifying_domains df))
    by apply high_freq_length.
  set (prominence :=
         if has_col "prominence_score" df
         then _ else Ok []).
  assert (Hprom : exists pp, prominence = Ok pp
                             /\ filter (is_pattern_type domain_frequency) pp = []).
  { unfold prominence. destruct (has_col "prominence_score" df); [|now exists []].
    destruct (0 <? _)%nat; [|now exists []].
    eexists. split; [reflexivity | reflexivity]. }
  destruct Hprom as [pp [-> Hpp]].
  assert (Hiff : (exists d, (3 <= count_occ_b String.eqb d cited)%nat)
                 <-> qualifying_domains df <> []).
  { unfold qualifying_domains. fold cited. split.
    - intros [d Hd] Hnil.
      assert (Hin : In d (filter (fun d => (3 <=? count_occ_b String.eqb d cited)%nat)
                                 (unique String.eqb cited))).
      { apply filter_In. split.
        - apply (unique_In String.eqb String.eqb_eq).
          apply (count_occ_b_pos String.eqb String.eqb_eq). lia.
        - now apply Nat.leb_le. }
      rewrite Hnil in Hin. exact Hin.
    - intros Hne.
      destruct (filter _ (unique String.eqb cited)) as [|d rest] eqn:Hf; [congruence|].
      exists d. assert (Hin : In d (d :: rest)) by now left.
      rewrite <- Hf in Hin. apply filter_In in Hin. now apply Nat.leb_le. }
  destruct (List.length high) as [|n] eqn:Hhigh.
  - (* no qualifying domain *)
    cbn [Nat.ltb Nat.leb bind]. eexists. split; [reflexivity|].
    assert (Hq : qualifying_domains df = []) by (now apply length_zero_iff_nil).
    split; [exact Hiff|]. split; [|split].
    + intros _. exact Hpp.
    + congruence.
    + intros d Hd Hothers. exfalso.
      assert (Hex : exists d, (3 <= count_occ_b String.eqb d cited)%nat)
        by (exists d; lia).
      apply Hiff in Hex. contradiction.
  - (* at least one *)
    cbn [Nat.ltb Nat.leb bind]. eexists. split; [reflexivity|].
    cbn [app filter is_pattern_type pattern_type PatternType_eqb].
    rewrite Hpp.
    split; [exact Hiff|]. split; [|split].
    + intros Hq. rewrite Hq in Hlen. discriminate.
    + intros _. eexists. split; [reflexivity|]. cbn [frequency strength].
      rewrite <- Hlen. split; reflexivity.
    + intros d Hd Hothers. eexists. split; [reflexivity|]. cbn [frequency strength].
      assert (Hone : qualifying_domains df = [d]).
      { unfold qualifying_domains. fold cited. apply filter_single.
        - apply (unique_NoDup String.eqb String.eqb_eq).
        - apply (unique_In String.eqb String.eqb_eq).
          apply (count_occ_b_pos String.eqb String.eqb_eq). fold cited. lia.
        - rewrite Hd. reflexivity.
        - intros d' _ Hne. apply Nat.leb_gt. now apply Hothers. }
      rewrite Hone in Hlen. simpl in Hlen. injection Hlen as ->.
      split; reflexivity.
Qed.

Lemma domain_frequency_pattern_witness :
  exists ps p,
    _analyze_domain_patterns sample_env (frame four_from_one_domain) = Ok ps
    /\ filter (is_pattern_type domain_frequency) ps = [p]
    /\ frequency p = 1%nat /\ strength p == 0.1.
Proof.
  destruct (@domain_frequency_pattern sample_env (frame four_from_one_domain))
    as [ps [Hrun [_ [_ [_ Hfour]]]]].
  - intros k Hk. simpl in Hk.
    repeat (destruct Hk as [<- | Hk]; [reflexivity|]). destruct Hk.
  - destruct (Hfour "x.com") as [p Hp].
    + reflexivity.
    + intros d' Hne. unfold count_occ_b. simpl.
      destruct (String.eqb d' "x.com") eqn:Hx;
        [apply String.eqb_eq in Hx; contradiction|].
      destruct (String.eqb d' "y.com"), (String.eqb d' "z.com"); simpl; lia.
    + exists ps, p. split; [exact Hrun | exact Hp].
Defined.

(** ** The position-consistency pattern *)

Lemma pair_eqb_eq (a b : string * string) : pair_eqb a b = true <-> a = b.
Proof.
  destruct a as [a1 a2], b as [b1 b2]. unfold pair_eqb. simpl.
  rewrite andb_true_iff, !String.eqb_eq. split; [intros [-> ->] | intros H; inversion H]; auto.
Qed.

Lemma NoDup_map_fst_filter {A B} (f : A * B -> bool) (l : list (A * B)) :
  NoDup (map fst l) -> NoDup (map fst (filter f l)).
Proof.
  induction l as [|x t IH]; simpl; intros H; [constructor|].
  inversion H as [|? ? Hx Ht]; subst.
  destruct (f x); simpl; [|now apply IH].
  constructor; [|now apply IH].
  intros Hin. apply Hx. apply in_map_iff in Hin. destruct Hin as [y [Hy Hin]].
  apply filter_In in Hin. apply in_map_iff. exists y. tauto.
Qed.

Lemma position_stats_keys (top_positions : list CitationRecord) :
  NoDup (map fst (position_stats top_positions)).
Proof.
  unfold position_stats. rewrite map_map. simpl. rewrite map_id.
  eapply Permutation_NoDup; [symmetry; apply sort_perm|].
  apply (unique_NoDup pair_eqb pair_eqb_eq).
Qed.

(** A row of the grouped table: the key of a group that occurs, with the
    mean position and the size of the group. *)
Lemma position_stats_In (top_positions : list CitationRecord) (k : string * string)
    (m : Q) (n : nat) :
  In (k, (m, n)) (position_stats top_positions) <->
  In k (map (fun r => (source_domain r, citation_type r)) top_positions)
  /\ m = mean (map (fun r => inject_Z (position r)) (position_group top_positions k))
  /\ n = List.length (position_group top_positions k).
Proof.
  unfold position_stats. rewrite in_map_iff. split.
  - intros [k' [Heq Hin]]. inversion Heq; subst. clear Heq.
    apply sort_In in Hin. apply -> (unique_In pair_eqb pair_eqb_eq) in Hin.
    split; [exact Hin|]. split; [reflexivity|]. apply length_map.
  - intros [Hin [-> ->]]. exists k. split.
    + unfold position_group. now rewrite length_map.
    + apply sort_In. now apply (unique_In pair_eqb pair_eqb_eq).
Qed.

Lemma position_group_key (top_positions : list CitationRecord) (k : string * string) :
  (0 < List.length (position_group top_positions k))%nat ->
  In k (map (fun r => (source_domain r, citation_type r)) top_positions).
Proof.
  unfold position_group. induction top_positions as [|r t IH]; simpl; [lia|].
  destruct (pair_eqb (source_domain r, citation_type r) k) eqn:Hk.
  - intros _. left. now apply pair_eqb_eq.
  - intros H. right. now apply IH.
Qed.

Lemma columns_present (names : list string) (df : DataFrame) :
  Forall (fun n => has_col n df = true) names ->
  filter (fun n => negb (has_col n df)) names = [].
Proof.
  intros H. apply filter_none. eapply Forall_impl; [|exact H].
  intros n Hn. simpl in Hn. now rewrite Hn.
Qed.

Lemma agg_columns_present (names : list string) (df : DataFrame) :
  Forall (fun n => has_col n df = true) names -> agg_columns names df = Ok tt.
Proof. intros H. unfold agg_columns. now rewrite columns_present. Qed.

Lemma groupby_columns_present (names : list string) (df : DataFrame) :
  Forall (fun n => has_col n df = true) names -> groupby_columns names df = Ok tt.
Proof. intros H. unfold groupby_columns. now rewrite columns_present. Qed.

Lemma complete_columns (names : list string) (df : DataFrame) :
  complete (columns df) -> incl names all_keys ->
  Forall (fun n => has_col n df = true) names.
Proof.
  intros Hc Hi. apply Forall_forall. intros n Hn. apply Hc. now apply Hi.
Qed.

Ltac known_keys :=
  let k := fresh "k" in
  let H := fresh "H" in
  intros k H; simpl in H |- *;
  repeat (destruct H as [<- | H]; [tauto|]); destruct H.

(** C6 (as amended). For citation records with all their keys: with fewer
    than 3 records at position 3 or better the position sub-scan emits
    nothing; with at least 3 such records, of which some (domain, citation
    type) group holds at least 2, it emits one [position_consistency]
    pattern over all the groups of at least 2, with
    strength 1.0 - (mean of the groups' mean positions) / 10. *)
Theorem position_consistency_pattern (E : Env) (df : DataFrame) :
  complete (columns df) ->
  let top_positions := filter (fun r => (position r <=? 3)%Z) (rows df) in
  let consistent_top :=
    filter (fun row => (2 <=? snd (snd row))%nat) (position_stats top_positions) in
  ((List.length top_positions < 3)%nat -> _analyze_position_patterns E df = Ok []) /\
  ((3 <= List.length top_positions)%nat ->
   (exists k, (2 <= List.length (position_group top_positions k))%nat) ->
   exists p,
     _analyze_position_patterns E df = Ok [p]
     /\ pattern_type p = position_consistency
     /\ strength p == 1.0 - mean (map (fun row => fst (snd row)) consistent_top) / 10
     /\ frequency p = list_sum (map (fun row => snd (snd row)) consistent_top)) /\
  (forall k m n,
     In (k, (m, n)) consistent_top <->
     (2 <= n)%nat /\ n = List.length (position_group top_positions k)
     /\ m = mean (map (fun r => inject_Z (position r)) (position_group top_positions k))) /\
  NoDup (map fst consistent_top).
Proof.
  intros Hc top_positions consistent_top.
  assert (Hp : has_col "position" df = true) by (apply complete_has_col; simpl; tauto).
  assert (He : has_col "engine" df = true) by (apply complete_has_col; simpl; tauto).
  assert (Ht : has_col "citation_type" df = true) by (apply complete_has_col; simpl; tauto).
  assert (Hrows : forall k m n,
     In (k, (m, n)) consistent_top <->
     (2 <= n)%nat /\ n = List.length (position_group top_positions k)
     /\ m = mean (map (fun r => inject_Z (position r)) (position_group top_positions k))).
  { intros k m n. unfold consistent_top. rewrite filter_In, position_stats_In.
    cbn [snd]. rewrite Nat.leb_le. split.
    - tauto.
    - intros [Hn [Hlen Hm]]. repeat split; try assumption.
      apply position_group_key. lia. }
  split; [|split; [|split]].
  - intros Hlt. unfold _analyze_position_patterns. rewrite Hp. cbn [negb].
    fold top_positions. unfold min_pattern_frequency.
    apply Nat.leb_gt in Hlt. now rewrite Hlt.
  - intros Hge [k Hk]. unfold _analyze_position_patterns. rewrite Hp. cbn [negb].
    fold top_positions. unfold min_pattern_frequency.
    apply Nat.leb_le in Hge. rewrite Hge.
    rewrite groupby_columns_present by (apply complete_columns; [exact Hc | known_keys]).
    rewrite agg_columns_present by (apply complete_columns; [exact Hc | known_keys]).
    cbn [bind]. fold consistent_top.
    assert (Hpos : (0 <? List.length consistent_top)%nat = true).
    { apply Nat.ltb_lt.
      assert (Hin : In (k, (mean (map (fun r => inject_Z (position r))
                                      (position_group top_positions k)),
                            List.length (position_group top_positions k)))
                       consistent_top) by (apply Hrows; tauto).
      destruct consistent_top; [destruct Hin | simpl; lia]. }
    rewrite Hpos.
    rewrite (@col_unique_present "engine" engine df He),
      (@col_unique_present "citation_type" citation_type df Ht).
    cbn [bind]. eexists. split; [reflexivity|]. repeat split; reflexivity.
  - exact Hrows.
  - apply NoDup_map_fst_filter, position_stats_keys.
Qed.

Lemma position_consistency_pattern_witness :
  exists p,
    _analyze_position_patterns sample_env (frame three_top_positions) = Ok [p]
    /\ pattern_type p = position_consistency
    /\ strength p == 0.85.
Proof.
  destruct (@position_consistency_pattern sample_env (frame three_top_positions))
    as [_ [Hemit _]].
  - intros k Hk. simpl in Hk.
    repeat (destruct Hk as [<- | Hk]; [reflexivity|]). destruct Hk.
  - destruct Hemit as [p [Hrun [Htype [Hstrength _]]]].
    + simpl. lia.
    + exists ("x.com", "organic"). simpl. lia.
    + exists p. split; [exact Hrun|]. split; [exact Htype|].
      rewrite Hstrength. reflexivity.
Defined.

(** Two records in the top three positions, both in one (domain, type)
    group: the group has its 2 records, yet nothing is emitted, because
    fewer than [min_pattern_frequency] records are in the top three. *)
Lemma two_top_records_emit_nothing :
  (2 <= List.length
          (position_group
             (filter (fun r => (position r <=? 3)%Z) two_top_positions)
             ("x.com", "organic")))%nat
  /\ _analyze_position_patterns sample_env (frame two_top_positions) = Ok [].
Proof. split; [simpl; lia | reflexivity]. Qed.

(** ** Strength of the patterns *)

Lemma Qmin_one_unit (x : Q) : 0 <= x -> in_unit_interval (Qmin 1.0 x).
Proof.
  intros Hx. split.
  - apply Q.min_glb; [discriminate | exact Hx].
  - apply Qle_trans with 1.0; [apply Q.le_min_l | discriminate].
Qed.

Lemma ratio_unit (n m : nat) : (n <= m)%nat -> in_unit_interval (Qnat n / Qnat m).
Proof.
  intros H. split.
  - apply Qdiv_nonneg; apply Qnat_nonneg.
  - apply Qdiv_le_1; [apply Qnat_nonneg | now apply Qnat_le].
Qed.

Lemma rint_bounds (y : Q) : 0 <= y -> y <= 1000 -> (0 <= rint y <= 1000)%Z.
Proof.
  intros H0 H1.
  assert (Hf0 : (0 <= Qfloor y)%Z).
  { change 0%Z with (Qfloor 0). now apply Qfloor_resp_le. }
  assert (Hf1 : (Qfloor y <= 1000)%Z).
  { rewrite <- (Qfloor_Z 1000). now apply Qfloor_resp_le. }
  assert (Hhalf : 1#2 <= y - inject_Z (Qfloor y) -> (Qfloor y + 1 <= 1000)%Z).
  { intros Hr.
    assert (Hle : inject_Z (Qfloor y) <= 1000 - (1#2)) by lra.
    unfold Qle in Hle. simpl in Hle. lia. }
  unfold rint.
  destruct (Qlt_bool (y - inject_Z (Qfloor y)) (1#2)) eqn:Hlt; [lia|].
  apply Qlt_bool_false in Hlt.
  destruct (Qlt_bool (1#2) (y - inject_Z (Qfloor y))); [specialize (Hhalf Hlt); lia|].
  destruct (Z.even (Qfloor y)); [lia | specialize (Hhalf Hlt); lia].
Qed.

Lemma round3_unit (x : Q) : in_unit_interval x -> in_unit_interval (round3 x).
Proof.
  intros [H0 H1]. unfold round3.
  assert (Hb : (0 <= rint (x * 1000) <= 1000)%Z).
  { apply rint_bounds.
    - apply Qmult_le_0_compat; [exact H0 | discriminate].
    - setoid_replace (1000 : Q) with (1 * 1000) by reflexivity.
      apply Qmult_le_compat_r; [exact H1 | discriminate]. }
  split.
  - apply Qdiv_nonneg; [|discriminate]. unfold Qle. simpl. lia.
  - apply Qdiv_le_1; unfold Qle; simpl; lia.
Qed.

Lemma mean_prominence_unit (l : list CitationRecord) :
  Forall record_invariant l -> in_unit_interval (mean (map prominence_score l)).
Proof.
  intros H. apply mean_bounds; [discriminate|].
  apply Forall_map. eapply Forall_impl; [|exact H].
  intros r [Hp _]. exact Hp.
Qed.

Lemma Forall_filter_keep {A} (P : A -> Prop) (f : A -> bool) (l : list A) :
  Forall P l -> Forall P (filter f l).
Proof.
  intros H. apply Forall_forall. intros x Hx. apply filter_In in Hx.
  rewrite Forall_forall in H. now apply H.
Qed.

Ltac exn_inv :=
  repeat match goal with
  | H : bind _ _ = Ok _ |- _ =>
      let a := fresh "a" in
      let Ha := fresh "Hrun" in
      apply bind_Ok in H; destruct H as [a [Ha H]]
  | H : Ok _ = Ok _ |- _ => inversion H; subst; clear H
  | H : Raise _ = Ok _ |- _ => discriminate H
  | H : (if ?b then _ else _) = Ok _ |- _ =>
      let Hb := fresh "Hb" in destruct b eqn:Hb
  end.

Lemma domain_patterns_strength (E : Env) (df : DataFrame) (ps : list CitationPattern) :
  Forall record_invariant (rows df) ->
  _analyze_domain_patterns E df = Ok ps -> Forall strength_ok ps.
Proof.
  intros Hinv H. unfold _analyze_domain_patterns in H.
  assert (Hfreq : forall n, strength_ok
            {| pattern_id := ""; pattern_type := domain_frequency; frequency := n;
               strength := Qmin 1.0 (Qnat n / 10); engines := []; domains := [];
               content_types := [] |}).
  { intros n. apply Qmin_one_unit. apply Qdiv_nonneg; [apply Qnat_nonneg | discriminate]. }
  assert (Hprom : forall f, in_unit_interval
            (mean (map (fun row : string * (Q * nat) => fst (snd row))
                       (filter f (domain_prominence_table df))))).
  { intros f. apply mean_bounds; [discriminate|].
    apply Forall_map, Forall_filter_keep. unfold domain_prominence_table.
    apply Forall_map. apply Forall_forall. intros d _. cbn [fst snd].
    apply mean_prominence_unit. now apply Forall_filter_keep. }
  exn_inv; repeat (apply Forall_app; split); repeat constructor;
    try (apply (Hfreq _)); try (apply (Hprom _)).
Qed.

Lemma content_type_patterns_strength (E : Env) (df : DataFrame) (ps : list CitationPattern) :
  Forall record_invariant (rows df) ->
  _analyze_content_type_patterns E df = Ok ps -> Forall strength_ok ps.
Proof.
  intros Hinv H. unfold _analyze_content_type_patterns in H.
  assert (Htypes : forall f, in_unit_interval
            (mean (map (fun row : string * (Q * nat) => fst (snd row))
                       (filter f (type_stats df))))).
  { intros f. apply mean_bounds; [discriminate|].
    apply Forall_map, Forall_filter_keep. unfold type_stats.
    apply Forall_map. apply Forall_forall. intros d _. cbn [fst snd].
    apply round3_unit, mean_prominence_unit. now apply Forall_filter_keep. }
  exn_inv; repeat constructor; apply (Htypes _).
Qed.

Lemma position_patterns_strength (E : Env) (df : DataFrame) (ps : list CitationPattern) :
  Forall record_invariant (rows df) ->
  _analyze_position_patterns E df = Ok ps -> Forall strength_ok ps.
Proof.
  intros Hinv H. unfold _analyze_position_patterns in H.
  set (top_positions := filter (fun r => (position r <=? 3)%Z) (rows df)) in *.
  assert (Htop : Forall (fun r => 0 <= inject_Z (position r) /\ inject_Z (position r) <= 3)
                        top_positions).
  { apply Forall_forall. intros r Hr. apply filter_In in Hr. destruct Hr as [Hr Hle].
    rewrite Forall_forall in Hinv. destruct (Hinv r Hr) as [_ Hpos].
    apply Z.leb_le in Hle. unfold Qle. simpl. lia. }
  assert (Hmeans : forall f,
            0 <= mean (map (fun row : (string * string) * (Q * nat) => fst (snd row))
                           (filter f (position_stats top_positions)))
            /\ mean (map (fun row : (string * string) * (Q * nat) => fst (snd row))
                         (filter f (position_stats top_positions))) <= 3).
  { intros f. apply mean_bounds; [discriminate|].
    apply Forall_map, Forall_filter_keep. unfold position_stats.
    apply Forall_map. apply Forall_forall. intros k _. cbn [fst snd].
    apply mean_bounds; [discriminate|]. apply Forall_map. now apply Forall_filter_keep. }
  exn_inv; repeat constructor; unfold strength_ok, in_unit_interval; cbn [strength];
    match goal with
    | |- context [filter ?f (position_stats top_positions)] =>
        destruct (Hmeans f) as [Hlo Hhi]
    end.
  - match goal with |- context [?m / 10] => change (m / 10) with (m * (1#10)) end. lra.
  - match goal with |- context [?m / 10] => change (m / 10) with (m * (1#10)) end. lra.
Qed.

Lemma series_min_le_max (l : list nat) : (series_min l <= series_max l)%nat.
Proof.
  destruct l as [|x t]; simpl; [lia|].
  induction t as [|y t IH]; simpl; lia.
Qed.

Lemma weekly_spread_nonneg (l : list nat) :
  0 <= (Qnat (series_max l) - Qnat (series_min l)) / mean (map Qnat l).
Proof.
  apply Qdiv_nonneg.
  - pose proof (Qnat_le (series_min_le_max l)). lra.
  - apply mean_bounds with (b := Qnat (series_max l)); [apply Qnat_nonneg|].
    apply Forall_map. apply Forall_forall. intros n Hn. split; [apply Qnat_nonneg|].
    apply Qnat_le. induction l as [|y t IH]; simpl in *; [tauto|].
    destruct Hn as [-> | Hn]; [lia | specialize (IH Hn); lia].
Qed.

Lemma temporal_patterns_strength (E : Env) (df : DataFrame) (ps : list CitationPattern) :
  _analyze_temporal_patterns E df = Ok ps -> Forall strength_ok ps.
Proof.
  intros H. unfold _analyze_temporal_patterns in H.
  exn_inv; repeat (apply Forall_app; split); repeat constructor;
    unfold strength_ok; cbn [strength]; apply Qmin_one_unit;
    first [ apply weekly_spread_nonneg | apply Qdiv_nonneg; apply Qnat_nonneg ].
Qed.

Lemma for_each_Forall {A B} (P : B -> Prop) (body : A -> Exn (list B)) (l : list A)
    (out : list B) :
  (forall x ps, body x = Ok ps -> Forall P ps) ->
  for_each body l = Ok out -> Forall P out.
Proof.
  intros Hbody. revert out. induction l as [|x t IH]; simpl; intros out H.
  - inversion H. constructor.
  - exn_inv. apply Forall_app. split; eauto.
Qed.

Lemma engine_preference_strength (E : Env) (df : DataFrame) (engine_ : string)
    (ps : list CitationPattern) :
  engine_preference E df engine_ = Ok ps -> Forall strength_ok ps.
Proof.
  intros H. unfold engine_preference in H.
  set (engine_data := filter (fun r => String.eqb (engine r) engine_) (rows df)) in *.
  destruct (has_col "citation_type" df); [|inversion H; constructor].
  destruct (value_counts (map citation_type engine_data)) as [|[dominant top] rest] eqn:Hvc;
    [discriminate H|].
  assert (Htop : (top <= List.length engine_data)%nat).
  { assert (Hin : In (dominant, top) (value_counts (map citation_type engine_data)))
      by (rewrite Hvc; now left).
    apply value_counts_In in Hin. destruct Hin as [_ ->].
    rewrite <- (length_map citation_type engine_data).
    apply (count_occ_b_le String.eqb). }
  exn_inv; repeat constructor; unfold strength_ok; cbn [strength]; now apply ratio_unit.
Qed.

Lemma engine_patterns_strength (E : Env) (df : DataFrame) (ps : list CitationPattern) :
  _analyze_engine_patterns E df = Ok ps -> Forall strength_ok ps.
Proof.
  intros H. unfold _analyze_engine_patterns in H.
  exn_inv; try constructor.
  eapply for_each_Forall; [|eassumption].
  intros x qs. apply engine_preference_strength.
Qed.

Lemma content_feature_patterns_strength (E : Env) (df : DataFrame)
    (ps : list CitationPattern) :
  _analyze_content_feature_patterns E df = Ok ps -> Forall strength_ok ps.
Proof.
  intros H. unfold _analyze_content_feature_patterns in H.
  destruct (negb (has_col "metadata" df)); [inversion H; constructor|].
  destruct (rows df) as [|r rs] eqn:Hrows; [inversion H; constructor|].
  destruct (filter _ (feature_counts_of df)) as [|kv rest] eqn:Hf; [inversion H; constructor|].
  rewrite <- Hf in H.
  exn_inv. apply Forall_cons; [|apply Forall_nil].
  unfold strength_ok. cbn [strength]. apply ratio_unit.
  apply Nat.le_trans with (List.length (feature_counts_of df));
    [apply filter_length_le | lia].
Qed.

Lemma for_each_caught_Forall {A B} (P : B -> Prop) (body : A -> Exn (list B)) (l : list A) :
  (forall x ps, body x = Ok ps -> Forall P ps) -> Forall P (for_each_caught body l).
Proof.
  intros Hbody. induction l as [|x t IH]; simpl; [constructor|].
  destruct (body x) as [ps|e] eqn:Hx; [|constructor].
  apply Forall_app. split; eauto.
Qed.

Lemma query_similarity_patterns_strength (E : Env) (g : NumpyState E) (df : DataFrame) :
  Forall strength_ok (_analyze_query_similarity_patterns E g df).
Proof.
  unfold _analyze_query_similarity_patterns.
  destruct (_ || _); [constructor|].
  destruct (tfidf_fit_transform E 100 _) as [X|]; [|constructor].
  destruct (2 <=? _)%nat; [|constructor].
  destruct (kmeans_fit_predict _ _ _ _ _) as [clusters|]; [|constructor].
  destruct (_ =? _)%nat; [|constructor].
  apply for_each_caught_Forall. intros cluster_id ps H.
  unfold query_cluster_pattern in H.
  exn_inv; try apply Forall_nil. apply Forall_cons; [|apply Forall_nil].
  unfold strength_ok. cbn [strength].
  apply ratio_unit. rewrite length_map.
  etransitivity; [apply filter_length_le|].
  rewrite length_combine. lia.
Qed.

(** Complete records: no sub-scan raises. *)
Lemma for_each_total {A B} (body : A -> Exn (list B)) (l : list A) :
  (forall x, In x l -> exists ps, body x = Ok ps) -> exists out, for_each body l = Ok out.
Proof.
  induction l as [|x t IH]; simpl; intros H; [now exists []|].
  destruct (H x (or_introl eq_refl)) as [ps ->].
  destruct IH as [rest ->]; [intros y Hy; apply H; now right|].
  simpl. eauto.
Qed.

Lemma analyze_citation_patterns_total (E : Env) (g : NumpyState E) (keys : list string)
    (citations : list CitationRecord) :
  complete keys -> exists ps, analyze_citation_patterns E g keys citations = Ok ps.
Proof.
  intros Hc. unfold analyze_citation_patterns.
  destruct citations as [|c cs]; [now exists []|].
  set (df := {| columns := keys; rows := c :: cs |}).
  assert (Hcol : forall k, In k all_keys -> has_col k df = true) by (intros k Hk; now apply Hc).
  assert (Hcols : forall names, incl names all_keys ->
                                Forall (fun n => has_col n df = true) names).
  { intros names Hi. apply Forall_forall. intros n Hn. apply Hcol. now apply Hi. }
  assert (He : col_unique "engine" engine df = Ok (unique String.eqb (map engine (rows df)))).
  { apply col_unique_present. apply Hcol. simpl. tauto. }
  assert (Ht : col_unique "citation_type" citation_type df
               = Ok (unique String.eqb (map citation_type (rows df)))).
  { apply col_unique_present. apply Hcol. simpl. tauto. }
  assert (H1 : exists ps, _analyze_domain_patterns E df = Ok ps).
  { unfold _analyze_domain_patterns. rewrite He, Ht.
    destruct (negb _); [eauto|]. destruct (0 <? _)%nat; cbn [bind];
      (destruct (has_col "prominence_score" df); [destruct (0 <? _)%nat|]); cbn [bind]; eauto. }
  assert (H2 : exists ps, _analyze_content_type_patterns E df = Ok ps).
  { unfold _analyze_content_type_patterns. rewrite He.
    rewrite agg_columns_present by (apply Hcols; known_keys).
    destruct (negb _); [eauto|]. cbn [bind].
    destruct (has_col "prominence_score" df); [destruct (0 <? _)%nat|]; cbn [bind]; eauto. }
  assert (H3 : exists ps, _analyze_position_patterns E df = Ok ps).
  { unfold _analyze_position_patterns. rewrite He, Ht.
    rewrite agg_columns_present by (apply Hcols; known_keys).
    rewrite groupby_columns_present by (apply Hcols; known_keys).
    destruct (negb _); [eauto|]. destruct (_ <=? _)%nat; [|eauto]. cbn [bind].
    destruct (0 <? _)%nat; cbn [bind]; eauto. }
  assert (H4 : exists ps, _analyze_temporal_patterns E df = Ok ps).
  { unfold _analyze_temporal_patterns. rewrite He, Ht.
    destruct (negb _); [eauto|].
    destruct (7 <=? _)%nat; [destruct (2 <=? _)%nat|]; cbn [bind];
      (destruct (0 <? _)%nat; [destruct (Qlt_bool 1.5 _)|]); cbn [bind]; eauto. }
  assert (H5 : exists ps, _analyze_engine_patterns E df = Ok ps).
  { unfold _analyze_engine_patterns.
    rewrite agg_columns_present by (apply Hcols; known_keys).
    destruct (negb _); [eauto|]. cbn [bind].
    destruct (has_col "prominence_score" df); [|eauto].
    apply for_each_total. intros e Hin. unfold engine_preference.
    rewrite (Hcol "citation_type") by (simpl; tauto).
    destruct (value_counts _) as [|[dominant top] rest] eqn:Hvc.
    - exfalso. apply -> (unique_In String.eqb String.eqb_eq) in Hin.
      apply in_map_iff in Hin. destruct Hin as [r [Hr Hin]].
      revert Hvc. apply value_counts_nonempty.
      assert (Hin' : In r (filter (fun r => String.eqb (engine r) e) (rows df))).
      { apply filter_In. split; [exact Hin|]. now apply String.eqb_eq. }
      destruct (filter _ (rows df)); [destruct Hin' | discriminate].
    - destruct (Qlt_bool 0.6 _); eauto. }
  assert (H6 : exists ps, _analyze_content_feature_patterns E df = Ok ps).
  { unfold _analyze_content_feature_patterns. rewrite He, Ht.
    destruct (negb _); [eauto|]. destruct (rows df); [eauto|].
    destruct (filter _ _); cbn [bind]; eauto. }
  destruct H1 as [p1 ->], H2 as [p2 ->], H3 as [p3 ->], H4 as [p4 ->],
           H5 as [p5 ->], H6 as [p6 ->].
  cbn [bind]. eauto.
Qed.

(** C4. When every citation record satisfies the input invariant
    (prominence score in [0,1], position at least 0), every pattern that
    [analyze_citation_patterns] returns has strength in [0,1]; and on
    records with all their keys it does return a list. *)
Theorem pattern_strength_in_unit_interval (E : Env) (g : NumpyState E)
    (keys : list string) (citations : list CitationRecord) :
  Forall record_invariant citations ->
  (forall ps, analyze_citation_patterns E g keys citations = Ok ps ->
              Forall (fun p => 0 <= strength p /\ strength p <= 1) ps)
  /\ (complete keys -> exists ps, analyze_citation_patterns E g keys citations = Ok ps).
Proof.
  intros Hinv. split; [|apply analyze_citation_patterns_total].
  intros ps H. unfold analyze_citation_patterns in H.
  destruct citations as [|c cs]; [inversion H; constructor|].
  set (df := {| columns := keys; rows := c :: cs |}) in *.
  change (Forall strength_ok ps).
  exn_inv. repeat (apply Forall_app; split).
  - apply (@domain_patterns_strength E df); assumption.
  - apply (@content_type_patterns_strength E df); assumption.
  - apply (@position_patterns_strength E df); assumption.
  - eapply temporal_patterns_strength; eassumption.
  - eapply engine_patterns_strength; eassumption.
  - eapply content_feature_patterns_strength; eassumption.
  - apply query_similarity_patterns_strength.
Qed.

Lemma pattern_strength_in_unit_interval_witness :
  exists ps,
    analyze_citation_patterns sample_env tt all_keys four_from_one_domain = Ok ps
    /\ ps <> []
    /\ Forall (fun p => 0 <= strength p /\ strength p <= 1) ps.
Proof.
  assert (Hinv : Forall record_invariant four_from_one_domain).
  { repeat constructor; simpl; discriminate. }
  destruct (@pattern_strength_in_unit_interval sample_env tt all_keys
              four_from_one_domain Hinv) as [Hbound _].
  eexists. split; [reflexivity|]. split; [discriminate|].
  apply Hbound. reflexivity.
Defined.

(** ** Further properties of the gap finders *)

Lemma no_citation_gap_source (E : Env) (df : DataFrame) (tracked_queries : list string)
    (gap : ContentGap) :
  In gap (_find_no_citation_gaps E df tracked_queries) ->
  has_col "query" df = true /\
  exists q,
    In q tracked_queries /\
    ((List.length (rows_of_query df q) = 0%nat
      /\ gap = mk_no_citations_gap E tracked_queries q)
     \/ ((1 <= List.length (rows_of_query df q) <= 2)%nat
         /\ gap = mk_few_citations_gap E df tracked_queries q
                    (List.length (rows_of_query df q)))).
Proof.
  unfold _find_no_citation_gaps. destruct (has_col "query" df); [|intros []].
  cbn [negb]. intros Hin. split; [reflexivity|].
  apply in_flat_map in Hin. destruct Hin as [q [Hq Hin]]. exists q. split; [exact Hq|].
  rewrite get_count_value_counts, count_query_rows in Hin.
  destruct (List.length (rows_of_query df q)) as [|[|[|n]]]; cbn in Hin.
  - left. destruct Hin as [<- | []]. now split.
  - right. destruct Hin as [<- | []]. split; [lia | reflexivity].
  - right. destruct Hin as [<- | []]. split; [lia | reflexivity].
  - destruct Hin.
Qed.

(** X1. When the citation dicts carry a query, the no/weak-citation finder
    reports exactly the tracked queries that have at most 2 citations, in
    the order they are tracked: type [no_citations] (score 0.8, difficulty
    0.2, no competing domain) when there is none, type [weak_citations]
    (score 0.7, difficulty 0.3) when there are 1 or 2; a tracked query with
    3 or more citations is not reported. *)
Theorem no_citation_finder_reports_sparse_queries (E : Env) (df : DataFrame)
    (tracked_queries : list string) :
  has_col "query" df = true ->
  let cited q := List.length (rows_of_query df q) in
  map query_text (_find_no_citation_gaps E df tracked_queries)
  = filter (fun q => (cited q <=? 2)%nat) tracked_queries
  /\ Forall
       (fun gap =>
          priority gap = high /\ potential_impact gap = high /\
          ((cited (query_text gap) = 0%nat /\ gap_type gap = no_citations
            /\ opportunity_score gap == 0.8 /\ difficulty_score gap == 0.2
            /\ competing_domains gap = [])
           \/ ((1 <= cited (query_text gap) <= 2)%nat /\ gap_type gap = weak_citations
               /\ opportunity_score gap == 0.7 /\ difficulty_score gap == 0.3)))
       (_find_no_citation_gaps E df tracked_queries).
Proof.
  intros Hcol cited. split.
  - unfold _find_no_citation_gaps. rewrite Hcol. cbn [negb].
    generalize tracked_queries at 1 2 as all_queries. intros all_queries.
    induction tracked_queries as [|q t IH]; [reflexivity|].
    cbn [flat_map filter]. rewrite map_app, IH.
    rewrite get_count_value_counts, count_query_rows. fold (cited q).
    destruct (cited q) as [|[|[|n]]]; reflexivity.
  - apply Forall_forall. intros gap Hin.
    apply no_citation_gap_source in Hin.
    destruct Hin as [_ [q [_ [[Hn ->] | [Hn ->]]]]]; cbn [priority potential_impact
      mk_no_citations_gap mk_few_citations_gap query_text gap_type opportunity_score
      difficulty_score competing_domains]; subst cited; cbn beta.
    + split; [reflexivity|]. split; [reflexivity|]. left.
      repeat split; try assumption; reflexivity.
    + split; [reflexivity|]. split; [reflexivity|]. right.
      split; [exact Hn|]. repeat split; reflexivity.
Qed.

Lemma no_citation_finder_reports_sparse_queries_witness :
  map query_text
      (_find_no_citation_gaps sample_env (frame two_faint_citations) ["bar"; "foo"; "baz"])
  = ["bar"; "foo"; "baz"].
Proof.
  exact (proj1 (@no_citation_finder_reports_sparse_queries sample_env
                  (frame two_faint_citations) ["bar"; "foo"; "baz"] eq_refl)).
Defined.

Lemma firstn_In {A} (n : nat) (l : list A) (x : A) : In x (firstn n l) -> In x l.
Proof.
  revert l. induction n as [|n IH]; intros [|y t]; simpl; try tauto.
  intros [-> | H]; [now left | right; now apply IH].
Qed.

Lemma firstn_NoDup {A} (n : nat) (l : list A) : NoDup l -> NoDup (firstn n l).
Proof.
  revert l. induction n as [|n IH]; intros [|y t] H; simpl; try constructor.
  - inversion H; subst. intros Hin. apply firstn_In in Hin. contradiction.
  - inversion H; subst. now apply IH.
Qed.

Lemma group_keys_NoDup (l : list string) : NoDup (group_keys l).
Proof.
  unfold group_keys. eapply Permutation_NoDup; [symmetry; apply sort_perm|].
  apply (unique_NoDup String.eqb String.eqb_eq).
Qed.

Lemma weak_gap_source (E : Env) (df : DataFrame) (gap : ContentGap) :
  In gap (_find_weak_citation_gaps E df) ->
  exists q,
    gap = mk_low_prominence_gap E df q (mean (map prominence_score (rows_of_query df q)))
    /\ mean (map prominence_score (rows_of_query df q)) < 0.5
    /\ (2 <= List.length (rows_of_query df q))%nat.
Proof.
  unfold _find_weak_citation_gaps.
  destruct (negb (has_col "prominence_score" df) || negb (has_col "query" df)); [intros []|].
  intros Hin. apply in_map_iff in Hin. destruct Hin as [row [<- Hin]].
  apply filter_In in Hin. destruct Hin as [Hrow Hcond].
  unfold query_prominence in Hrow. apply in_map_iff in Hrow.
  destruct Hrow as [q [<- _]]. cbn [fst snd] in *.
  apply andb_true_iff in Hcond. destruct Hcond as [Hm Hn].
  exists q. split; [reflexivity|]. split; [now apply Qlt_bool_iff|].
  rewrite length_map in Hn. now apply Nat.leb_le.
Qed.

(** X2. Every gap of the low-prominence finder is a [weak_citations] gap
    of priority medium for a query with at least 2 citations, and no query
    is reported twice; when the prominence scores lie in [0,1], its
    opportunity score lies in [0.6, 1.1] and its difficulty in
    [0.4, 0.6]. *)
Theorem low_prominence_gap_ranges (E : Env) (df : DataFrame) :
  Forall
    (fun gap =>
       gap_type gap = weak_citations /\ priority gap = medium
       /\ (2 <= List.length (rows_of_query df (query_text gap)))%nat)
    (_find_weak_citation_gaps E df)
  /\ NoDup (map query_text (_find_weak_citation_gaps E df))
  /\ (Forall (fun r => 0 <= prominence_score r /\ prominence_score r <= 1) (rows df) ->
      Forall
        (fun gap =>
           0.6 <= opportunity_score gap /\ opportunity_score gap <= 1.1
           /\ 0.4 <= difficulty_score gap /\ difficulty_score gap <= 0.6)
        (_find_weak_citation_gaps E df)).
Proof.
  split; [|split].
  - apply Forall_forall. intros gap Hin. apply weak_gap_source in Hin.
    destruct Hin as [q [-> [Hm Hn]]].
    cbn [mk_low_prominence_gap gap_type priority query_text].
    repeat split; try reflexivity; assumption.
  - unfold _find_weak_citation_gaps.
    destruct (negb (has_col "prominence_score" df) || negb (has_col "query" df));
      [constructor|].
    rewrite map_map. cbn [mk_low_prominence_gap query_text].
    change (map (fun row : string * (Q * nat) => fst row) ?l) with (map fst l).
    apply NoDup_map_fst_filter. unfold query_prominence.
    rewrite map_map. cbn [fst]. rewrite map_id. apply group_keys_NoDup.
  - intros Hunit. apply Forall_forall. intros gap Hin. apply weak_gap_source in Hin.
    destruct Hin as [q [-> [Hm Hn]]].
    cbn [mk_low_prominence_gap opportunity_score difficulty_score].
    assert (H0 : 0 <= mean (map prominence_score (rows_of_query df q))).
    { apply (@mean_bounds 1); [discriminate|].
      apply Forall_map. now apply Forall_filter_keep. }
    repeat split; lra.
Qed.

Lemma low_prominence_gap_ranges_witness :
  Forall (fun gap => 0.6 <= opportunity_score gap /\ opportunity_score gap <= 1.1
                     /\ 0.4 <= difficulty_score gap /\ difficulty_score gap <= 0.6)
         (_find_weak_citation_gaps sample_env (frame two_faint_citations))
  /\ _find_weak_citation_gaps sample_env (frame two_faint_citations) <> [].
Proof.
  split; [|discriminate].
  destruct (@low_prominence_gap_ranges sample_env (frame two_faint_citations))
    as [_ [_ Hranges]].
  apply Hranges. repeat constructor; simpl; discriminate.
Defined.

Lemma competitor_share_le_1 (competitor_domains_lower : list string)
    (query_citations : list CitationRecord) :
  competitor_share competitor_domains_lower query_citations <= 1.
Proof. unfold competitor_share. apply ratio_unit. apply filter_length_le. Qed.

Lemma competitor_gap_source (E : Env) (df : DataFrame) (competitor_domains : list string)
    (gap : ContentGap) :
  In gap (_find_competitor_dominated_gaps E df competitor_domains) ->
  exists q share,
    gap = mk_competitor_gap E df q share
    /\ share = competitor_share (map lower competitor_domains) (rows_of_query df q)
    /\ 0.6 <= share /\ (3 <= List.length (rows_of_query df q))%nat.
Proof.
  unfold _find_competitor_dominated_gaps.
  destruct competitor_domains as [|c cs]; [intros []|].
  destruct (negb (has_col "source_domain" df) || negb (has_col "query" df)); [intros []|].
  intros Hin. apply in_flat_map in Hin. destruct Hin as [q [_ Hin]].
  unfold competitor_gaps_of in Hin.
  destruct (List.length (rows_of_query df q) <? 3)%nat eqn:Hlen; [destruct Hin|].
  destruct (Qle_bool 0.6 _) eqn:Hshare; [|destruct Hin].
  destruct Hin as [<- | []]. exists q. eexists. split; [reflexivity|].
  split; [reflexivity|]. split; [now apply Qle_bool_iff|]. now apply Nat.ltb_ge.
Qed.

(** X3. Every gap of the competitor finder belongs to a query with at
    least 3 citations, has opportunity score in [0.3, 0.38], difficulty in
    [0.78, 0.9] and estimated effort high, whatever the citations and the
    competitor list. *)
Theorem competitor_gap_ranges (E : Env) (df : DataFrame) (competitor_domains : list string) :
  Forall
    (fun gap =>
       gap_type gap = competitor_dominated /\ estimated_effort gap = high
       /\ (3 <= List.length (rows_of_query df (query_text gap)))%nat
       /\ 0.3 <= opportunity_score gap /\ opportunity_score gap <= 0.38
       /\ 0.78 <= difficulty_score gap /\ difficulty_score gap <= 0.9)
    (_find_competitor_dominated_gaps E df competitor_domains).
Proof.
  apply Forall_forall. intros gap Hin. apply competitor_gap_source in Hin.
  destruct Hin as [q [share [-> [Hs [Hlo Hn]]]]].
  assert (Hhi : share <= 1) by (rewrite Hs; apply competitor_share_le_1).
  cbn [mk_competitor_gap gap_type estimated_effort query_text opportunity_score
       difficulty_score].
  repeat split; try reflexivity; try assumption; lra.
Qed.

Lemma topic_cluster_gap_source (E : Env) (g : NumpyState E) (df : DataFrame)
    (tracked_queries : list string) (gap : ContentGap) :
  In gap (_find_topic_cluster_gaps E g df tracked_queries) ->
  (10 <= List.length tracked_queries)%nat /\ has_col "query" df = true /\
  exists cluster_id cluster_queries avg q,
    gap = mk_topic_cluster_gap E cluster_id cluster_queries avg q
    /\ In q tracked_queries /\ In q cluster_queries
    /\ incl cluster_queries tracked_queries
    /\ (List.length (rows_of_query df q) < 3)%nat.
Proof.
  unfold _find_topic_cluster_gaps.
  destruct (List.length tracked_queries <? 10)%nat eqn:Hlen; [intros []|].
  destruct (tfidf_fit_transform E 100 tracked_queries) as [X|]; [|intros []].
  destruct (_ <? 2)%nat; [intros []|].
  destruct (kmeans_fit_predict _ _ _ _ _) as [clusters|]; [|intros []].
  destruct (List.length clusters <? List.length tracked_queries)%nat; [intros []|].
  intros Hin. apply in_flat_map in Hin. destruct Hin as [cid [_ Hin]].
  unfold cluster_gaps in Hin.
  set (cluster_queries := cluster_members tracked_queries clusters cid) in *.
  assert (Hincl : incl cluster_queries tracked_queries).
  { intros q Hq. unfold cluster_queries, cluster_members in Hq.
    apply in_map_iff in Hq. destruct Hq as [[q' c] [<- Hq]].
    apply filter_In in Hq. destruct Hq as [Hq _]. now apply in_combine_l in Hq. }
  destruct (List.length cluster_queries <? 2)%nat; [destruct Hin|].
  destruct (has_col "query" df) eqn:Hcol; [|destruct Hin].
  split; [now apply Nat.ltb_ge|]. split; [reflexivity|].
  destruct (map _ cluster_queries) as [|qc0 rest] eqn:Hcounts; [destruct Hin|].
  rewrite <- Hcounts in Hin. clear Hcounts.
  apply in_flat_map in Hin. destruct Hin as [[q n] [Hqc Hin]]. cbn [fst snd] in Hin.
  apply in_map_iff in Hqc. destruct Hqc as [q' [Heq Hq]]. inversion Heq; subst.
  destruct (Qlt_bool _ _ && _)%bool eqn:Hcond; [|destruct Hin].
  destruct Hin as [<- | []].
  apply andb_true_iff in Hcond. destruct Hcond as [_ Hlt].
  exists cid, cluster_queries. eexists. exists q.
  split; [reflexivity|]. split; [now apply Hincl|]. split; [exact Hq|].
  split; [exact Hincl|]. now apply Nat.ltb_lt.
Qed.

(** X4. Every gap of the topic-cluster finder is for a tracked query with
    fewer than 3 citations, with opportunity score 0.6, difficulty 0.4,
    priority medium and at most 3 related queries, all of them tracked and
    different from the query itself; the finder reports nothing unless at
    least 10 queries are tracked and the citation dicts carry a query. *)
Theorem topic_cluster_gap_shape (E : Env) (g : NumpyState E) (df : DataFrame)
    (tracked_queries : list string) :
  Forall
    (fun gap =>
       gap_type gap = topic_cluster_gap
       /\ In (query_text gap) tracked_queries
       /\ (List.length (rows_of_query df (query_text gap)) < 3)%nat
       /\ opportunity_score gap == 0.6 /\ difficulty_score gap == 0.4
       /\ priority gap = medium
       /\ (List.length (related_queries gap) <= 3)%nat
       /\ Forall (fun q => In q tracked_queries /\ q <> query_text gap)
                 (related_queries gap))
    (_find_topic_cluster_gaps E g df tracked_queries)
  /\ (_find_topic_cluster_gaps E g df tracked_queries <> [] ->
      (10 <= List.length tracked_queries)%nat /\ has_col "query" df = true).
Proof.
  split.
  - apply Forall_forall. intros gap Hin. apply topic_cluster_gap_source in Hin.
    destruct Hin as [_ [_ [cid [cq [avg [q [-> [Hq [_ [Hincl Hn]]]]]]]]]].
    cbn [mk_topic_cluster_gap gap_type query_text opportunity_score difficulty_score
         priority related_queries].
    repeat split; try reflexivity; try assumption.
    + apply firstn_le_length.
    + apply Forall_forall. intros q' Hq'. apply firstn_In in Hq'.
      apply filter_In in Hq'. destruct Hq' as [Hin Hne]. split; [now apply Hincl|].
      apply negb_true_iff in Hne. now apply String.eqb_neq.
  - destruct (_find_topic_cluster_gaps E g df tracked_queries) as [|gap rest] eqn:Hg;
      [congruence|].
    intros _. assert (Hin : In gap (_find_topic_cluster_gaps E g df tracked_queries))
      by (rewrite Hg; now left).
    apply topic_cluster_gap_source in Hin. tauto.
Qed.

Lemma question_variation_gap_source (E : Env) (df : DataFrame)
    (tracked_queries : list string) (gap : ContentGap) :
  In gap (_find_question_variation_gaps E df tracked_queries) ->
  exists topic missing_type total_citations existing_queries,
    gap = mk_question_variation_gap E topic missing_type
            (_generate_question_variation topic missing_type)
            total_citations existing_queries
    /\ (missing_type = "what_is" \/ missing_type = "how_to" \/ missing_type = "best")
    /\ (has_col "query" df = false -> total_citations = 0%nat).
Proof.
  unfold _find_question_variation_gaps. intros Hin.
  apply in_flat_map in Hin. destruct Hin as [[topic variations] [_ Hin]].
  cbn [fst snd] in Hin.
  destruct variations as [|[existing_type existing_queries] [|v vs]]; try destruct Hin.
  apply in_flat_map in Hin. destruct Hin as [missing_type [_ Hin]].
  destruct (mem missing_type ["what_is"; "how_to"; "best"]) eqn:Hm; [|destruct Hin].
  destruct (String.eqb _ ""); [destruct Hin|].
  destruct Hin as [<- | []].
  exists topic, missing_type. eexists. exists existing_queries.
  split; [reflexivity|]. split.
  - apply mem_In in Hm. simpl in Hm. intuition.
  - intros Hcol. now rewrite Hcol.
Qed.

(** X5. Every gap of the question-variation finder suggests a query built
    from one of the templates "What is <topic>?", "How to <topic>",
    "Best <topic>", with opportunity score in [0.5, 0.8], difficulty 0.3,
    priority medium and a search-volume estimate of at least 100. *)
Theorem question_variation_gap_shape (E : Env) (df : DataFrame)
    (tracked_queries : list string) :
  Forall
    (fun gap =>
       gap_type gap = question_variation
       /\ (exists topic,
             query_text gap = "What is " ++ topic ++ "?"
             \/ query_text gap = "How to " ++ topic
             \/ query_text gap = "Best " ++ topic)
       /\ 0.5 <= opportunity_score gap /\ opportunity_score gap <= 0.8
       /\ difficulty_score gap == 0.3 /\ priority gap = medium
       /\ (100 <= search_volume_estimate gap)%Z)
    (_find_question_variation_gaps E df tracked_queries).
Proof.
  apply Forall_forall. intros gap Hin. apply question_variation_gap_source in Hin.
  destruct Hin as [topic [missing [total [existing [-> [Hm _]]]]]].
  cbn [mk_question_variation_gap gap_type query_text opportunity_score difficulty_score
       priority search_volume_estimate].
  assert (H10 : 0 <= Qnat (Nat.min total 10) /\ Qnat (Nat.min total 10) <= 10).
  { split; [apply Qnat_nonneg|]. change 10 with (Qnat 10). apply Qnat_le. lia. }
  split; [reflexivity|]. split.
  { exists topic. destruct Hm as [-> | [-> | ->]]; cbn; tauto. }
  repeat split; try reflexivity; try lra. lia.
Qed.

(** Where a discovered gap comes from, by its type. *)
Lemma discovered_gap_source (E : Env) (g : NumpyState E) (df : DataFrame)
    (tracked_queries competitor_domains : list string) (g0 : ContentGap) :
  In g0 (discovered_gaps E g df tracked_queries competitor_domains) ->
  (In g0 (_find_no_citation_gaps E df tracked_queries)
   /\ (gap_type g0 = no_citations \/ gap_type g0 = weak_citations))
  \/ (In g0 (_find_weak_citation_gaps E df) /\ gap_type g0 = weak_citations)
  \/ (In g0 (_find_competitor_dominated_gaps E df competitor_domains)
      /\ gap_type g0 = competitor_dominated)
  \/ (In g0 (_find_topic_cluster_gaps E g df tracked_queries)
      /\ gap_type g0 = topic_cluster_gap)
  \/ (In g0 (_find_question_variation_gaps E df tracked_queries)
      /\ gap_type g0 = question_variation).
Proof.
  unfold discovered_gaps. rewrite !in_app_iff.
  intros [H | [H | [H | [H | H]]]].
  - left. split; [exact H|].
    exact (proj1 (Forall_forall _ _) (no_citation_finder_types E df tracked_queries) _ H).
  - right. left. split; [exact H|].
    exact (proj1 (Forall_forall _ _) (weak_finder_types E df) _ H).
  - right. right. left. split; [exact H|].
    exact (proj1 (Forall_forall _ _) (competitor_finder_types E df competitor_domains) _ H).
  - right. right. right. left. split; [exact H|].
    exact (proj1 (Forall_forall _ _) (topic_cluster_finder_types E g df tracked_queries) _ H).
  - right. right. right. right. split; [exact H|].
    exact (proj1 (Forall_forall _ _) (question_variation_finder_types E df tracked_queries) _ H).
Qed.

Lemma returned_gap_source (E : Env) (g : NumpyState E) (keys : list string)
    (citations : list CitationRecord) (tracked_queries : list string)
    (competitor_domains : option (list string)) (gap : ContentGap) :
  In gap (identify_content_gaps E g keys citations tracked_queries competitor_domains) ->
  citations <> [] /\ tracked_queries <> [] /\
  exists g0,
    gap = adjust_gap g0
    /\ In g0 (discovered_gaps E g {| columns := keys; rows := citations |} tracked_queries
                (match competitor_domains with Some l => l | None => [] end)).
Proof.
  destruct citations as [|c cs]; [intros []|].
  destruct tracked_queries as [|q qs]; [intros []|].
  rewrite identify_content_gaps_run by discriminate.
  intros Hin. apply score_pass_In in Hin. destruct Hin as [g0 [Hin ->]].
  split; [discriminate|]. split; [discriminate|]. now exists g0.
Qed.

Lemma boosted_score_upper (a b : bool) (s u : Q) :
  s <= u -> 1 <= u -> boosted_score a b s <= u.
Proof.
  intros Hs Hu. unfold boosted_score.
  assert (Hmin : forall x, Qmin 1.0 x <= u).
  { intros x. apply Qle_trans with 1.0; [apply Q.le_min_l | lra]. }
  destruct a, b; auto.
Qed.

Lemma boosted_score_step (a b : bool) (s : Q) : boosted_score a b s <= s + 0.25.
Proof.
  unfold boosted_score.
  assert (Hmin : forall x, Qmin 1.0 x <= x) by (intros x; apply Q.le_min_r).
  destruct a, b.
  - pose proof (Hmin (Qmin 1.0 (s + 0.1) + 0.15)). pose proof (Hmin (s + 0.1)). lra.
  - pose proof (Hmin (s + 0.1)). lra.
  - pose proof (Hmin (s + 0.15)). lra.
  - lra.
Qed.

Lemma boosted_score_clamped (a b : bool) (s : Q) :
  a || b = true -> boosted_score a b s <= 1.
Proof.
  unfold boosted_score.
  assert (Hmin : forall x, Qmin 1.0 x <= 1).
  { intros x. apply Qle_trans with 1.0; [apply Q.le_min_l | lra]. }
  destruct a, b; try discriminate; intros _; apply Hmin.
Qed.

Lemma competitor_gap_bounds (E : Env) (df : DataFrame) (competitor_domains : list string)
    (g0 : ContentGap) :
  In g0 (_find_competitor_dominated_gaps E df competitor_domains) ->
  (0.3 <= opportunity_score g0 /\ opportunity_score g0 <= 0.38)
  /\ (0.78 <= difficulty_score g0 /\ difficulty_score g0 <= 0.9).
Proof.
  intros Hin. apply competitor_gap_source in Hin.
  destruct Hin as [q [share [-> [Hs [Hlo _]]]]].
  assert (Hhi : share <= 1) by (rewrite Hs; apply competitor_share_le_1).
  cbn [mk_competitor_gap opportunity_score difficulty_score]. repeat split; lra.
Qed.

(** X6. A competitor-dominated gap never ends up with priority high: its
    score starts at 0.38 at most and the two boosts add 0.25 at most, so
    its final score stays at or below 0.63. *)
Theorem competitor_gap_never_high (E : Env) (g : NumpyState E) (keys : list string)
    (citations : list CitationRecord) (tracked_queries : list string)
    (competitor_domains : option (list string)) :
  Forall
    (fun gap =>
       gap_type gap = competitor_dominated ->
       opportunity_score gap <= 0.63 /\ priority gap <> high)
    (identify_content_gaps E g keys citations tracked_queries competitor_domains).
Proof.
  apply Forall_forall. intros gap Hin Htype.
  pose proof (returned_priority_in_band _ _ _ _ _ _ _ Hin) as Hband.
  apply returned_gap_source in Hin. destruct Hin as [_ [_ [g0 [-> Hin]]]].
  apply discovered_gap_source in Hin.
  change (gap_type (adjust_gap g0)) with (gap_type g0) in Htype.
  assert (Hcomp : In g0 (_find_competitor_dominated_gaps E
                    {| columns := keys; rows := citations |}
                    (match competitor_domains with Some l => l | None => [] end))).
  { destruct Hin as [[_ [H | H]] | [[_ H] | [[H _] | [[_ H] | [_ H]]]]];
      try congruence; exact H. }
  pose proof (competitor_gap_bounds _ _ _ _ Hcomp) as [[_ Hhi] _].
  assert (Hfinal : opportunity_score (adjust_gap g0) <= 0.63).
  { rewrite adjust_gap_score.
    eapply Qle_trans; [apply boosted_score_step | lra]. }
  split; [exact Hfinal|].
  destruct Hband as [_ [Hmed Hlow]]. intros Hp.
  destruct (Qlt_le_dec (opportunity_score (adjust_gap g0)) 0.5) as [Hlt | Hge].
  - rewrite (Hlow Hlt) in Hp. discriminate.
  - rewrite Hmed in Hp; [discriminate | exact Hge | lra].
Qed.

(** ** Properties of the returned gaps *)

Lemma weak_finder_needs_query (E : Env) (df : DataFrame) :
  has_col "query" df = false -> _find_weak_citation_gaps E df = [].
Proof.
  intros H. unfold _find_weak_citation_gaps. rewrite H. cbn [negb].
  now rewrite orb_true_r.
Qed.

Lemma competitor_finder_needs_query (E : Env) (df : DataFrame)
    (competitor_domains : list string) :
  has_col "query" df = false -> _find_competitor_dominated_gaps E df competitor_domains = [].
Proof.
  intros H. unfold _find_competitor_dominated_gaps. rewrite H. cbn [negb].
  rewrite orb_true_r. now destruct competitor_domains.
Qed.

(** The score of a gap as discovered, before the scoring pass. *)
Lemma discovered_gap_floor (E : Env) (g : NumpyState E) (df : DataFrame)
    (tracked_queries competitor_domains : list string) (g0 : ContentGap) :
  In g0 (discovered_gaps E g df tracked_queries competitor_domains) ->
  0.3 <= opportunity_score g0
  /\ (gap_type g0 <> competitor_dominated -> 0.5 <= opportunity_score g0)
  /\ (gap_type g0 <> weak_citations -> opportunity_score g0 <= 0.8).
Proof.
  intros Hin. apply discovered_gap_source in Hin.
  destruct Hin as [[Hin _] | [[Hin _] | [[Hin Ht] | [[Hin _] | [Hin _]]]]].
  - apply no_citation_gap_source in Hin.
    destruct Hin as [_ [q [_ [[_ ->] | [_ ->]]]]];
      cbn [mk_no_citations_gap mk_few_citations_gap opportunity_score gap_type];
      repeat split; intros; try lra; congruence.
  - apply weak_gap_source in Hin. destruct Hin as [q [-> [Hm Hn]]].
    cbn [mk_low_prominence_gap opportunity_score gap_type].
    repeat split; intros; try lra; congruence.
  - pose proof (competitor_gap_bounds _ _ _ _ Hin) as [[Hlo Hhi] _].
    repeat split; intros; try lra; congruence.
  - apply topic_cluster_gap_source in Hin.
    destruct Hin as [_ [_ [cid [cq [avg [q [-> _]]]]]]].
    cbn [mk_topic_cluster_gap opportunity_score gap_type].
    repeat split; intros; try lra; congruence.
  - apply question_variation_gap_source in Hin.
    destruct Hin as [topic [missing [total [existing [-> _]]]]].
    cbn [mk_question_variation_gap opportunity_score gap_type].
    assert (H10 : 0 <= Qnat (Nat.min total 10) /\ Qnat (Nat.min total 10) <= 10).
    { split; [apply Qnat_nonneg|]. change 10 with (Qnat 10). apply Qnat_le. lia. }
    repeat split; intros; try lra; congruence.
Qed.

(** On records that satisfy the input invariant. *)
Lemma discovered_gap_ceiling (E : Env) (g : NumpyState E) (df : DataFrame)
    (tracked_queries competitor_domains : list string) (g0 : ContentGap) :
  Forall record_invariant (rows df) ->
  In g0 (discovered_gaps E g df tracked_queries competitor_domains) ->
  opportunity_score g0 <= 1.1
  /\ 0.2 <= difficulty_score g0 /\ difficulty_score g0 <= 0.9.
Proof.
  intros Hinv Hin. apply discovered_gap_source in Hin.
  destruct Hin as [[Hin _] | [[Hin _] | [[Hin Ht] | [[Hin _] | [Hin _]]]]].
  - apply no_citation_gap_source in Hin.
    destruct Hin as [_ [q [_ [[_ ->] | [_ ->]]]]];
      cbn [mk_no_citations_gap mk_few_citations_gap opportunity_score difficulty_score];
      repeat split; lra.
  - apply weak_gap_source in Hin. destruct Hin as [q [-> [Hm Hn]]].
    cbn [mk_low_prominence_gap opportunity_score difficulty_score].
    destruct (@mean_prominence_unit (rows_of_query df q)) as [H0 _];
      [now apply Forall_filter_keep | repeat split; lra].
  - pose proof (competitor_gap_bounds _ _ _ _ Hin) as [[Hlo Hhi] [Hdlo Hdhi]].
    repeat split; lra.
  - apply topic_cluster_gap_source in Hin.
    destruct Hin as [_ [_ [cid [cq [avg [q [-> _]]]]]]].
    cbn [mk_topic_cluster_gap opportunity_score difficulty_score]. repeat split; lra.
  - apply question_variation_gap_source in Hin.
    destruct Hin as [topic [missing [total [existing [-> _]]]]].
    cbn [mk_question_variation_gap opportunity_score difficulty_score].
    assert (H10 : 0 <= Qnat (Nat.min total 10) /\ Qnat (Nat.min total 10) <= 10).
    { split; [apply Qnat_nonneg|]. change 10 with (Qnat 10). apply Qnat_le. lia. }
    repeat split; lra.
Qed.

(** X7. On citation records that satisfy the input invariant, every
    returned gap has final opportunity score in [0.3, 1.1] and difficulty
    in [0.2, 0.9]; a final score above 1 occurs only for a
    [weak_citations] gap whose query text holds none of the boost
    keywords. *)
Theorem returned_gap_ranges (E : Env) (g : NumpyState E) (keys : list string)
    (citations : list CitationRecord) (tracked_queries : list string)
    (competitor_domains : option (list string)) :
  Forall record_invariant citations ->
  Forall
    (fun gap =>
       0.3 <= opportunity_score gap /\ opportunity_score gap <= 1.1
       /\ (1 < opportunity_score gap ->
           gap_type gap = weak_citations
           /\ any_in high_value_words (lower (query_text gap)) = false
           /\ any_in commercial_words (lower (query_text gap)) = false)
       /\ 0.2 <= difficulty_score gap /\ difficulty_score gap <= 0.9)
    (identify_content_gaps E g keys citations tracked_queries competitor_domains).
Proof.
  intros Hinv. apply Forall_forall. intros gap Hin.
  apply returned_gap_source in Hin. destruct Hin as [_ [_ [g0 [-> Hin]]]].
  pose proof (discovered_gap_floor _ _ _ _ _ _ Hin) as [Hlo [_ Hother]].
  pose proof (@discovered_gap_ceiling E g {| columns := keys; rows := citations |}
                _ _ _ Hinv Hin) as [Hhi [Hdlo Hdhi]].
  change (difficulty_score (adjust_gap g0)) with (difficulty_score g0).
  change (gap_type (adjust_gap g0)) with (gap_type g0).
  change (query_text (adjust_gap g0)) with (query_text g0).
  rewrite adjust_gap_score.
  set (a := any_in high_value_words (lower (query_text g0))).
  set (b := any_in commercial_words (lower (query_text g0))).
  split; [apply boosted_score_lower; [lra | exact Hlo]|].
  split; [apply boosted_score_upper; [exact Hhi | lra]|].
  split; [|split; assumption].
  intros Habove.
  destruct (a || b) eqn:Hab.
  - exfalso. pose proof (boosted_score_clamped a b (opportunity_score g0) Hab). lra.
  - apply orb_false_iff in Hab. destruct Hab as [Ha Hb].
    rewrite Ha, Hb in Habove |- *. cbn [boosted_score] in Habove.
    split; [|split; reflexivity].
    destruct (gap_type g0) eqn:Ht; try reflexivity;
      assert (Hle : opportunity_score g0 <= 0.8) by (apply Hother; congruence); lra.
Qed.

Lemma returned_gap_ranges_witness :
  Forall (fun gap => 0.3 <= opportunity_score gap /\ opportunity_score gap <= 1.1)
         (identify_content_gaps sample_env tt all_keys two_invisible_citations ["foo"] None)
  /\ identify_content_gaps sample_env tt all_keys two_invisible_citations ["foo"] None <> [].
Proof.
  split; [|discriminate].
  assert (Hinv : Forall record_invariant two_invisible_citations).
  { repeat constructor; simpl; discriminate. }
  eapply Forall_impl;
    [|exact (@returned_gap_ranges sample_env tt all_keys two_invisible_citations
               ["foo"] None Hinv)].
  intros gap [H1 [H2 _]]. now split.
Defined.

(** X8. Every returned gap carries the priority of its final score (high
    from 0.8, medium from 0.5, low below), and only competitor-dominated
    gaps can be of priority low. *)
Theorem returned_gap_priorities (E : Env) (g : NumpyState E) (keys : list string)
    (citations : list CitationRecord) (tracked_queries : list string)
    (competitor_domains : option (list string)) :
  Forall
    (fun gap =>
       priority_in_band gap /\ (priority gap = low -> gap_type gap = competitor_dominated))
    (identify_content_gaps E g keys citations tracked_queries competitor_domains).
Proof.
  apply Forall_forall. intros gap Hin. split.
  - now apply returned_priority_in_band in Hin.
  - pose proof (returned_priority_in_band _ _ _ _ _ _ _ Hin) as [Hhigh [Hmed _]].
    apply returned_gap_source in Hin. destruct Hin as [_ [_ [g0 [-> Hin]]]].
    pose proof (discovered_gap_floor _ _ _ _ _ _ Hin) as [_ [Hfloor _]].
    change (gap_type (adjust_gap g0)) with (gap_type g0).
    intros Hlow.
    destruct (gap_type g0) eqn:Ht; try reflexivity; exfalso;
      assert (H5 : 0.5 <= opportunity_score g0) by (apply Hfloor; congruence);
      assert (Hf : 0.5 <= opportunity_score (adjust_gap g0))
        by (rewrite adjust_gap_score; apply boosted_score_lower; [lra | exact H5]);
      (destruct (Qlt_le_dec (opportunity_score (adjust_gap g0)) 0.8) as [Hlt | Hge];
       [rewrite (Hmed Hf Hlt) in Hlow | rewrite (Hhigh Hge) in Hlow]; discriminate).
Qed.

(** X9. A query with at least 3 citations, each of prominence at least
    0.5 (so that their mean is at least 0.5 however it is rounded), is
    reported neither as a [no_citations] nor as a [weak_citations] gap. *)
Theorem well_cited_query_not_reported (E : Env) (g : NumpyState E) (keys : list string)
    (citations : list CitationRecord) (tracked_queries : list string)
    (competitor_domains : option (list string)) (q : string) :
  let df := {| columns := keys; rows := citations |} in
  (3 <= List.length (rows_of_query df q))%nat ->
  Forall (fun r => 0.5 <= prominence_score r) (rows_of_query df q) ->
  Forall
    (fun gap =>
       query_text gap = q ->
       gap_type gap <> no_citations /\ gap_type gap <> weak_citations)
    (identify_content_gaps E g keys citations tracked_queries competitor_domains).
Proof.
  intros df Hn Hall.
  assert (Hm : 0.5 <= mean (map prominence_score (rows_of_query df q))).
  { apply mean_lower; [|now apply Forall_map].
    destruct (rows_of_query df q); [simpl in Hn; lia | discriminate]. }
  apply Forall_forall. intros gap Hin Hq.
  apply returned_gap_source in Hin. destruct Hin as [_ [_ [g0 [-> Hin]]]].
  change (gap_type (adjust_gap g0)) with (gap_type g0).
  change (query_text (adjust_gap g0)) with (query_text g0) in Hq.
  apply discovered_gap_source in Hin. fold df in Hin.
  destruct Hin as [[Hin _] | [[Hin _] | [[_ Ht] | [[_ Ht] | [_ Ht]]]]];
    try (rewrite Ht; split; discriminate).
  - exfalso. apply no_citation_gap_source in Hin.
    destruct Hin as [_ [q' [_ [[Hc ->] | [Hc ->]]]]]; cbn in Hq; subst q'; lia.
  - exfalso. apply weak_gap_source in Hin. destruct Hin as [q' [-> [Hlt _]]].
    cbn in Hq. subst q'. lra.
Qed.

Lemma well_cited_query_not_reported_witness :
  Forall
    (fun gap =>
       query_text gap = "best ai tool" ->
       gap_type gap <> no_citations /\ gap_type gap <> weak_citations)
    (identify_content_gaps sample_env tt all_keys five_prominent_citations
       ["best ai tool"] None).
Proof.
  apply (@well_cited_query_not_reported sample_env tt all_keys five_prominent_citations
           ["best ai tool"] None "best ai tool").
  - simpl. lia.
  - repeat constructor; simpl; discriminate.
Defined.

(** X10. When the citation dicts carry no query key, four of the five
    finders report nothing: every returned gap is a question variation
    suggested from the tracked queries alone, with the minimal search-volume
    estimate 100 and a final score in [0.5, 0.75]. *)
Theorem without_query_key_only_question_variations (E : Env) (g : NumpyState E)
    (keys : list string) (citations : list CitationRecord)
    (tracked_queries : list string) (competitor_domains : option (list string)) :
  mem "query" keys = false ->
  Forall
    (fun gap =>
       gap_type gap = question_variation
       /\ search_volume_estimate gap = 100%Z
       /\ 0.5 <= opportunity_score gap /\ opportunity_score gap <= 0.75)
    (identify_content_gaps E g keys citations tracked_queries competitor_domains).
Proof.
  intros Hkey. apply Forall_forall. intros gap Hin.
  apply returned_gap_source in Hin. destruct Hin as [_ [_ [g0 [-> Hin]]]].
  set (df := {| columns := keys; rows := citations |}) in *.
  assert (Hcol : has_col "query" df = false) by exact Hkey.
  apply discovered_gap_source in Hin.
  destruct Hin as [[Hin _] | [[Hin _] | [[Hin _] | [[Hin _] | [Hin _]]]]].
  - apply no_citation_gap_source in Hin. destruct Hin as [H _]. congruence.
  - rewrite weak_finder_needs_query in Hin by exact Hcol. destruct Hin.
  - rewrite competitor_finder_needs_query in Hin by exact Hcol. destruct Hin.
  - apply topic_cluster_gap_source in Hin. destruct Hin as [_ [H _]]. congruence.
  - apply question_variation_gap_source in Hin.
    destruct Hin as [topic [missing [total [existing [-> [_ Hzero]]]]]].
    rewrite (Hzero Hcol).
    split; [reflexivity|]. split; [reflexivity|].
    rewrite adjust_gap_score. cbn [mk_question_variation_gap opportunity_score].
    split.
    + apply boosted_score_lower; [lra|]. vm_compute. discriminate.
    + eapply Qle_trans; [apply boosted_score_step|]. vm_compute. discriminate.
Qed.

Lemma without_query_key_only_question_variations_witness :
  Forall (fun gap => gap_type gap = question_variation)
         (identify_content_gaps sample_env tt ["source_domain"] two_faint_citations
            ["foo"] None)
  /\ identify_content_gaps sample_env tt ["source_domain"] two_faint_citations
       ["foo"] None <> [].
Proof.
  split; [|discriminate].
  eapply Forall_impl;
    [|exact (@without_query_key_only_question_variations sample_env tt ["source_domain"]
               two_faint_citations ["foo"] None eq_refl)].
  intros gap [H _]. exact H.
Defined.

(** ** Properties of the text heuristics *)

Lemma lower_ascii_idempotent (c : ascii) : lower_ascii (lower_ascii c) = lower_ascii c.
Proof. destruct c as [[] [] [] [] [] [] [] []]; reflexivity. Qed.

Lemma lower_chars (s : string) :
  list_ascii_of_string (lower s) = map lower_ascii (list_ascii_of_string s).
Proof. induction s as [|c s IH]; simpl; [reflexivity | now rewrite IH]. Qed.

Lemma replace_char_removed (c : ascii) (s : string) (x : ascii) :
  In x (list_ascii_of_string (replace_char c "" s)) ->
  In x (list_ascii_of_string s) /\ x <> c.
Proof.
  induction s as [|a s IH]; simpl; [tauto|].
  destruct (Ascii.eqb a c) eqn:Hac; simpl.
  - intros H. destruct (IH H). tauto.
  - intros [<- | H].
    + split; [now left|]. now apply Ascii.eqb_neq.
    + destruct (IH H). tauto.
Qed.

Lemma rev_string_chars (acc s : string) :
  list_ascii_of_string (rev_string acc s)
  = (rev (list_ascii_of_string s) ++ list_ascii_of_string acc)%list.
Proof.
  revert acc. induction s as [|c s IH]; intros acc; simpl; [reflexivity|].
  rewrite IH. simpl. now rewrite <- app_assoc.
Qed.

(** The characters of a word of [split]: characters of the text, none of
    them blank. *)
Lemma split_aux_chars (P : ascii -> Prop) (cur s w : string) :
  Forall P (list_ascii_of_string cur) ->
  (forall c, In c (list_ascii_of_string s) -> is_space c = false -> P c) ->
  In w (split_aux cur s) -> Forall P (list_ascii_of_string w).
Proof.
  revert cur. induction s as [|c s IH]; intros cur Hcur Hs; simpl.
  - destruct cur as [|a cur]; [intros []|]. intros [<- | []].
    rewrite rev_string_chars. apply Forall_app. split; [now apply Forall_rev | constructor].
  - destruct (is_space c) eqn:Hc.
    + rewrite in_app_iff. intros [Hw | Hw].
      * destruct cur as [|a cur]; [destruct Hw|]. destruct Hw as [<- | []].
        rewrite rev_string_chars. apply Forall_app.
        split; [now apply Forall_rev | constructor].
      * apply (IH EmptyString); [constructor | | exact Hw].
        intros x Hx. apply Hs. now right.
    + apply IH.
      * simpl. constructor; [apply Hs; [now left | exact Hc] | exact Hcur].
      * intros x Hx. apply Hs. now right.
Qed.

Lemma split_chars (P : ascii -> Prop) (s w : string) :
  (forall c, In c (list_ascii_of_string s) -> is_space c = false -> P c) ->
  In w (split s) -> Forall P (list_ascii_of_string w).
Proof. intros Hs. apply split_aux_chars; [constructor | exact Hs]. Qed.

(** X11. [_extract_topics_from_query] returns at most 5 topics, without
    repetition; each is longer than 2 characters, is no stop word, and is
    made of lower-case characters that are neither blank nor a question
    mark. *)
Theorem extracted_topics_shape (q : string) :
  (List.length (_extract_topics_from_query q) <= 5)%nat
  /\ NoDup (_extract_topics_from_query q)
  /\ Forall
       (fun topic =>
          (2 < String.length topic)%nat
          /\ ~ In topic topic_stop_words
          /\ Forall (fun c => is_space c = false /\ c <> "?"%char /\ lower_ascii c = c)
                    (list_ascii_of_string topic))
       (_extract_topics_from_query q).
Proof.
  unfold _extract_topics_from_query. split; [apply firstn_le_length|].
  split; [apply firstn_NoDup, (unique_NoDup String.eqb String.eqb_eq)|].
  apply Forall_forall. intros topic Hin.
  apply firstn_In in Hin. apply -> (unique_In String.eqb String.eqb_eq) in Hin.
  apply filter_In in Hin. destruct Hin as [Hword Hkeep].
  apply andb_true_iff in Hkeep. destruct Hkeep as [Hlen Hstop].
  split; [now apply Nat.ltb_lt|]. split.
  - intros H. apply mem_In in H. rewrite H in Hstop. discriminate.
  - eapply split_chars; [|exact Hword].
    intros c Hc Hsp. split; [exact Hsp|].
    apply replace_char_removed in Hc. destruct Hc as [Hc Hq]. split; [exact Hq|].
    rewrite lower_chars in Hc. apply in_map_iff in Hc. destruct Hc as [c0 [<- _]].
    apply lower_ascii_idempotent.
Qed.

Lemma overlap_scan_shape (q : string) (query_words all_queries : list string) (room : nat) :
  (List.length (overlap_scan q query_words all_queries room) <= room)%nat
  /\ Forall
       (fun other =>
          In other all_queries /\ other <> q
          /\ (2 <= List.length (filter (fun w => mem w (split (lower other))) query_words))%nat)
       (overlap_scan q query_words all_queries room).
Proof.
  revert room. induction all_queries as [|other t IH]; intros room.
  - destruct room; simpl; split; (lia || constructor).
  - destruct room as [|room']; [simpl; split; [lia | constructor]|].
    cbn [overlap_scan].
    destruct (String.eqb other q) eqn:Hoq.
    + destruct (IH (S room')) as [Hlen Hall]. split; [exact Hlen|].
      eapply Forall_impl; [|exact Hall]. intros o [Ho H]. split; [now right | exact H].
    + destruct (2 <=? _)%nat eqn:Hov.
      * destruct (IH room') as [Hlen Hall]. split; [simpl; lia|].
        constructor.
        -- split; [now left|]. split; [now apply String.eqb_neq | now apply Nat.leb_le].
        -- eapply Forall_impl; [|exact Hall]. intros o [Ho H]. split; [now right | exact H].
      * destruct (IH (S room')) as [Hlen Hall]. split; [exact Hlen|].
        eapply Forall_impl; [|exact Hall]. intros o [Ho H]. split; [now right | exact H].
Qed.

(** X12. When the similarity search of scikit-learn raises,
    [_find_related_queries] falls back on word overlap: it returns at most
    5 queries, each taken from the given list, different from the query
    itself and sharing at least 2 distinct words with it (compared in
    lower case); with fewer than 2 queries to choose from it returns none. *)
Theorem related_queries_fallback (E : Env) (q : string) (all_queries : list string) :
  tfidf_related E q all_queries = None ->
  let related := _find_related_queries E q all_queries in
  (List.length related <= 5)%nat
  /\ Forall
       (fun other =>
          In other all_queries /\ other <> q
          /\ (2 <= List.length
                     (filter (fun w => mem w (split (lower other)))
                             (unique String.eqb (split (lower q)))))%nat)
       related
  /\ ((List.length all_queries < 2)%nat -> related = []).
Proof.
  intros Hraise related. unfold related, _find_related_queries. rewrite Hraise.
  destruct (List.length all_queries <? 2)%nat eqn:Hlen.
  - split; [simpl; lia|]. split; [constructor | reflexivity].
  - destruct (overlap_scan_shape q (unique String.eqb (split (lower q))) all_queries 5)
      as [H5 Hall].
    split; [exact H5|]. split; [exact Hall|].
    apply Nat.ltb_ge in Hlen. lia.
Qed.

Lemma related_queries_fallback_witness :
  let related :=
    _find_related_queries sample_env "best crm software"
      ["best crm software"; "crm software pricing"; "Best CRM tools"; "email marketing"] in
  related = ["crm software pricing"; "Best CRM tools"]
  /\ (List.length related <= 5)%nat
  /\ Forall (fun other => other <> "best crm software") related.
Proof.
  split; [reflexivity|].
  destruct (@related_queries_fallback sample_env "best crm software"
              ["best crm software"; "crm software pricing"; "Best CRM tools";
               "email marketing"] eq_refl) as [Hlen [Hall _]].
  split; [exact Hlen|].
  eapply Forall_impl; [|exact Hall]. intros other [_ [H _]]. exact H.
Defined.

(** ** The gap report *)

Lemma list_sum_perm (l l' : list nat) : Permutation l l' -> list_sum l = list_sum l'.
Proof.
  induction 1 as [| x l l' _ IH | x y l | l l' l'' _ IH1 _ IH2]; simpl; lia.
Qed.

Section TallyFacts.
Context {K : Type}.
Variable eqb : K -> K -> bool.
Hypothesis eqb_spec : forall x y, eqb x y = true <-> x = y.

Lemma indicator_sum (x : K) (U : list K) :
  NoDup U -> In x U ->
  list_sum (map (fun k => if eqb k x then 1%nat else 0%nat) U) = 1%nat.
Proof.
  induction 1 as [|y t Hy Hnd IH]; simpl; [tauto|].
  intros [-> | Hin].
  - assert (Hxx : eqb x x = true) by now apply eqb_spec.
    rewrite Hxx.
    assert (Hz : forall l, ~ In x l ->
                 list_sum (map (fun k => if eqb k x then 1%nat else 0%nat) l) = 0%nat).
    { induction l as [|z l IHl]; simpl; [reflexivity|]. intros Hn.
      destruct (eqb z x) eqn:Hzx; [apply eqb_spec in Hzx; tauto|]. apply IHl. tauto. }
    now rewrite (Hz t Hy).
  - destruct (eqb y x) eqn:Hyx; [apply eqb_spec in Hyx; subst; contradiction|].
    now apply IH.
Qed.

Lemma count_sum_over (l U : list K) :
  NoDup U -> incl l U ->
  list_sum (map (fun k => count_occ_b eqb k l) U) = List.length l.
Proof.
  intros Hnd. induction l as [|x t IH]; intros Hincl.
  - clear Hnd Hincl. unfold count_occ_b. simpl.
    induction U as [|u U IHU]; simpl; [reflexivity | exact IHU].
  - assert (Hstep : forall k, count_occ_b eqb k (x :: t)
                              = ((if eqb k x then 1 else 0) + count_occ_b eqb k t)%nat).
    { intros k. unfold count_occ_b. simpl. now destruct (eqb k x). }
    rewrite (map_ext _ _ Hstep).
    assert (Hadd : forall (f h : K -> nat) V,
               list_sum (map (fun k => (f k + h k)%nat) V)
               = (list_sum (map f V) + list_sum (map h V))%nat).
    { intros f h V. induction V as [|v V IHV]; simpl; [reflexivity | rewrite IHV; lia]. }
    rewrite Hadd, IH by (intros y Hy; apply Hincl; now right).
    rewrite indicator_sum; [reflexivity | exact Hnd | apply Hincl; now left].
Qed.

(** The counts of a tally add up to the number of values tallied. *)
Lemma tally_sum (l : list K) : list_sum (map snd (tally eqb l)) = List.length l.
Proof.
  unfold tally. rewrite map_map. cbn [snd].
  apply count_sum_over; [apply (unique_NoDup eqb eqb_spec)|].
  intros x Hx. now apply (unique_In eqb eqb_spec).
Qed.

Lemma tally_keys (l : list K) : map fst (tally eqb l) = unique eqb l.
Proof. unfold tally. rewrite map_map. cbn [fst]. apply map_id. Qed.
End TallyFacts.

Lemma value_counts_sum (l : list string) :
  list_sum (map snd (value_counts l)) = List.length l.
Proof.
  rewrite (list_sum_perm (Permutation_map snd (value_counts_perm l))).
  apply (tally_sum String.eqb String.eqb_eq).
Qed.

Lemma GapType_eqb_eq (a b : GapType) : GapType_eqb a b = true <-> a = b.
Proof. destruct a, b; simpl; split; congruence. Qed.

Lemma Level_eqb_eq (a b : Level) : Level_eqb a b = true <-> a = b.
Proof. destruct a, b; simpl; split; congruence. Qed.

Lemma PatternType_eqb_eq (a b : PatternType) : PatternType_eqb a b = true <-> a = b.
Proof. destruct a, b; simpl; split; congruence. Qed.

Lemma generate_gap_report_full (gaps : list ContentGap) :
  gaps <> [] ->
  generate_gap_report gaps =
  FullReport
    {| total_gaps := List.length gaps;
       gap_types := tally GapType_eqb (map gap_type gaps);
       priority_distribution := tally Level_eqb (map priority gaps);
       average_opportunity_score := round2 (mean (map opportunity_score gaps));
       high_opportunity_gaps :=
         List.length (filter (fun gap => Qle_bool 0.7 (opportunity_score gap)) gaps);
       suggested_content_types := value_counts (map suggested_content_type gaps);
       effort_distribution := tally Level_eqb (map estimated_effort gaps);
       top_opportunities := map top_opportunity_of (firstn 10 gaps);
       quick_wins :=
         firstn 5
           (map quick_win_of
              (filter (fun gap => Level_eqb (estimated_effort gap) low
                                  && Qle_bool 0.6 (opportunity_score gap)) gaps));
       summary := "Identified " ++ str_of_nat (List.length gaps)
                  ++ " content gaps with "
                  ++ str_of_nat
                       (List.length
                          (filter (fun gap => Qle_bool 0.7 (opportunity_score gap)) gaps))
                  ++ " high-opportunity targets" |}.
Proof. destruct gaps; [congruence | reflexivity]. Qed.

(** X13. The gap report of an empty list is the two-field report with
    total 0. Otherwise its total is the number of gaps; the counts by gap
    type, by priority, by estimated effort and by suggested content type
    each add up to that total, none of these four tables lists a key
    twice, and the number of high-opportunity gaps (score at least 0.7)
    does not exceed the total. *)
Theorem gap_report_tallies (gaps : list ContentGap) :
  match generate_gap_report gaps with
  | NoGapsReport total _ => gaps = [] /\ total = 0%nat
  | FullReport r =>
      gaps <> []
      /\ total_gaps r = List.length gaps
      /\ list_sum (map snd (gap_types r)) = total_gaps r
      /\ list_sum (map snd (priority_distribution r)) = total_gaps r
      /\ list_sum (map snd (effort_distribution r)) = total_gaps r
      /\ list_sum (map snd (suggested_content_types r)) = total_gaps r
      /\ NoDup (map fst (gap_types r))
      /\ NoDup (map fst (priority_distribution r))
      /\ NoDup (map fst (effort_distribution r))
      /\ NoDup (map fst (suggested_content_types r))
      /\ (high_opportunity_gaps r <= total_gaps r)%nat
  end.
Proof.
  destruct (list_eq_dec (fun a b : nat => Nat.eq_dec a b) (map (fun _ => O) gaps) [])
    as [Hnil | Hne].
  { destruct gaps; [now split | discriminate]. }
  assert (Hgaps : gaps <> []) by (intros ->; now apply Hne).
  rewrite (generate_gap_report_full Hgaps).
  cbn [total_gaps gap_types priority_distribution effort_distribution
       suggested_content_types high_opportunity_gaps].
  split; [exact Hgaps|]. split; [reflexivity|].
  rewrite (tally_sum GapType_eqb GapType_eqb_eq), !(tally_sum Level_eqb Level_eqb_eq),
    value_counts_sum, !length_map.
  repeat split; try reflexivity.
  - rewrite tally_keys. apply (unique_NoDup GapType_eqb GapType_eqb_eq).
  - rewrite tally_keys. apply (unique_NoDup Level_eqb Level_eqb_eq).
  - rewrite tally_keys. apply (unique_NoDup Level_eqb Level_eqb_eq).
  - apply value_counts_keys_NoDup.
  - apply filter_length_le.
Qed.

(** X14. In a gap report the top opportunities are the first 10 gaps of
    the list (all of them when there are fewer), in order, and the quick
    wins are at most 5 gaps of the list, each of estimated effort low and
    score at least 0.6. *)
Theorem gap_report_selections (gaps : list ContentGap) (r : GapReport) :
  generate_gap_report gaps = FullReport r ->
  top_opportunities r = map top_opportunity_of (firstn 10 gaps)
  /\ List.length (top_opportunities r) = Nat.min 10 (List.length gaps)
  /\ (List.length (quick_wins r) <= 5)%nat
  /\ Forall
       (fun win =>
          win_estimated_effort win = low /\ 0.6 <= win_opportunity_score win
          /\ exists gap, In gap gaps /\ win = quick_win_of gap)
       (quick_wins r).
Proof.
  destruct gaps as [|gap rest] eqn:Hg; [discriminate|]. rewrite <- Hg.
  assert (Hgaps : gaps <> []) by (rewrite Hg; discriminate).
  rewrite (generate_gap_report_full Hgaps).
  match goal with |- FullReport ?R = _ -> _ => set (r0 := R) end.
  intros H. assert (Hr : r = r0) by congruence. subst r. unfold r0.
  cbn [top_opportunities quick_wins].
  split; [reflexivity|]. split; [now rewrite length_map, length_firstn|].
  split; [apply firstn_le_length|].
  apply Forall_forall. intros win Hin. apply firstn_In in Hin.
  apply in_map_iff in Hin. destruct Hin as [g0 [<- Hin]].
  apply filter_In in Hin. destruct Hin as [Hin Hcond].
  apply andb_true_iff in Hcond. destruct Hcond as [Heff Hscore].
  cbn [quick_win_of win_estimated_effort win_opportunity_score].
  split; [now apply Level_eqb_eq|]. split; [now apply Qle_bool_iff|].
  now exists g0.
Qed.

Lemma gap_report_selections_witness :
  exists r,
    generate_gap_report
      (identify_content_gaps sample_env tt all_keys two_faint_citations
         ["foo"; "what is bar"] None)
    = FullReport r
    /\ List.length (top_opportunities r) = 8%nat
    /\ (List.length (quick_wins r) <= 5)%nat
    /\ Forall (fun win => win_estimated_effort win = low) (quick_wins r).
Proof.
  destruct (generate_gap_report
              (identify_content_gaps sample_env tt all_keys two_faint_citations
                 ["foo"; "what is bar"] None)) as [n t | r] eqn:Hrep;
    [vm_compute in Hrep; discriminate|].
  exists r. split; [reflexivity|].
  destruct (gap_report_selections _ Hrep) as [_ [Hlen [H5 Hall]]].
  split; [rewrite Hlen; reflexivity|]. split; [exact H5|].
  eapply Forall_impl; [|exact Hall]. intros win [H _]. exact H.
Defined.

Lemma score_pass_sorted (gaps : list ContentGap) :
  StronglySorted (fun a b => opportunity_score b <= opportunity_score a)
                 (_score_and_prioritize_gaps gaps).
Proof.
  unfold _score_and_prioritize_gaps. destruct gaps as [|x t]; [constructor|].
  apply StronglySorted_weaken with (R := leP score_ge).
  - intros a b H. now apply Qle_bool_iff.
  - apply sort_sorted; [apply score_ge_total | apply score_ge_trans].
Qed.

Lemma identify_content_gaps_sorted (E : Env) (g : NumpyState E) (keys : list string)
    (citations : list CitationRecord) (tracked_queries : list string)
    (competitor_domains : option (list string)) :
  StronglySorted (fun a b => opportunity_score b <= opportunity_score a)
    (identify_content_gaps E g keys citations tracked_queries competitor_domains).
Proof.
  unfold identify_content_gaps.
  destruct citations; [constructor|]. destruct tracked_queries; [constructor|].
  apply score_pass_sorted.
Qed.

Lemma StronglySorted_split {A} (R : A -> A -> Prop) (l1 l2 : list A) :
  StronglySorted R (l1 ++ l2) ->
  StronglySorted R l1 /\ Forall (fun x => Forall (R x) l2) l1.
Proof.
  induction l1 as [|x t IH]; simpl; intros H; [split; constructor|].
  inversion H as [|? ? Ht Hx]; subst. destruct (IH Ht) as [Hs Hc].
  apply Forall_app in Hx. destruct Hx as [Hx1 Hx2].
  split; constructor; assumption.
Qed.

Lemma StronglySorted_map {A B} (f : A -> B) (R : B -> B -> Prop) (l : list A) :
  StronglySorted (fun a b => R (f a) (f b)) l -> StronglySorted R (map f l).
Proof.
  induction 1 as [|x t _ IH Hx]; simpl; constructor; [exact IH|].
  now apply Forall_map.
Qed.

Lemma report_top_opportunities (gaps : list ContentGap) (r : GapReport) :
  generate_gap_report gaps = FullReport r ->
  top_opportunities r = map top_opportunity_of (firstn 10 gaps).
Proof.
  destruct gaps as [|gap rest] eqn:Hg; [discriminate|]. rewrite <- Hg.
  assert (Hgaps : gaps <> []) by (rewrite Hg; discriminate).
  rewrite (generate_gap_report_full Hgaps).
  match goal with |- FullReport ?R = _ -> _ => set (r0 := R) end.
  intros H. assert (Hr : r = r0) by congruence. now subst r.
Qed.

(** X15. In the report of what [identify_content_gaps] returns, the top
    opportunities stand in descending order of score and no gap left out
    of them scores higher than one of them. *)
Theorem report_top_opportunities_rank_highest (E : Env) (g : NumpyState E)
    (keys : list string) (citations : list CitationRecord)
    (tracked_queries : list string) (competitor_domains : option (list string))
    (r : GapReport) :
  let out :=
    identify_content_gaps E g keys citations tracked_queries competitor_domains in
  generate_gap_report out = FullReport r ->
  StronglySorted (fun a b => top_opportunity_score b <= top_opportunity_score a)
                 (top_opportunities r)
  /\ Forall
       (fun top =>
          Forall (fun gap => opportunity_score gap <= top_opportunity_score top)
                 (skipn 10 out))
       (top_opportunities r).
Proof.
  intros out Hrep.
  rewrite (report_top_opportunities _ Hrep).
  pose proof (identify_content_gaps_sorted E g keys citations tracked_queries
                competitor_domains) as Hsorted.
  fold out in Hsorted. rewrite <- (firstn_skipn 10 out) in Hsorted.
  apply StronglySorted_split in Hsorted. destruct Hsorted as [Hs Hcross].
  split.
  - apply StronglySorted_map. exact Hs.
  - apply Forall_map. exact Hcross.
Qed.

Lemma report_top_opportunities_rank_highest_witness :
  exists r,
    generate_gap_report
      (identify_content_gaps sample_env tt all_keys two_faint_citations
         ["foo"; "what is bar"] None)
    = FullReport r
    /\ StronglySorted (fun a b => top_opportunity_score b <= top_opportunity_score a)
                      (top_opportunities r).
Proof.
  destruct (generate_gap_report
              (identify_content_gaps sample_env tt all_keys two_faint_citations
                 ["foo"; "what is bar"] None)) as [n t | r] eqn:Hrep;
    [vm_compute in Hrep; discriminate|].
  exists r. split; [reflexivity|].
  exact (proj1 (@report_top_opportunities_rank_highest sample_env tt all_keys
                  two_faint_citations ["foo"; "what is bar"] None r Hrep)).
Defined.

(** ** Competitor patterns *)

Lemma existsb_filter {A} (f : A -> bool) (l : list A) :
  existsb f l = match filter f l with [] => false | _ => true end.
Proof.
  induction l as [|x t IH]; [reflexivity|]. cbn [existsb filter].
  destruct (f x); [reflexivity | exact IH].
Qed.

Lemma competitor_pattern_names (df : DataFrame) (l : list string) :
  map competitor_domain (flat_map (competitor_pattern_of df) l)
  = if has_col "source_domain" df
    then filter (fun d => existsb (fun r => String.eqb (source_domain r) (lower d)) (rows df))
                l
    else [].
Proof.
  induction l as [|d t IH]; [now destruct (has_col "source_domain" df)|].
  cbn [flat_map]. rewrite map_app, IH. unfold competitor_pattern_of.
  destruct (has_col "source_domain" df); [|reflexivity].
  cbn [negb filter]. rewrite existsb_filter.
  destruct (filter (fun r => String.eqb (source_domain r) (lower d)) (rows df));
    reflexivity.
Qed.

(** X16. [analyze_competitor_patterns] returns one pattern for each
    competitor domain that has a citation, in the order of the competitor
    list and under the name as given; the domain is compared in lower
    case with the source domains. Domains without a citation are skipped,
    and without a [source_domain] key nothing is returned. *)
Theorem competitor_patterns_cover_cited_domains (keys : list string)
    (citations : list CitationRecord) (competitor_domains : list string) :
  map competitor_domain (analyze_competitor_patterns keys citations competitor_domains)
  = if mem "source_domain" keys
    then filter (fun d => existsb (fun r => String.eqb (source_domain r) (lower d)) citations)
                competitor_domains
    else [].
Proof.
  unfold analyze_competitor_patterns.
  destruct citations as [|c cs] eqn:Hc.
  - destruct (mem "source_domain" keys); [|reflexivity].
    symmetry. apply filter_none. apply Forall_forall. reflexivity.
  - rewrite <- Hc.
    destruct competitor_domains as [|d ds] eqn:Hd;
      [now destruct (mem "source_domain" keys)|].
    rewrite <- Hd.
    apply (competitor_pattern_names {| columns := keys; rows := citations |}).
Qed.

Lemma Qnat_plus (n m : nat) : Qnat (n + m) == Qnat n + Qnat m.
Proof. unfold Qnat. rewrite Nat2Z.inj_add, inject_Z_plus. reflexivity. Qed.

Lemma Qsum_shares (T : Q) (l : list (string * nat)) :
  Qsum (map snd (map (fun ec => (fst ec, Qnat (snd ec) / T)) l))
  == Qnat (list_sum (map snd l)) / T.
Proof.
  induction l as [|[e n] t IH]; simpl.
  - unfold Qdiv. rewrite Qmult_0_l. reflexivity.
  - rewrite IH, Qnat_plus. unfold Qdiv. ring.
Qed.

(** X17. In every competitor pattern the engine shares are positive, at
    most 1, listed once per engine, and, when the citation dicts carry an
    engine, they add up to 1. *)
Theorem engines_dominance_is_a_distribution (keys : list string)
    (citations : list CitationRecord) (competitor_domains : list string) :
  Forall
    (fun p =>
       Forall (fun share => 0 < snd share /\ snd share <= 1) (engines_dominance p)
       /\ NoDup (map fst (engines_dominance p))
       /\ (mem "engine" keys = true -> Qsum (map snd (engines_dominance p)) == 1))
    (analyze_competitor_patterns keys citations competitor_domains).
Proof.
  apply Forall_forall. intros p Hin. unfold analyze_competitor_patterns in Hin.
  destruct citations as [|c cs] eqn:Hc; [destruct Hin|]. rewrite <- Hc in *. clear Hc.
  destruct competitor_domains as [|d0 ds] eqn:Hd; [destruct Hin|].
  rewrite <- Hd in *. clear Hd d0 ds.
  apply in_flat_map in Hin. destruct Hin as [d [_ Hin]].
  unfold competitor_pattern_of in Hin.
  destruct (negb _); [destruct Hin|].
  cbn [rows] in Hin.
  set (domain_citations :=
         filter (fun r => String.eqb (source_domain r) (lower d)) citations) in *.
  destruct domain_citations as [|r rs] eqn:Hdc; [destruct Hin|].
  rewrite <- Hdc in Hin.
  assert (Hpos : (0 < List.length domain_citations)%nat) by (rewrite Hdc; simpl; lia).
  clear Hdc. destruct Hin as [<- | []]. cbn [engines_dominance].
  unfold has_col. cbn [columns].
  destruct (mem "engine" keys); [|repeat split; try constructor; discriminate].
  split; [|split].
  - apply Forall_map. apply Forall_forall. intros [e n] Hen. cbn [fst snd].
    apply value_counts_In in Hen. destruct Hen as [He ->].
    split.
    + apply Qlt_shift_div_l; [now apply Qnat_pos|]. rewrite Qmult_0_l.
      apply Qnat_pos. now apply (count_occ_b_pos String.eqb String.eqb_eq).
    + apply ratio_unit. rewrite <- (length_map engine domain_citations).
      apply (count_occ_b_le String.eqb).
  - rewrite map_map. cbn [fst]. apply value_counts_keys_NoDup.
  - intros _. rewrite Qsum_shares, value_counts_sum, length_map.
    apply Qmult_inv_r. intros H0. pose proof (Qnat_pos Hpos) as Hlt.
    rewrite H0 in Hlt. discriminate.
Qed.

Lemma inject_Z_max_1 (d : Z) : 1 <= inject_Z (Z.max 1 d).
Proof. unfold Qle. simpl. lia. Qed.

(** X18. Every competitor pattern lists at most 3 preferred content types
    and at most 5 strong topics, each topic longer than 3 characters and no
    question word; its citation frequency is positive and never above the
    number of citations of its domain. *)
Theorem competitor_pattern_shape (keys : list string)
    (citations : list CitationRecord) (competitor_domains : list string) :
  Forall
    (fun p =>
       (List.length (preferred_content_types p) <= 3)%nat
       /\ (List.length (strong_topics p) <= 5)%nat
       /\ Forall (fun topic => (3 < String.length topic)%nat /\ ~ In topic question_words)
                 (strong_topics p)
       /\ 0 < citation_frequency p
       /\ citation_frequency p
          <= Qnat (List.length
                     (filter (fun r => String.eqb (source_domain r)
                                                  (lower (competitor_domain p)))
                             citations)))
    (analyze_competitor_patterns keys citations competitor_domains).
Proof.
  apply Forall_forall. intros p Hin. unfold analyze_competitor_patterns in Hin.
  destruct citations as [|c cs] eqn:Hc; [destruct Hin|]. rewrite <- Hc in *. clear Hc.
  destruct competitor_domains as [|d0 ds] eqn:Hd; [destruct Hin|].
  rewrite <- Hd in *. clear Hd d0 ds.
  apply in_flat_map in Hin. destruct Hin as [d [_ Hin]].
  unfold competitor_pattern_of in Hin.
  destruct (negb _); [destruct Hin|].
  cbn [rows] in Hin.
  set (domain_citations :=
         filter (fun r => String.eqb (source_domain r) (lower d)) citations) in *.
  destruct domain_citations as [|r rs] eqn:Hdc; [destruct Hin|].
  rewrite <- Hdc in Hin.
  assert (Hpos : (0 < List.length domain_citations)%nat) by (rewrite Hdc; simpl; lia).
  clear Hdc. destruct Hin as [<- | []].
  cbn [preferred_content_types strong_topics citation_frequency competitor_domain].
  fold domain_citations.
  split; [|split; [|split; [|split]]].
  - destruct (has_col "citation_type" _); [|simpl; lia].
    rewrite length_map. apply firstn_le_length.
  - destruct (has_col "query" _); [|simpl; lia]. apply firstn_le_length.
  - destruct (has_col "query" _); [|constructor].
    apply Forall_forall. intros topic Ht. unfold strong_topics_of in Ht.
    apply firstn_In in Ht. apply filter_In in Ht. destruct Ht as [_ Hcond].
    apply andb_true_iff in Hcond. destruct Hcond as [Hlen Hq].
    split; [now apply Nat.ltb_lt|].
    intros H. apply mem_In in H. rewrite H in Hq. discriminate.
  - destruct (has_col "created_at" _); [|now apply Qnat_pos].
    apply Qlt_shift_div_l.
    + apply Qlt_le_trans with 1; [reflexivity | apply inject_Z_max_1].
    + rewrite Qmult_0_l. now apply Qnat_pos.
  - destruct (has_col "created_at" _); [|apply Qle_refl].
    match goal with |- _ / inject_Z (Z.max 1 ?x) <= _ =>
      pose proof (inject_Z_max_1 x) as Hm; set (m := inject_Z (Z.max 1 x)) in * end.
    pose proof (Qnat_nonneg (List.length domain_citations)) as Hn.
    apply Qle_shift_div_r; [lra|]. nra.
Qed.

(** ** Insights *)

Lemma threat_matches_recommendation (p : CitationPattern) :
  List.length (threat_of p)
  = List.length (filter (fun e => Level_eqb (entry_priority e) high) (recommendation_of p)).
Proof.
  unfold threat_of, recommendation_of.
  destruct (PatternType_eqb (pattern_type p) domain_frequency); [|reflexivity].
  cbn [andb].
  destruct (Qle_bool 0.8 (strength p)) eqn:H8.
  - assert (H7 : Qle_bool 0.7 (strength p) = true).
    { apply Qle_bool_iff. apply Qle_bool_iff in H8. lra. }
    rewrite H7. reflexivity.
  - destruct (Qle_bool 0.7 (strength p)); reflexivity.
Qed.

(** X19. In the insights of any list of patterns: the counts by pattern
    type add up to the total; there are exactly as many competitor
    dominance threats as high-priority partnership recommendations (both
    stand for a domain-frequency pattern of strength at least 0.8), every
    threat is of priority high, and no recommendation or opportunity is of
    priority low. *)
Theorem insights_are_consistent (example_types : CitationPattern -> list string)
    (patterns : list CitationPattern) :
  let insights := generate_pattern_insights example_types patterns in
  list_sum (map snd (pattern_types insights)) = total_patterns insights
  /\ List.length (threats insights)
     = List.length (filter (fun e => Level_eqb (entry_priority e) high)
                           (recommendations insights))
  /\ List.length (threats insights)
     = List.length (filter (fun p => is_pattern_type domain_frequency p
                                     && Qle_bool 0.8 (strength p)) patterns)
  /\ Forall (fun e => entry_type e = "competitor_dominance" /\ entry_priority e = high)
            (threats insights)
  /\ Forall (fun e => entry_type e = "content_partnership" /\ entry_priority e <> low)
            (recommendations insights)
  /\ Forall (fun e => entry_priority e <> low) (opportunities insights).
Proof.
  cbv zeta. unfold generate_pattern_insights.
  cbn [total_patterns pattern_types threats recommendations opportunities].
  split.
  { rewrite (tally_sum PatternType_eqb PatternType_eqb_eq). apply length_map. }
  split.
  { induction patterns as [|p t IH]; [reflexivity|]. cbn [flat_map].
    rewrite filter_app, !length_app, IH. f_equal. apply threat_matches_recommendation. }
  split.
  { induction patterns as [|p t IH]; [reflexivity|]. cbn [flat_map filter].
    rewrite length_app, IH. unfold threat_of, is_pattern_type.
    destruct (PatternType_eqb (pattern_type p) domain_frequency && Qle_bool 0.8 (strength p));
      reflexivity. }
  split; [|split].
  - apply Forall_forall. intros e He. apply in_flat_map in He.
    destruct He as [p [_ He]]. unfold threat_of in He.
    destruct (_ && _); [|destruct He]. destruct He as [<- | []]. now split.
  - apply Forall_forall. intros e He. apply in_flat_map in He.
    destruct He as [p [_ He]]. unfold recommendation_of in He.
    destruct (_ && _); [|destruct He]. destruct He as [<- | []].
    split; [reflexivity|]. cbn. now destruct (Qle_bool 0.8 (strength p)).
  - apply Forall_forall. intros e He. apply in_flat_map in He.
    destruct He as [p [_ He]]. unfold opportunity_of in He.
    destruct (PatternType_eqb (pattern_type p) domain_frequency && _); [destruct He|].
    destruct (PatternType_eqb (pattern_type p) content_type_performance && _);
      [destruct He as [<- | []]; discriminate|].
    destruct (PatternType_eqb (pattern_type p) engine_content_preference);
      [destruct He as [<- | []]; discriminate|].
    destruct (PatternType_eqb (pattern_type p) temporal_spikes && _);
      [destruct He as [<- | []]; discriminate | destruct He].
Qed.

(** ** Floors of strength and frequency *)

Lemma list_sum_floor (k : nat) (l : list nat) :
  l <> [] -> Forall (fun n => (k <= n)%nat) l -> (k <= list_sum l)%nat.
Proof.
  intros Hne Hl. destruct Hl as [|x t Hx _]; [congruence|]. simpl. lia.
Qed.

Lemma positive_length {A} (l : list A) : (0 <? List.length l)%nat = true -> l <> [].
Proof. destruct l; [discriminate | discriminate]. Qed.

Lemma frequency_strength_floor (n : nat) :
  (0 <? n)%nat = true -> 0.1 <= Qmin 1.0 (Qnat n / 10) /\ (1 <= n)%nat.
Proof.
  intros H. apply Nat.ltb_lt in H. split; [|lia].
  apply Q.min_glb; [discriminate|].
  apply Qle_shift_div_l; [reflexivity|].
  assert (H1 : Qnat 1 <= Qnat n) by (apply Qnat_le; lia).
  change (Qnat 1) with 1 in H1. lra.
Qed.

Lemma domain_patterns_floor (E : Env) (df : DataFrame) (ps : list CitationPattern) :
  _analyze_domain_patterns E df = Ok ps ->
  Forall above_floor ps
  /\ NoDup (map pattern_type ps)
  /\ Forall (fun p => In (pattern_type p) [domain_frequency; domain_prominence]) ps.
Proof.
  intros H. unfold _analyze_domain_patterns in H. cbv zeta in H.
  set (high_prominence := filter _ (domain_prominence_table df)) in *.
  assert (Hprom : (0 <? List.length high_prominence)%nat = true ->
            0.7 <= mean (map (fun row : string * (Q * nat) => fst (snd row)) high_prominence)
            /\ (1 <= List.length high_prominence)%nat).
  { intros Hlen. split; [|apply Nat.ltb_lt in Hlen; lia].
    apply mean_lower.
    - apply positive_length in Hlen. destruct high_prominence; [congruence | discriminate].
    - apply Forall_map. apply Forall_forall. intros row Hrow.
      apply filter_In in Hrow. destruct Hrow as [_ Hrow].
      apply andb_true_iff in Hrow. destruct Hrow as [Hrow _].
      now apply Qle_bool_iff in Hrow. }
  exn_inv; (split; [|split]);
    try (repeat (apply Forall_app; split); repeat constructor; cbn;
         first [ now apply frequency_strength_floor | now apply Hprom | tauto ]);
    cbn; repeat constructor; cbn; intuition discriminate.
Qed.

Lemma content_type_patterns_floor (E : Env) (df : DataFrame) (ps : list CitationPattern) :
  _analyze_content_type_patterns E df = Ok ps ->
  Forall above_floor ps
  /\ NoDup (map pattern_type ps)
  /\ Forall (fun p => In (pattern_type p) [content_type_performance]) ps.
Proof.
  intros H. unfold _analyze_content_type_patterns in H. cbv zeta in H.
  set (high_performing := filter _ (type_stats df)) in *.
  assert (Hhigh : (0 <? List.length high_performing)%nat = true ->
            0.6 <= mean (map (fun row : string * (Q * nat) => fst (snd row)) high_performing)
            /\ (3 <= list_sum (map (fun row : string * (Q * nat) => snd (snd row))
                                   high_performing))%nat).
  { intros Hlen. apply positive_length in Hlen.
    assert (Hne : forall B (f : string * (Q * nat) -> B), map f high_performing <> [])
      by (intros B f; destruct high_performing; [congruence | discriminate]).
    assert (Hrows : forall row, In row high_performing ->
                      0.6 <= fst (snd row) /\ (3 <= snd (snd row))%nat).
    { intros row Hrow. apply filter_In in Hrow. destruct Hrow as [_ Hrow].
      apply andb_true_iff in Hrow. destruct Hrow as [Hm Hc].
      apply Qle_bool_iff in Hm. apply Nat.leb_le in Hc. now split. }
    split.
    - apply mean_lower; [apply Hne|]. apply Forall_map, Forall_forall.
      intros row Hrow. now apply Hrows.
    - apply list_sum_floor; [apply Hne|]. apply Forall_map, Forall_forall.
      intros row Hrow. now apply Hrows. }
  exn_inv; (split; [|split]);
    try (repeat constructor; cbn; first [ now apply Hhigh | tauto ]);
    cbn; repeat constructor; cbn; intuition discriminate.
Qed.

Lemma position_patterns_floor (E : Env) (df : DataFrame) (ps : list CitationPattern) :
  _analyze_position_patterns E df = Ok ps ->
  Forall above_floor ps
  /\ NoDup (map pattern_type ps)
  /\ Forall (fun p => In (pattern_type p) [position_consistency]) ps.
Proof.
  intros H. unfold _analyze_position_patterns in H. cbv zeta in H.
  set (top_positions := filter (fun r => (position r <=? 3)%Z) (rows df)) in *.
  set (consistent_top := filter _ (position_stats top_positions)) in *.
  assert (Htop : Forall (fun r => inject_Z (position r) <= 3) top_positions).
  { apply Forall_forall. intros r Hr. apply filter_In in Hr. destruct Hr as [_ Hle].
    apply Z.leb_le in Hle. unfold Qle. simpl. lia. }
  assert (Hcons : (0 <? List.length consistent_top)%nat = true ->
            0.7 <= 1.0 - mean (map (fun row : (string * string) * (Q * nat) => fst (snd row))
                                   consistent_top) / 10
            /\ (2 <= list_sum (map (fun row : (string * string) * (Q * nat) => snd (snd row))
                                   consistent_top))%nat).
  { intros Hlen. apply positive_length in Hlen. split.
    - assert (Hm : mean (map (fun row : (string * string) * (Q * nat) => fst (snd row))
                             consistent_top) <= 3).
      { apply mean_upper; [discriminate|].
        apply Forall_map, Forall_filter_keep. unfold position_stats.
        apply Forall_map, Forall_forall. intros k _. cbn [fst snd].
        apply mean_upper; [discriminate|]. apply Forall_map. now apply Forall_filter_keep. }
      match goal with |- context [?m / 10] => change (m / 10) with (m * (1#10)) end. lra.
    - apply list_sum_floor.
      + destruct consistent_top; [congruence | discriminate].
      + apply Forall_map, Forall_forall. intros row Hrow.
        apply filter_In in Hrow. destruct Hrow as [_ Hrow]. now apply Nat.leb_le in Hrow. }
  exn_inv; (split; [|split]);
    try (repeat constructor; cbn; first [ now apply Hcons | tauto ]);
    cbn; repeat constructor; cbn; intuition discriminate.
Qed.

Lemma series_bounds (l : list nat) (n : nat) :
  In n l -> (series_min l <= n <= series_max l)%nat.
Proof.
  intros Hn. split.
  - destruct l as [|x t]; [destruct Hn|]. cbn [series_min].
    revert x Hn. induction t as [|y t IH]; intros x Hn.
    + destruct Hn as [-> | []]. simpl. lia.
    + cbn [fold_right]. destruct Hn as [-> | [-> | Hn]].
      * specialize (IH n (or_introl eq_refl)). lia.
      * assert (H := IH n (or_introl eq_refl)).
        assert (fold_right Nat.min x t <= x)%nat.
        { clear. revert x. induction t as [|z t IH]; intros x; simpl; [lia|].
          specialize (IH x). lia. }
        lia.
      * specialize (IH x (or_intror Hn)). lia.
  - induction l as [|y t IH]; simpl in *; [tauto|].
    destruct Hn as [-> | Hn]; [lia | specialize (IH Hn); lia].
Qed.

Lemma weekly_spread_floor (l : list nat) :
  l <> [] ->
  Qlt_bool 1.5 (Qnat (series_max l) / Qnat (series_min l)) = true ->
  1 # 3 <= Qmin 1.0 ((Qnat (series_max l) - Qnat (series_min l)) / mean (map Qnat l)).
Proof.
  intros Hne Hg. apply Qlt_bool_iff in Hg.
  assert (Hm : Qnat (series_min l) <= mean (map Qnat l)
               /\ mean (map Qnat l) <= Qnat (series_max l)).
  { split.
    - apply mean_lower; [destruct l; [congruence | discriminate]|].
      apply Forall_map, Forall_forall. intros n Hn. apply Qnat_le. now apply series_bounds.
    - apply mean_upper; [apply Qnat_nonneg|].
      apply Forall_map, Forall_forall. intros n Hn. apply Qnat_le. now apply series_bounds. }
  set (hi := Qnat (series_max l)) in *. set (lo := Qnat (series_min l)) in *.
  set (m := mean (map Qnat l)) in *.
  assert (Hlo0 : 0 <= lo) by apply Qnat_nonneg.
  assert (Hlo : 0 < lo).
  { destruct (Qlt_le_dec 0 lo) as [Hpos | Hle]; [exact Hpos|]. exfalso.
    assert (Hz : lo == 0) by lra.
    assert (Hd : hi / lo == 0).
    { rewrite Hz. unfold Qdiv, Qinv. simpl. apply Qmult_0_r. }
    rewrite Hd in Hg. lra. }
  assert (Hhl : 1.5 * lo < hi).
  { assert (Heq : hi == hi / lo * lo) by (field; lra).
    rewrite Heq. apply Qmult_lt_compat_r; assumption. }
  apply Q.min_glb; [discriminate|].
  apply Qle_shift_div_l; lra.
Qed.

Lemma temporal_patterns_floor (E : Env) (df : DataFrame) (ps : list CitationPattern) :
  _analyze_temporal_patterns E df = Ok ps ->
  Forall above_floor ps
  /\ NoDup (map pattern_type ps)
  /\ Forall (fun p => In (pattern_type p) [temporal_spikes; weekly_variation]) ps.
Proof.
  intros H. unfold _analyze_temporal_patterns in H. cbv zeta in H.
  set (daily_counts := daily_counts_of df) in *.
  set (high_activity_days := filter _ daily_counts) in *.
  assert (Hdaily : (2 <=? List.length high_activity_days)%nat = true ->
            0 <= Qmin 1.0 (Qnat (List.length high_activity_days)
                           / Qnat (List.length daily_counts))
            /\ (2 <= List.length high_activity_days)%nat).
  { intros Hlen. apply Nat.leb_le in Hlen. split; [|exact Hlen].
    apply Qmin_one_unit. apply Qdiv_nonneg; apply Qnat_nonneg. }
  assert (Hweekly : (0 <? List.length (map snd (weekly_patterns_of df)))%nat = true ->
            Qlt_bool 1.5 (Qnat (series_max (map snd (weekly_patterns_of df)))
                          / Qnat (series_min (map snd (weekly_patterns_of df)))) = true ->
            1 # 3 <= Qmin 1.0 ((Qnat (series_max (map snd (weekly_patterns_of df)))
                                - Qnat (series_min (map snd (weekly_patterns_of df))))
                               / mean (map Qnat (map snd (weekly_patterns_of df))))
            /\ (1 <= List.length (rows df))%nat).
  { intros Hlen Hg. split.
    - apply weekly_spread_floor; [now apply positive_length | exact Hg].
    - destruct (rows df) as [|r rs] eqn:Hrows; [|simpl; lia].
      unfold weekly_patterns_of in Hlen. rewrite Hrows in Hlen. discriminate Hlen. }
  exn_inv; (split; [|split]);
    try (repeat (apply Forall_app; split); repeat constructor; cbn;
         first [ now apply Hdaily | now apply Hweekly | tauto ]);
    cbn; repeat constructor; cbn; intuition discriminate.
Qed.

Lemma for_each_length {A B} (body : A -> Exn (list B)) (l : list A) (out : list B) :
  (forall x ps, body x = Ok ps -> (List.length ps <= 1)%nat) ->
  for_each body l = Ok out -> (List.length out <= List.length l)%nat.
Proof.
  intros Hbody. revert out. induction l as [|x t IH]; simpl; intros out H.
  - inversion H. simpl. lia.
  - exn_inv. rewrite length_app.
    match goal with
    | H1 : body x = Ok ?a, H2 : for_each body t = Ok ?b |- _ =>
        specialize (Hbody x a H1); specialize (IH b H2)
    end. lia.
Qed.

Lemma for_each_caught_length {A B} (body : A -> Exn (list B)) (l : list A) :
  (forall x ps, body x = Ok ps -> (List.length ps <= 1)%nat) ->
  (List.length (for_each_caught body l) <= List.length l)%nat.
Proof.
  intros Hbody. induction l as [|x t IH]; simpl; [lia|].
  destruct (body x) as [ps|e] eqn:Hx; [|simpl; lia].
  rewrite length_app. specialize (Hbody x ps Hx). lia.
Qed.

Lemma engine_preference_floor (E : Env) (df : DataFrame) (engine_ : string)
    (ps : list CitationPattern) :
  engine_preference E df engine_ = Ok ps ->
  Forall (fun p => above_floor p /\ pattern_type p = engine_content_preference) ps
  /\ (List.length ps <= 1)%nat.
Proof.
  intros H. unfold engine_preference in H. cbv zeta in H.
  set (engine_data := filter (fun r => String.eqb (engine r) engine_) (rows df)) in *.
  destruct (has_col "citation_type" df); [|inversion H; split; [constructor | simpl; lia]].
  destruct (value_counts (map citation_type engine_data)) as [|[dominant top] rest];
    [discriminate H|].
  destruct (Qlt_bool 0.6 (Qnat top / Qnat (List.length engine_data))) eqn:Hshare;
    inversion H; subst; clear H; (split; [|simpl; lia]); repeat constructor; cbn.
  - apply Qlt_bool_iff in Hshare. lra.
  - destruct top as [|top]; [|lia]. exfalso.
    apply Qlt_bool_iff in Hshare.
    assert (Hz : Qnat 0 / Qnat (List.length engine_data) == 0)
      by (unfold Qdiv; apply Qmult_0_l).
    rewrite Hz in Hshare. lra.
Qed.

Lemma engine_patterns_floor (E : Env) (df : DataFrame) (ps : list CitationPattern) :
  _analyze_engine_patterns E df = Ok ps ->
  Forall above_floor ps
  /\ Forall (fun p => In (pattern_type p) [engine_content_preference]) ps
  /\ (List.length ps <= List.length (unique String.eqb (map engine (rows df))))%nat.
Proof.
  intros H. unfold _analyze_engine_patterns in H.
  exn_inv; try (split; [constructor | split; [constructor | simpl; lia]]).
  split; [|split].
  - eapply for_each_Forall; [|eassumption]. cbv beta.
    intros x qs Hx. apply engine_preference_floor in Hx.
    eapply Forall_impl; [|exact (proj1 Hx)]. now intros p [Hp _].
  - eapply for_each_Forall; [|eassumption]. cbv beta.
    intros x qs Hx. apply engine_preference_floor in Hx.
    eapply Forall_impl; [|exact (proj1 Hx)]. intros p [_ ->]. now left.
  - eapply for_each_length; [|eassumption].
    intros x qs Hx. now apply engine_preference_floor in Hx.
Qed.

Lemma content_feature_patterns_floor (E : Env) (df : DataFrame)
    (ps : list CitationPattern) :
  _analyze_content_feature_patterns E df = Ok ps ->
  Forall above_floor ps
  /\ NoDup (map pattern_type ps)
  /\ Forall (fun p => In (pattern_type p) [content_features]) ps.
Proof.
  intros H. unfold _analyze_content_feature_patterns in H. cbv zeta in H.
  assert (Hnil : Forall above_floor [] /\ NoDup (map pattern_type [])
                 /\ Forall (fun p => In (pattern_type p) [content_features]) []).
  { repeat constructor. }
  destruct (negb (has_col "metadata" df)); [inversion H; exact Hnil|].
  destruct (rows df) as [|r rs] eqn:Hrows; [inversion H; exact Hnil|].
  destruct (filter _ (feature_counts_of df)) as [|kv rest] eqn:Hf; [inversion H; exact Hnil|].
  rewrite <- Hf in H.
  assert (Hfreq : (3 <= list_sum (map snd (filter
                     (fun kv => (min_pattern_frequency <=? snd kv)%nat)
                     (feature_counts_of df))))%nat).
  { apply list_sum_floor; [rewrite Hf; discriminate|].
    apply Forall_map, Forall_forall. intros row Hrow.
    apply filter_In in Hrow. destruct Hrow as [_ Hrow]. now apply Nat.leb_le in Hrow. }
  exn_inv. split; [|split].
  - repeat constructor; cbn; [|exact Hfreq].
    apply Qdiv_nonneg; apply Qnat_nonneg.
  - cbn. repeat constructor; cbn; tauto.
  - repeat constructor; cbn; tauto.
Qed.

Lemma query_cluster_pattern_floor (E : Env) (df : DataFrame)
    (labelled : list (CitationRecord * nat)) (cluster_id : nat) (ps : list CitationPattern) :
  query_cluster_pattern E df labelled cluster_id = Ok ps ->
  Forall (fun p => above_floor p /\ pattern_type p = query_similarity) ps
  /\ (List.length ps <= 1)%nat.
Proof.
  intros H. unfold query_cluster_pattern in H. cbv zeta in H.
  exn_inv; (split; [|simpl; lia]); repeat constructor; cbn.
  - apply Qdiv_nonneg; apply Qnat_nonneg.
  - match goal with Hb : (_ <=? _)%nat = true |- _ => now apply Nat.leb_le in Hb end.
Qed.

Lemma query_similarity_patterns_floor (E : Env) (g : NumpyState E) (df : DataFrame) :
  Forall above_floor (_analyze_query_similarity_patterns E g df)
  /\ Forall (fun p => In (pattern_type p) [query_similarity])
            (_analyze_query_similarity_patterns E g df)
  /\ (List.length (_analyze_query_similarity_patterns E g df) <= 5)%nat.
Proof.
  unfold _analyze_query_similarity_patterns.
  assert (Hnil : Forall above_floor [] 
                 /\ Forall (fun p => In (pattern_type p) [query_similarity]) []
                 /\ (@List.length CitationPattern [] <= 5)%nat).
  { repeat constructor. }
  destruct (_ || _); [exact Hnil|].
  destruct (tfidf_fit_transform E 100 _) as [X|]; [|exact Hnil].
  destruct (2 <=? _)%nat; [|exact Hnil].
  destruct (kmeans_fit_predict _ _ _ _ _) as [clusters|]; [|exact Hnil].
  destruct (_ =? _)%nat; [|exact Hnil].
  split; [|split].
  - apply for_each_caught_Forall. intros c ps H.
    apply query_cluster_pattern_floor in H.
    eapply Forall_impl; [|exact (proj1 H)]. now intros p [Hp _].
  - apply for_each_caught_Forall. intros c ps H.
    apply query_cluster_pattern_floor in H.
    eapply Forall_impl; [|exact (proj1 H)]. intros p [_ ->]. now left.
  - etransitivity.
    + apply for_each_caught_length. intros c ps H.
      now apply query_cluster_pattern_floor in H.
    + rewrite length_seq. apply Nat.le_min_l.
Qed.

Lemma type_count_allowed (t : PatternType) (allowed : list PatternType)
    (ps : list CitationPattern) :
  Forall (fun p => In (pattern_type p) allowed) ps ->
  existsb (PatternType_eqb t) allowed = false ->
  filter (is_pattern_type t) ps = [].
Proof.
  intros Hall Hnot. apply filter_none. eapply Forall_impl; [|exact Hall].
  intros p Hp. cbv beta in Hp. unfold is_pattern_type.
  destruct (PatternType_eqb (pattern_type p) t) eqn:Heq; [|reflexivity].
  apply PatternType_eqb_eq in Heq. subst t.
  assert (Hex : existsb (PatternType_eqb (pattern_type p)) allowed = true).
  { apply existsb_exists. exists (pattern_type p). split; [exact Hp|].
    now apply PatternType_eqb_eq. }
  congruence.
Qed.

Lemma type_count_unique (t : PatternType) (ps : list CitationPattern) :
  NoDup (map pattern_type ps) -> (List.length (filter (is_pattern_type t) ps) <= 1)%nat.
Proof.
  induction ps as [|p ps IH]; simpl; intros Hnd; [lia|].
  inversion Hnd as [|x l Hnotin Hnd']; subst.
  specialize (IH Hnd'). unfold is_pattern_type at 1.
  destruct (PatternType_eqb (pattern_type p) t) eqn:Heq; [|exact IH].
  apply PatternType_eqb_eq in Heq. subst t.
  rewrite filter_none; [simpl; lia|].
  apply Forall_forall. intros q Hq. unfold is_pattern_type.
  destruct (PatternType_eqb (pattern_type q) (pattern_type p)) eqn:Hqp; [|reflexivity].
  apply PatternType_eqb_eq in Hqp. exfalso. apply Hnotin. rewrite <- Hqp.
  now apply in_map.
Qed.

Ltac other_types t :=
  repeat match goal with
  | H : Forall (fun p => In (pattern_type p) ?allowed) ?ps
    |- context [filter (is_pattern_type t) ?ps] =>
      rewrite (@type_count_allowed t allowed ps H) by reflexivity
  end.



(** X21. [analyze_citation_patterns] returns at most one pattern of each
    type other than engine preference and query similarity, at most one
    engine preference for each distinct engine of the citations, and at
    most five query-similarity patterns. *)
Theorem pattern_census (E : Env) (g : NumpyState E) (keys : list string)
    (citations : list CitationRecord) (ps : list CitationPattern) :
  analyze_citation_patterns E g keys citations = Ok ps ->
  (forall t, t <> engine_content_preference -> t <> query_similarity ->
             (List.length (filter (is_pattern_type t) ps) <= 1)%nat)
  /\ (List.length (filter (is_pattern_type engine_content_preference) ps)
      <= List.length (unique String.eqb (map engine citations)))%nat
  /\ (List.length (filter (is_pattern_type query_similarity) ps) <= 5)%nat.
Proof.
  intros H. unfold analyze_citation_patterns in H.
  destruct citations as [|c cs].
  { inversion H. subst. simpl. repeat split; intros; lia. }
  set (df := {| columns := keys; rows := c :: cs |}) in *.
  exn_inv.
  repeat match goal with
  | Hrun : _analyze_domain_patterns _ _ = Ok _ |- _ =>
      apply domain_patterns_floor in Hrun; destruct Hrun as [_ [? ?]]
  | Hrun : _analyze_content_type_patterns _ _ = Ok _ |- _ =>
      apply content_type_patterns_floor in Hrun; destruct Hrun as [_ [? ?]]
  | Hrun : _analyze_position_patterns _ _ = Ok _ |- _ =>
      apply position_patterns_floor in Hrun; destruct Hrun as [_ [? ?]]
  | Hrun : _analyze_temporal_patterns _ _ = Ok _ |- _ =>
      apply temporal_patterns_floor in Hrun; destruct Hrun as [_ [? ?]]
  | Hrun : _analyze_engine_patterns _ _ = Ok _ |- _ =>
      apply engine_patterns_floor in Hrun; destruct Hrun as [_ [? ?]]
  | Hrun : _analyze_content_feature_patterns _ _ = Ok _ |- _ =>
      apply content_feature_patterns_floor in Hrun; destruct Hrun as [_ [? ?]]
  end.
  destruct (query_similarity_patterns_floor E g df) as [_ [Hq Hq5]].
  revert Hq Hq5. generalize (_analyze_query_similarity_patterns E g df).
  intros qs Hq Hq5.
  split; [|split].
  - intros t Hengine Hquery.
    destruct t; try congruence; rewrite !filter_app, !length_app;
      match goal with |- context [is_pattern_type ?t] => other_types t end;
      cbn [List.length];
      repeat match goal with
      | Hnd : NoDup (map pattern_type ?l) |- context [filter (is_pattern_type ?t) ?l] =>
          pose proof (@type_count_unique t l Hnd); clear Hnd
      end; lia.
  - rewrite !filter_app, !length_app. other_types engine_content_preference.
    cbn [List.length].
    match goal with
    | Hlen : (List.length ?l <= List.length (unique String.eqb (map engine (rows df))))%nat
      |- _ => pose proof (filter_length_le (is_pattern_type engine_content_preference) l)
    end.
    cbn [rows df] in *. lia.
  - rewrite !filter_app, !length_app. other_types query_similarity.
    cbn [List.length].
    pose proof (filter_length_le (is_pattern_type query_similarity) qs). lia.
Qed.

Lemma pattern_census_witness :
  exists ps,
    analyze_citation_patterns sample_env tt all_keys four_from_one_domain = Ok ps
    /\ List.length (filter (is_pattern_type domain_frequency) ps) = 1%nat
    /\ (List.length (filter (is_pattern_type engine_content_preference) ps)
        <= List.length (unique String.eqb (map engine four_from_one_domain)))%nat.
Proof.
  eexists. split; [reflexivity|]. split; [reflexivity|].
  apply (@pattern_census sample_env tt all_keys four_from_one_domain).
  reflexivity.
Defined.

(** ** From the citations to the threats *)

Lemma domain_frequency_strengths (E : Env) (df : DataFrame) (ps : list CitationPattern) :
  _analyze_domain_patterns E df = Ok ps ->
  map strength (filter (is_pattern_type domain_frequency) ps)
  = if has_col "source_domain" df && (0 <? List.length (qualifying_domains df))%nat
    then [Qmin 1.0 (Qnat (List.length (qualifying_domains df)) / 10)]
    else [].
Proof.
  intros H. rewrite <- high_freq_length.
  unfold _analyze_domain_patterns in H. cbv zeta in H.
  set (high := filter _ (value_counts (map source_domain (rows df)))) in *.
  destruct (has_col "source_domain" df); cbn [negb andb] in H |- *;
    [|inversion H; reflexivity].
  destruct (0 <? List.length high)%nat; exn_inv; reflexivity.
Qed.

Lemma threats_of_domain_frequency (ps : list CitationPattern) :
  flat_map threat_of ps
  = flat_map threat_of (filter (is_pattern_type domain_frequency) ps).
Proof.
  induction ps as [|p ps IH]; [reflexivity|]. cbn [flat_map filter].
  unfold is_pattern_type at 1.
  destruct (PatternType_eqb (pattern_type p) domain_frequency) eqn:Heq.
  - cbn [flat_map]. now rewrite IH.
  - rewrite IH. unfold threat_of at 1. now rewrite Heq.
Qed.

Lemma dominance_threshold (n : nat) :
  Qle_bool 0.8 (Qmin 1.0 (Qnat n / 10)) = true <-> (8 <= n)%nat.
Proof.
  rewrite Qle_bool_iff. change (Qnat n / 10) with (Qnat n * (1 # 10)). split.
  - intros H. destruct (Nat.le_gt_cases 8 n) as [Hle | Hgt]; [exact Hle|]. exfalso.
    assert (H7 : Qnat n <= Qnat 7) by (apply Qnat_le; lia).
    change (Qnat 7) with 7 in H7.
    pose proof (Q.le_min_r 1.0 (Qnat n * (1 # 10))). lra.
  - intros H. assert (H8 : Qnat 8 <= Qnat n) by now apply Qnat_le.
    change (Qnat 8) with 8 in H8.
    apply Q.min_glb; [discriminate | lra].
Qed.

(** X22. From the citations to the insights: the patterns that
    [analyze_citation_patterns] returns make [generate_pattern_insights]
    raise at most one competitor-dominance threat, and they raise it exactly
    when the dicts carry [source_domain] and at least 8 distinct source
    domains have 3 or more citations each. *)
Theorem dominance_threat_needs_eight_domains (E : Env) (g : NumpyState E)
    (keys : list string) (citations : list CitationRecord)
    (example_types : CitationPattern -> list string) (ps : list CitationPattern) :
  analyze_citation_patterns E g keys citations = Ok ps ->
  let insights := generate_pattern_insights example_types ps in
  (List.length (threats insights) <= 1)%nat
  /\ (threats insights <> [] <->
      mem "source_domain" keys = true
      /\ (8 <= List.length (qualifying_domains {| columns := keys; rows := citations |}))%nat).
Proof.
  intros H. cbv zeta. unfold generate_pattern_insights. cbn [threats].
  rewrite threats_of_domain_frequency.
  unfold analyze_citation_patterns in H.
  destruct citations as [|c cs].
  { inversion H. subst. simpl. split; [lia|]. split; [congruence | intros [_ Hn]; lia]. }
  set (df := {| columns := keys; rows := c :: cs |}) in *.
  change (mem "source_domain" keys) with (has_col "source_domain" df).
  exn_inv.
  match goal with
  | Hrun : _analyze_domain_patterns _ _ = Ok _ |- _ =>
      pose proof (@domain_frequency_strengths _ _ _ Hrun) as Hstrength
  end.
  repeat match goal with
  | Hrun : _analyze_domain_patterns _ _ = Ok _ |- _ => clear Hrun
  | Hrun : _analyze_content_type_patterns _ _ = Ok _ |- _ =>
      apply content_type_patterns_floor in Hrun; destruct Hrun as [_ [_ ?]]
  | Hrun : _analyze_position_patterns _ _ = Ok _ |- _ =>
      apply position_patterns_floor in Hrun; destruct Hrun as [_ [_ ?]]
  | Hrun : _analyze_temporal_patterns _ _ = Ok _ |- _ =>
      apply temporal_patterns_floor in Hrun; destruct Hrun as [_ [_ ?]]
  | Hrun : _analyze_engine_patterns _ _ = Ok _ |- _ =>
      apply engine_patterns_floor in Hrun; destruct Hrun as [_ [? _]]
  | Hrun : _analyze_content_feature_patterns _ _ = Ok _ |- _ =>
      apply content_feature_patterns_floor in Hrun; destruct Hrun as [_ [_ ?]]
  end.
  destruct (query_similarity_patterns_floor E g df) as [_ [Hq _]].
  revert Hq. generalize (_analyze_query_similarity_patterns E g df). intros qs Hq.
  rewrite !filter_app. other_types domain_frequency. rewrite !app_nil_r.
  match goal with |- context [filter (is_pattern_type domain_frequency) ?l] =>
    set (found := filter (is_pattern_type domain_frequency) l) in *;
    assert (Htype : forall p, In p found -> pattern_type p = domain_frequency)
  end.
  { intros p Hp. apply filter_In in Hp. destruct Hp as [_ Hp].
    now apply PatternType_eqb_eq in Hp. }
  set (n := List.length (qualifying_domains df)) in *.
  destruct (has_col "source_domain" df); cbn [andb] in Hstrength.
  - destruct (0 <? n)%nat eqn:Hn.
    + destruct found as [|p [|p' rest]]; try discriminate Hstrength.
      injection Hstrength as Hs. cbn [flat_map]. rewrite app_nil_r.
      unfold threat_of. rewrite (Htype p (or_introl eq_refl)), Hs. cbn [PatternType_eqb andb].
      destruct (Qle_bool 0.8 (Qmin 1.0 (Qnat n / 10))) eqn:Hb.
      * apply dominance_threshold in Hb. split; [simpl; lia|].
        split; [intros _; now split | intros _; discriminate].
      * split; [simpl; lia|]. split; [congruence|]. intros [_ H8].
        apply dominance_threshold in H8. congruence.
    + destruct found; [|discriminate Hstrength]. split; [simpl; lia|].
      split; [simpl; congruence|]. intros [_ H8]. apply Nat.ltb_ge in Hn. lia.
  - destruct found; [|discriminate Hstrength]. split; [simpl; lia|].
    split; [simpl; congruence | intros [Hf _]; discriminate Hf].
Qed.

Lemma dominance_threat_needs_eight_domains_witness :
  exists ps,
    analyze_citation_patterns sample_env tt all_keys eight_busy_domains = Ok ps
    /\ threats (generate_pattern_insights (fun _ => []) ps) <> [].
Proof.
  pose (ps := match analyze_citation_patterns sample_env tt all_keys eight_busy_domains with
              | Ok ps => ps
              | Raise _ => []
              end).
  assert (Hrun : analyze_citation_patterns sample_env tt all_keys eight_busy_domains = Ok ps)
    by (vm_compute; reflexivity).
  exists ps. split; [exact Hrun|].
  apply (@dominance_threat_needs_eight_domains sample_env tt all_keys eight_busy_domains
           (fun _ => []) ps Hrun).
  split; [reflexivity | vm_compute; lia].
Defined.

(** ** Query clusters and engine preferences *)

Lemma indicator_at_most_one (x : nat) (ids : list nat) :
  NoDup ids ->
  (list_sum (map (fun c => if (x =? c)%nat then 1 else 0)%nat ids) <= 1)%nat.
Proof.
  induction 1 as [|y t Hy Hnd IH]; simpl; [lia|].
  destruct (x =? y)%nat eqn:Hxy; [|exact IH].
  apply Nat.eqb_eq in Hxy. subst y.
  assert (Hz : list_sum (map (fun c => if (x =? c)%nat then 1 else 0)%nat t) = 0%nat).
  { clear IH Hnd. induction t as [|z t IHt]; simpl; [reflexivity|].
    destruct (x =? z)%nat eqn:Hxz.
    - apply Nat.eqb_eq in Hxz. subst z. exfalso. apply Hy. now left.
    - apply IHt. intros Hin. apply Hy. now right. }
  lia.
Qed.

(** Clusters with distinct labels share no row. *)
Lemma cluster_sizes_sum {A} (labelled : list (A * nat)) (ids : list nat) :
  NoDup ids ->
  (list_sum (map (fun c => List.length (filter (fun rc => (snd rc =? c)%nat) labelled)) ids)
   <= List.length labelled)%nat.
Proof.
  intros Hnd. induction labelled as [|x t IH].
  - simpl. induction ids as [|c ids IHids]; simpl; [lia|].
    apply IHids. now inversion Hnd.
  - assert (Hstep : forall c,
              List.length (filter (fun rc : A * nat => (snd rc =? c)%nat) (x :: t))
              = ((if (snd x =? c)%nat then 1 else 0)
                 + List.length (filter (fun rc : A * nat => (snd rc =? c)%nat) t))%nat).
    { intros c. simpl. now destruct (snd x =? c)%nat. }
    rewrite (map_ext _ _ Hstep).
    assert (Hadd : forall (f h : nat -> nat) V,
               list_sum (map (fun k => (f k + h k)%nat) V)
               = (list_sum (map f V) + list_sum (map h V))%nat).
    { intros f h V. induction V as [|v V IHV]; simpl; [reflexivity | rewrite IHV; lia]. }
    rewrite Hadd. pose proof (indicator_at_most_one (snd x) Hnd). simpl. lia.
Qed.

Lemma for_each_caught_weight {A} (body : A -> Exn (list CitationPattern)) (w : A -> nat)
    (l : list A) :
  (forall x ps, body x = Ok ps -> (list_sum (map frequency ps) <= w x)%nat) ->
  (list_sum (map frequency (for_each_caught body l)) <= list_sum (map w l))%nat.
Proof.
  intros Hbody. induction l as [|x t IH]; simpl; [lia|].
  destruct (body x) as [ps|e] eqn:Hx; [|simpl; lia].
  rewrite map_app, list_sum_app. specialize (Hbody x ps Hx). lia.
Qed.

Lemma query_cluster_pattern_size (E : Env) (df : DataFrame)
    (labelled : list (CitationRecord * nat)) (cluster_id : nat) (ps : list CitationPattern) :
  query_cluster_pattern E df labelled cluster_id = Ok ps ->
  (list_sum (map frequency ps)
   <= List.length (filter (fun rc => (snd rc =? cluster_id)%nat) labelled))%nat
  /\ Forall (fun p => (List.length (domains p) <= 3)%nat) ps.
Proof.
  intros H. unfold query_cluster_pattern in H. cbv zeta in H.
  exn_inv;
    (split; [unfold list_sum; cbn [map frequency fold_right]; rewrite ?length_map; lia|]);
    try apply Forall_nil.
  apply Forall_cons; [|apply Forall_nil].
  cbn [domains]. rewrite length_map.
  destruct (value_counts _) as [|? [|? [|? ?]]]; simpl; lia.
Qed.

Lemma query_similarity_patterns_size (E : Env) (g : NumpyState E) (df : DataFrame) :
  let found := _analyze_query_similarity_patterns E g df in
  (list_sum (map frequency found) <= List.length (rows df))%nat
  /\ Forall (fun p => (List.length (domains p) <= 3)%nat) found
  /\ (found <> [] -> has_col "query" df = true /\ (10 <= List.length (rows df))%nat).
Proof.
  cbv zeta. unfold _analyze_query_similarity_patterns.
  assert (Hnil : (list_sum (map frequency []) <= List.length (rows df))%nat
                 /\ Forall (fun p => (List.length (domains p) <= 3)%nat) []
                 /\ (@nil CitationPattern <> [] ->
                     has_col "query" df = true /\ (10 <= List.length (rows df))%nat)).
  { split; [simpl; lia|]. split; [constructor | congruence]. }
  destruct (negb (has_col "query" df) || (List.length (rows df) <? 10)%nat) eqn:Hguard;
    [exact Hnil|].
  apply orb_false_iff in Hguard. destruct Hguard as [Hq Hten].
  apply negb_false_iff in Hq. apply Nat.ltb_ge in Hten.
  destruct (tfidf_fit_transform E 100 _) as [X|]; [|exact Hnil].
  destruct (2 <=? _)%nat; [|exact Hnil].
  destruct (kmeans_fit_predict _ _ _ _ _) as [clusters|]; [|exact Hnil].
  destruct (_ =? _)%nat; [|exact Hnil].
  split; [|split].
  - etransitivity.
    + apply for_each_caught_weight
        with (w := fun c => List.length (filter (fun rc : CitationRecord * nat =>
                                                   (snd rc =? c)%nat)
                                                (combine (rows df) clusters))).
      intros c ps H. now apply query_cluster_pattern_size in H.
    + etransitivity; [apply cluster_sizes_sum, seq_NoDup|].
      rewrite length_combine. apply Nat.le_min_l.
  - apply for_each_caught_Forall. intros c ps H.
    now apply query_cluster_pattern_size in H.
  - intros _. now split.
Qed.

(** X23. The query-similarity patterns that [analyze_citation_patterns]
    returns count no citation twice: their frequencies add up to at most
    the number of citations. Each names at most 3 domains, and there are
    none unless the dicts carry [query] and there are at least 10
    citations. *)
Theorem query_clusters_partition_citations (E : Env) (g : NumpyState E)
    (keys : list string) (citations : list CitationRecord) (ps : list CitationPattern) :
  analyze_citation_patterns E g keys citations = Ok ps ->
  let found := filter (is_pattern_type query_similarity) ps in
  (list_sum (map frequency found) <= List.length citations)%nat
  /\ Forall (fun p => (List.length (domains p) <= 3)%nat) found
  /\ (found <> [] -> mem "query" keys = true /\ (10 <= List.length citations)%nat).
Proof.
  intros H. cbv zeta. unfold analyze_citation_patterns in H.
  destruct citations as [|c cs].
  { inversion H. subst. simpl. split; [lia|]. split; [constructor | congruence]. }
  set (df := {| columns := keys; rows := c :: cs |}) in *.
  exn_inv.
  repeat match goal with
  | Hrun : _analyze_domain_patterns _ _ = Ok _ |- _ =>
      apply domain_patterns_floor in Hrun; destruct Hrun as [_ [_ ?]]
  | Hrun : _analyze_content_type_patterns _ _ = Ok _ |- _ =>
      apply content_type_patterns_floor in Hrun; destruct Hrun as [_ [_ ?]]
  | Hrun : _analyze_position_patterns _ _ = Ok _ |- _ =>
      apply position_patterns_floor in Hrun; destruct Hrun as [_ [_ ?]]
  | Hrun : _analyze_temporal_patterns _ _ = Ok _ |- _ =>
      apply temporal_patterns_floor in Hrun; destruct Hrun as [_ [_ ?]]
  | Hrun : _analyze_engine_patterns _ _ = Ok _ |- _ =>
      apply engine_patterns_floor in Hrun; destruct Hrun as [_ [? _]]
  | Hrun : _analyze_content_feature_patterns _ _ = Ok _ |- _ =>
      apply content_feature_patterns_floor in Hrun; destruct Hrun as [_ [_ ?]]
  end.
  destruct (query_similarity_patterns_floor E g df) as [_ [Hq _]].
  pose proof (query_similarity_patterns_size E g df) as Hsize. cbv zeta in Hsize.
  revert Hq Hsize. generalize (_analyze_query_similarity_patterns E g df).
  intros qs Hq Hsize.
  rewrite !filter_app.
  assert (Hall : filter (is_pattern_type query_similarity) qs = qs).
  { apply filter_all. eapply Forall_impl; [|exact Hq].
    intros p [Hp | []]. unfold is_pattern_type. now rewrite <- Hp. }
  rewrite Hall.
  repeat match goal with
  | Hty : Forall (fun p => In (pattern_type p) ?allowed) ?l
    |- context [filter (is_pattern_type query_similarity) ?l] =>
      rewrite (@type_count_allowed query_similarity allowed l Hty) by reflexivity
  end.
  cbn [app]. exact Hsize.
Qed.

Lemma query_clusters_partition_citations_witness :
  exists ps,
    analyze_citation_patterns sample_env tt all_keys eight_busy_domains = Ok ps
    /\ filter (is_pattern_type query_similarity) ps <> []
    /\ (list_sum (map frequency (filter (is_pattern_type query_similarity) ps))
        <= List.length eight_busy_domains)%nat.
Proof.
  pose (ps := match analyze_citation_patterns sample_env tt all_keys eight_busy_domains with
              | Ok ps => ps
              | Raise _ => []
              end).
  assert (Hrun : analyze_citation_patterns sample_env tt all_keys eight_busy_domains = Ok ps)
    by (vm_compute; reflexivity).
  exists ps. split; [exact Hrun|]. split; [vm_compute; discriminate|].
  apply (@query_clusters_partition_citations sample_env tt all_keys eight_busy_domains ps Hrun).
Defined.

Lemma engine_preference_source (E : Env) (df : DataFrame) (engine_ : string)
    (ps : list CitationPattern) :
  engine_preference E df engine_ = Ok ps ->
  let engine_data := filter (fun r => String.eqb (engine r) engine_) (rows df) in
  (ps = [] \/
   exists p dominant,
     ps = [p] /\ engines p = [engine_] /\ content_types p = [dominant]
     /\ frequency p = count_occ_b String.eqb dominant (map citation_type engine_data)
     /\ strength p = Qnat (frequency p) / Qnat (List.length engine_data)
     /\ 0.6 < strength p).
Proof.
  intros H. cbv zeta. unfold engine_preference in H. cbv zeta in H.
  set (engine_data := filter (fun r => String.eqb (engine r) engine_) (rows df)) in *.
  destruct (has_col "citation_type" df); [|inversion H; now left].
  destruct (value_counts (map citation_type engine_data)) as [|[dominant top] rest] eqn:Hvc;
    [discriminate H|].
  assert (Htop : top = count_occ_b String.eqb dominant (map citation_type engine_data)).
  { assert (Hin : In (dominant, top) (value_counts (map citation_type engine_data)))
      by (rewrite Hvc; now left).
    apply value_counts_In in Hin. now destruct Hin. }
  destruct (Qlt_bool 0.6 (Qnat top / Qnat (List.length engine_data))) eqn:Hshare;
    inversion H; subst ps; clear H; [right | now left].
  eexists. exists dominant. split; [reflexivity|]. cbn.
  apply Qlt_bool_iff in Hshare. repeat split; auto.
Qed.

Lemma for_each_engines (body : string -> Exn (list CitationPattern)) (l : list string)
    (out : list CitationPattern) :
  (forall x ps, body x = Ok ps -> ps = [] \/ exists p, ps = [p] /\ engines p = [x]) ->
  for_each body l = Ok out ->
  NoDup l -> NoDup (flat_map engines out) /\ incl (flat_map engines out) l.
Proof.
  intros Hbody. revert out. induction l as [|x t IH]; simpl; intros out H Hnd.
  - inversion H. simpl. split; [constructor | intros y []].
  - exn_inv. inversion Hnd as [|y l Hx Hnd']; subst.
    match goal with
    | H1 : body x = Ok ?a, H2 : for_each body t = Ok ?b |- _ =>
        destruct (Hbody x a H1) as [-> | [p [-> Hp]]];
        destruct (IH b H2 Hnd') as [IHnd IHincl]
    end.
    + simpl. split; [exact IHnd|]. intros y Hy. right. now apply IHincl.
    + cbn [app flat_map]. rewrite Hp. cbn [app]. split.
      * constructor; [|exact IHnd]. intros Hin. apply Hx. now apply IHincl.
      * intros y [<- | Hy]; [now left | right; now apply IHincl].
Qed.

Lemma for_each_Forall_In {A B} (P : B -> Prop) (body : A -> Exn (list B)) (l : list A)
    (out : list B) :
  (forall x ps, In x l -> body x = Ok ps -> Forall P ps) ->
  for_each body l = Ok out -> Forall P out.
Proof.
  revert out. induction l as [|x t IH]; simpl; intros out Hbody H.
  - inversion H. constructor.
  - exn_inv. apply Forall_app. split.
    + eapply Hbody; [left; reflexivity | eassumption].
    + eapply IH; [|eassumption]. intros y qs Hy. apply Hbody. now right.
Qed.

Lemma engine_patterns_source (E : Env) (df : DataFrame) (ps : list CitationPattern) :
  _analyze_engine_patterns E df = Ok ps ->
  Forall (fun p =>
            exists engine_ dominant,
              let engine_data := filter (fun r => String.eqb (engine r) engine_) (rows df) in
              engines p = [engine_] /\ content_types p = [dominant]
              /\ In engine_ (map engine (rows df))
              /\ frequency p
                 = count_occ_b String.eqb dominant (map citation_type engine_data)
              /\ strength p = Qnat (frequency p) / Qnat (List.length engine_data)
              /\ 0.6 < strength p) ps
  /\ NoDup (flat_map engines ps).
Proof.
  intros H. unfold _analyze_engine_patterns in H.
  exn_inv; try (split; constructor). split.
  - eapply for_each_Forall_In; [|eassumption]. cbv beta.
    intros e qs He Hx. apply -> (unique_In String.eqb String.eqb_eq) in He.
    apply engine_preference_source in Hx. cbv zeta in Hx.
    destruct Hx as [-> | [p [dominant [-> [Hp [Ht [Hf [Hs Hgt]]]]]]]]; [constructor|].
    apply Forall_cons; [|apply Forall_nil].
    exists e, dominant. cbv zeta. repeat split; assumption.
  - eapply for_each_engines; [|eassumption|].
    + intros x qs Hx. apply engine_preference_source in Hx. cbv zeta in Hx.
      destruct Hx as [-> | [p [dominant [-> [He _]]]]]; [now left | right; eauto].
    + apply (unique_NoDup String.eqb String.eqb_eq).
Qed.

(** X24. Among the patterns that [analyze_citation_patterns] returns, an
    engine preference names one engine of the citations and one citation
    type; its frequency is the number of that engine's citations of that
    type, its strength is their share of the engine's citations, and the
    share is above 0.6. No engine has two preferences. *)
Theorem engine_preferences_name_majority_types (E : Env) (g : NumpyState E)
    (keys : list string) (citations : list CitationRecord) (ps : list CitationPattern) :
  analyze_citation_patterns E g keys citations = Ok ps ->
  let found := filter (is_pattern_type engine_content_preference) ps in
  Forall (fun p =>
            exists engine_ dominant,
              let engine_data := filter (fun r => String.eqb (engine r) engine_) citations in
              engines p = [engine_] /\ content_types p = [dominant]
              /\ In engine_ (map engine citations)
              /\ frequency p
                 = count_occ_b String.eqb dominant (map citation_type engine_data)
              /\ strength p = Qnat (frequency p) / Qnat (List.length engine_data)
              /\ 0.6 < strength p) found
  /\ NoDup (flat_map engines found).
Proof.
  intros H. cbv zeta. unfold analyze_citation_patterns in H.
  destruct citations as [|c cs].
  { inversion H. subst. simpl. split; constructor. }
  set (df := {| columns := keys; rows := c :: cs |}) in *.
  change (c :: cs) with (rows df).
  exn_inv.
  match goal with
  | Hrun : _analyze_engine_patterns _ _ = Ok _ |- _ =>
      pose proof (@engine_patterns_source _ _ _ Hrun) as Hengine
  end.
  repeat match goal with
  | Hrun : _analyze_domain_patterns _ _ = Ok _ |- _ =>
      apply domain_patterns_floor in Hrun; destruct Hrun as [_ [_ ?]]
  | Hrun : _analyze_content_type_patterns _ _ = Ok _ |- _ =>
      apply content_type_patterns_floor in Hrun; destruct Hrun as [_ [_ ?]]
  | Hrun : _analyze_position_patterns _ _ = Ok _ |- _ =>
      apply position_patterns_floor in Hrun; destruct Hrun as [_ [_ ?]]
  | Hrun : _analyze_temporal_patterns _ _ = Ok _ |- _ =>
      apply temporal_patterns_floor in Hrun; destruct Hrun as [_ [_ ?]]
  | Hrun : _analyze_engine_patterns _ _ = Ok _ |- _ =>
      apply engine_patterns_floor in Hrun; destruct Hrun as [_ [Hall _]]
  | Hrun : _analyze_content_feature_patterns _ _ = Ok _ |- _ =>
      apply content_feature_patterns_floor in Hrun; destruct Hrun as [_ [_ ?]]
  end.
  destruct (query_similarity_patterns_floor E g df) as [_ [Hq _]].
  revert Hq. generalize (_analyze_query_similarity_patterns E g df). intros qs Hq.
  rewrite !filter_app.
  match goal with
  | Hty : Forall (fun p => In (pattern_type p) [engine_content_preference]) ?l |- _ =>
      assert (Hkeep : filter (is_pattern_type engine_content_preference) l = l)
        by (apply filter_all; eapply Forall_impl; [|exact Hty];
            intros p [Hp | []]; unfold is_pattern_type; now rewrite <- Hp);
      rewrite Hkeep; clear Hty Hkeep
  end.
  other_types engine_content_preference.
  cbn [app]. rewrite app_nil_r. exact Hengine.
Qed.

Lemma engine_preferences_name_majority_types_witness :
  exists ps p,
    analyze_citation_patterns sample_env tt all_keys four_from_one_domain = Ok ps
    /\ filter (is_pattern_type engine_content_preference) ps = [p]
    /\ engines p = ["perplexity"] /\ content_types p = ["organic"]
    /\ frequency p = 6%nat.
Proof.
  destruct (@engine_preferences_name_majority_types sample_env tt all_keys
              four_from_one_domain _ eq_refl) as [Hshape _].
  cbv zeta in Hshape.
  eexists. eexists. split; [reflexivity|]. split; [reflexivity|].
  inversion Hshape as [|p rest [e [t [He [Ht [Hin [Hf _]]]]]] _]; subst.
  now repeat split.
Defined.

(** ** Spike days *)

Lemma Qsum_strict_lower (a : Q) (l : list Q) :
  l <> [] -> Forall (fun x => a < x) l -> a * Qnat (List.length l) < Qsum l.
Proof.
  intros Hne Hl. induction Hl as [|x t Hx Ht IH]; [congruence|].
  cbn [Qsum fold_right List.length]. fold (Qsum t).
  rewrite Qnat_S, Qmult_plus_distr_r, Qmult_1_r, Qplus_comm.
  destruct t as [|y t'].
  - simpl. rewrite Qmult_0_r. lra.
  - specialize (IH ltac:(discriminate)). lra.
Qed.

(** The values of a non-negative series are not all above one and a half
    times their mean. *)
Lemma not_all_above_mean (l : list Q) :
  l <> [] -> Forall (fun x => 0 <= x) l -> ~ Forall (fun x => mean l * 1.5 < x) l.
Proof.
  intros Hne Hpos Hall.
  assert (Hn : 0 < Qnat (List.length l)).
  { apply Qnat_pos. destruct l; [congruence | simpl; lia]. }
  pose proof (Qsum_strict_lower Hne Hall) as Hlt.
  assert (H0 : 0 * Qnat (List.length l) <= Qsum l) by now apply Qsum_lower.
  unfold mean in Hlt.
  assert (Heq : Qsum l / Qnat (List.length l) * 1.5 * Qnat (List.length l)
                == 1.5 * Qsum l) by (field; lra).
  rewrite Heq in Hlt. lra.
Qed.

Lemma filter_length_lt {A} (f : A -> bool) (l : list A) :
  forallb f l = false -> (List.length (filter f l) < List.length l)%nat.
Proof.
  induction l as [|x t IH]; simpl; [discriminate|].
  destruct (f x); simpl.
  - intros H. specialize (IH H). lia.
  - intros _. pose proof (filter_length_le f t). lia.
Qed.

Lemma spike_days_fewer (counts : list (Z * nat)) :
  counts <> [] ->
  (List.length (filter (fun dc => Qlt_bool (mean (map (fun dc => Qnat (snd dc)) counts) * 1.5)
                                           (Qnat (snd dc))) counts)
   < List.length counts)%nat.
Proof.
  intros Hne. apply filter_length_lt.
  destruct (forallb _ counts) eqn:Hall; [exfalso | reflexivity].
  rewrite forallb_forall in Hall.
  apply (@not_all_above_mean (map (fun dc : Z * nat => Qnat (snd dc)) counts)).
  - destruct counts; [congruence | discriminate].
  - apply Forall_map, Forall_forall. intros dc _. apply Qnat_nonneg.
  - apply Forall_map, Forall_forall. intros dc Hdc.
    apply Qlt_bool_iff. now apply Hall.
Qed.

Lemma temporal_spikes_source (E : Env) (df : DataFrame) (ps : list CitationPattern) :
  _analyze_temporal_patterns E df = Ok ps ->
  Forall (fun p =>
            pattern_type p = temporal_spikes ->
            let days := List.length (daily_counts_of df) in
            (7 <= days)%nat /\ (2 <= frequency p < days)%nat
            /\ strength p == Qnat (frequency p) / Qnat days /\ strength p < 1) ps.
Proof.
  intros H. unfold _analyze_temporal_patterns in H. cbv zeta in H.
  set (daily_counts := daily_counts_of df) in *.
  set (high_activity_days := filter _ daily_counts) in *.
  assert (Hspikes : (7 <=? List.length daily_counts)%nat = true ->
            (2 <=? List.length high_activity_days)%nat = true ->
            (7 <= List.length daily_counts)%nat
            /\ (2 <= List.length high_activity_days < List.length daily_counts)%nat
            /\ Qmin 1.0 (Qnat (List.length high_activity_days)
                         / Qnat (List.length daily_counts))
               == Qnat (List.length high_activity_days) / Qnat (List.length daily_counts)
            /\ Qmin 1.0 (Qnat (List.length high_activity_days)
                         / Qnat (List.length daily_counts)) < 1).
  { intros H7 H2. apply Nat.leb_le in H7. apply Nat.leb_le in H2.
    assert (Hlt : (List.length high_activity_days < List.length daily_counts)%nat).
    { apply spike_days_fewer. destruct daily_counts; [simpl in H7; lia | discriminate]. }
    assert (Hratio : Qnat (List.length high_activity_days) / Qnat (List.length daily_counts)
                     < 1).
    { apply Qlt_shift_div_r; [apply Qnat_pos; lia|]. rewrite Qmult_1_l.
      unfold Qnat, Qlt. simpl. lia. }
    split; [exact H7|]. split; [lia|]. split.
    - apply Q.min_r. apply Qle_trans with 1; [lra | discriminate].
    - eapply Qle_lt_trans; [apply Q.le_min_r | exact Hratio]. }
  exn_inv; cbn [app]; repeat apply Forall_cons; try apply Forall_nil;
    cbn; intros Htype; try discriminate Htype; now apply Hspikes.
Qed.

(** X25. A temporal-spike pattern of [analyze_citation_patterns] leaves
    some day out: it is reported from 7 distinct days on, its frequency is
    at least 2 and below the number of days, so its strength, the share of
    spike days, is below 1 and the cap of 1.0 never applies. *)
Theorem spike_days_are_a_proper_share (E : Env) (g : NumpyState E)
    (keys : list string) (citations : list CitationRecord) (ps : list CitationPattern) :
  analyze_citation_patterns E g keys citations = Ok ps ->
  Forall (fun p =>
            pattern_type p = temporal_spikes ->
            let days :=
              List.length (daily_counts_of {| columns := keys; rows := citations |}) in
            (7 <= days)%nat /\ (2 <= frequency p < days)%nat
            /\ strength p == Qnat (frequency p) / Qnat days /\ strength p < 1) ps.
Proof.
  intros H. unfold analyze_citation_patterns in H.
  destruct citations as [|c cs]; [inversion H; constructor|].
  set (df := {| columns := keys; rows := c :: cs |}) in *.
  exn_inv.
  repeat match goal with
  | Hrun : _analyze_domain_patterns _ _ = Ok _ |- _ =>
      apply domain_patterns_floor in Hrun; destruct Hrun as [_ [_ ?]]
  | Hrun : _analyze_content_type_patterns _ _ = Ok _ |- _ =>
      apply content_type_patterns_floor in Hrun; destruct Hrun as [_ [_ ?]]
  | Hrun : _analyze_position_patterns _ _ = Ok _ |- _ =>
      apply position_patterns_floor in Hrun; destruct Hrun as [_ [_ ?]]
  | Hrun : _analyze_temporal_patterns _ _ = Ok _ |- _ =>
      apply temporal_spikes_source in Hrun
  | Hrun : _analyze_engine_patterns _ _ = Ok _ |- _ =>
      apply engine_patterns_floor in Hrun; destruct Hrun as [_ [? _]]
  | Hrun : _analyze_content_feature_patterns _ _ = Ok _ |- _ =>
      apply content_feature_patterns_floor in Hrun; destruct Hrun as [_ [_ ?]]
  end.
  destruct (query_similarity_patterns_floor E g df) as [_ [Hq _]].
  repeat (apply Forall_app; split); try assumption;
    match goal with
    | Hty : Forall (fun p => In (pattern_type p) ?allowed) ?l |- Forall _ ?l =>
        eapply Forall_impl; [|exact Hty]; intros p Hin Htype;
        cbv beta in Hin; rewrite Htype in Hin; simpl in Hin; exfalso; intuition discriminate
    end.
Qed.

Lemma spike_days_are_a_proper_share_witness :
  exists ps,
    analyze_citation_patterns sample_env tt all_keys two_busy_days = Ok ps
    /\ filter (is_pattern_type temporal_spikes) ps <> []
    /\ Forall (fun p =>
                 pattern_type p = temporal_spikes ->
                 let days :=
                   List.length (daily_counts_of {| columns := all_keys;
                                                   rows := two_busy_days |}) in
                 (7 <= days)%nat /\ (2 <= frequency p < days)%nat
                 /\ strength p == Qnat (frequency p) / Qnat days /\ strength p < 1) ps.
Proof.
  pose (ps := match analyze_citation_patterns sample_env tt all_keys two_busy_days with
              | Ok ps => ps
              | Raise _ => []
              end).
  assert (Hrun : analyze_citation_patterns sample_env tt all_keys two_busy_days = Ok ps)
    by (vm_compute; reflexivity).
  exists ps. split; [exact Hrun|]. split; [vm_compute; discriminate|].
  apply (@spike_days_are_a_proper_share sample_env tt all_keys two_busy_days ps Hrun).
Defined.
